(** * Legion Slim 7i Gen 9 (16IRX9) platform driver: EC transport and
      register semantics

    A shallow embedding of [legion_laptop_16irx9.c].  The driver talks to the
    embedded controller (EC) through two I/O ports; every port access, delay
    and lock operation of the C code is kept as a primitive of a small state
    monad, so that the handshake of [ec_read] / [ec_write] can be followed
    step by step. *)

From Stdlib Require Import ZArith String Ascii List Lia DecimalString.
From Stdlib Require Decimal DecimalPos.
From stdpp Require Import base tactics option list gmap strings.

Local Open Scope Z_scope.

(** ** Constants of the source *)

Definition EC_PORT_CMD : Z := 0x66.
Definition EC_PORT_DATA : Z := 0x62.

(** [enum gen9_ec_registers] *)
Definition EC_REG_PERFORMANCE_MODE : Z := 0xA0.
Definition EC_REG_AI_ENGINE : Z := 0xA1.
Definition EC_REG_THERMAL_MODE : Z := 0xA2.
Definition EC_REG_CUSTOM_TDP : Z := 0xA4.
Definition EC_REG_FAN1_SPEED : Z := 0xB0.
Definition EC_REG_FAN2_SPEED : Z := 0xB1.
Definition EC_REG_FAN1_TARGET : Z := 0xB2.
Definition EC_REG_FAN2_TARGET : Z := 0xB3.
Definition EC_REG_CPU_PL1 : Z := 0xC0.
Definition EC_REG_CPU_PL2 : Z := 0xC1.
Definition EC_REG_GPU_TGP : Z := 0xC4.
Definition EC_REG_CPU_TEMP : Z := 0xE0.
Definition EC_REG_GPU_TEMP : Z := 0xE2.
Definition EC_REG_GPU_HOTSPOT : Z := 0xE3.
Definition EC_REG_VRM_TEMP : Z := 0xE5.
Definition EC_REG_SSD_TEMP : Z := 0xE6.
Definition EC_REG_RGB_MODE : Z := 0xF0.
Definition EC_REG_RGB_BRIGHTNESS : Z := 0xF1.

(** Kernel error numbers (asm-generic/errno); the C code returns them
    negated. *)
Definition ENOMEM : Z := 12.
Definition EINVAL : Z := 22.
Definition EOPNOTSUPP : Z := 95.
Definition ETIMEDOUT : Z := 110.

(** Fixed-width C integers, with their wrap-around written out. *)
Definition u8 (z : Z) : Z := z mod 2 ^ 8.
Definition c_int (z : Z) : Z := (z + 2 ^ 31) mod 2 ^ 32 - 2 ^ 31.
Definition ULONG_MAX : Z := 2 ^ 64 - 1.

(** ** Driver state *)

(** [struct legion_laptop].  The three pointers are kept as opaque handles
    (0 is NULL); the embedded [kbd_led] is never accessed by the driver. *)
Record legion_laptop := {
  pdev : Z;
  hwmon_dev : Z;
  thermal_zone : Z;
  (* Cached values *)
  performance_mode : Z;
  fan1_speed : Z;
  fan2_speed : Z;
  cpu_temp : Z;
  gpu_temp : Z;
}.

(** What the driver does to the outside, in order: lock operations on
    [ec_mutex], port reads with the byte obtained, port writes, delays. *)
Inductive event :=
  | Lock
  | Unlock
  | Inb (port : Z) (v : Z)
  | Outb (v : Z) (port : Z)
  | Udelay (usecs : Z).

#[global] Instance event_eq_dec : EqDecision event.
Proof. solve_decision. Defined.

(** The hardware behind the two ports.  Any type of controller states with
    a reaction to [inb], [outb] and the passing of time will do. *)
Class PortIO (HW : Type) := {
  hw_inb : Z -> HW -> Z * HW;
  hw_outb : Z -> Z -> HW -> HW;
  hw_udelay : Z -> HW -> HW;
}.

(** The state a handler runs in: the controller, the global [ec_mutex], the
    global [legion_dev] pointer ([None] is NULL) and the log of events. *)
Record world (HW : Type) := World {
  ec : HW;
  ec_mutex : bool;
  legion_dev : option legion_laptop;
  trace : list event;
}.
Arguments World {HW}.
Arguments ec {HW}.
Arguments ec_mutex {HW}.
Arguments legion_dev {HW}.
Arguments trace {HW}.

(** ** The monad of driver code

    A computation either returns with a value and a new world, or it has no
    defined result: it sleeps forever on a mutex it holds itself, follows a
    NULL [legion_dev], or uses a local that was never assigned. *)
Inductive fault := Deadlock | NullDeref | Uninitialised.

Inductive outcome (W A : Type) :=
  | Done (a : A) (w : W)
  | Fault (f : fault).
Arguments Done {W A}.
Arguments Fault {W A}.

Definition M (HW A : Type) : Type := world HW -> outcome (world HW) A.

#[global] Instance M_ret {HW} : MRet (M HW) := fun A a w => Done a w.
#[global] Instance M_bind {HW} : MBind (M HW) := fun A B f m w =>
  match m w with
  | Done a w' => f a w'
  | Fault e => Fault e
  end.

Definition fail {HW A} (e : fault) : M HW A := fun _ => Fault e.

(** ** Kernel helpers used by the handlers

    A [string] stands for a C string: the bytes before the terminating NUL. *)

(** [sysfs_streq] (lib/string.c): equality up to one trailing newline on
    either side.  The loop advances while both strings continue with the
    same character; [sysfs_streq_tail] is the three tests after the loop. *)
Definition sysfs_streq_tail (s1 s2 : string) : bool :=
  match s1, s2 with
  | EmptyString, EmptyString => true
  | EmptyString, String c EmptyString => Ascii.eqb c "010"%char
  | String c EmptyString, EmptyString => Ascii.eqb c "010"%char
  | _, _ => false
  end.

Fixpoint sysfs_streq (s1 s2 : string) : bool :=
  match s1, s2 with
  | String c1 r1, String c2 r2 =>
      if Ascii.eqb c1 c2 then sysfs_streq r1 r2 else sysfs_streq_tail s1 s2
  | _, _ => sysfs_streq_tail s1 s2
  end.

(** [kstrtoul(s, 10, &res)] (lib/kstrtox.c) on a 64-bit kernel: an optional
    [+], at least one decimal digit, an optional final newline, nothing
    else; a value that does not fit 64 bits is refused with [-ERANGE]. *)
Definition ERANGE : Z := 34.

Definition digit_val (c : ascii) : option Z :=
  let n := Z.of_N (N_of_ascii c) in
  if (48 <=? n) && (n <=? 57) then Some (n - 48) else None.

(** [_parse_integer] for base 10: returns the unread rest, the accumulated
    value, the number of digits read and the overflow flag. *)
Fixpoint parse_integer (s : string) (res : Z) (rv : nat) (ovf : bool)
  : string * Z * nat * bool :=
  match s with
  | EmptyString => (s, res, rv, ovf)
  | String c s' =>
      match digit_val c with
      | None => (s, res, rv, ovf)
      | Some val =>
          let ovf' :=
            if negb (Z.land res (Z.shiftl (2 ^ 64 - 1) 60 mod 2 ^ 64) =? 0)
            then ovf || (res >? (ULONG_MAX - val) / 10)
            else ovf in
          parse_integer s' ((res * 10 + val) mod 2 ^ 64) (S rv) ovf'
      end
  end.

(** The pair is the return code and what was stored through [res]. *)
Definition kstrtoul (s : string) : Z * option Z :=
  let s := match s with
           | String "+"%char s' => s'
           | _ => s
           end in
  let '(rest, res, rv, ovf) := parse_integer s 0 O false in
  if ovf then (- ERANGE, None)
  else if Nat.eqb rv O then (- EINVAL, None)
  else
    let rest := match rest with
                | String "010"%char r => r
                | _ => rest
                end in
    match rest with
    | EmptyString => (0, Some res)
    | _ => (- EINVAL, None)
    end.

(** [sprintf(buf, "%d\n", x)] and [sprintf(buf, "%s\n", s)]: the text put
    into [buf]; the return value of [sprintf] is its length. *)
Definition sprintf_d_nl (x : Z) : string :=
  (DecimalString.NilZero.string_of_int (Z.to_int x) ++ String "010"%char EmptyString)%string.

Definition sprintf_s_nl (s : string) : string :=
  (s ++ String "010"%char EmptyString)%string.

Definition strlen (s : string) : Z := Z.of_nat (String.length s).

(** [enum hwmon_sensor_types] (linux/hwmon.h) *)
Inductive hwmon_sensor_types :=
  | hwmon_chip
  | hwmon_temp
  | hwmon_in
  | hwmon_curr
  | hwmon_power
  | hwmon_energy
  | hwmon_humidity
  | hwmon_fan
  | hwmon_pwm
  | hwmon_intrusion.

(** [IS_ERR] / [PTR_ERR] (linux/err.h): a pointer in the last 4095 values of
    the address space, read as a signed [long], is an error number. *)
Definition MAX_ERRNO : Z := 4095.
Definition IS_ERR (ptr : Z) : bool := (- MAX_ERRNO <=? ptr) && (ptr <? 0).
Definition PTR_ERR (ptr : Z) : Z := ptr.

Section Driver.
Context {HW : Type} `{!PortIO HW}.

Implicit Types (w : world HW) (reg value port : Z).

(** *** Primitives *)

Definition log (e : event) w : world HW :=
  World (ec w) (ec_mutex w) (legion_dev w) (trace w ++ [e]).

Definition mutex_lock : M HW unit := fun w =>
  if ec_mutex w then Fault Deadlock
  else Done tt (log Lock (World (ec w) true (legion_dev w) (trace w))).

Definition mutex_unlock : M HW unit := fun w =>
  Done tt (log Unlock (World (ec w) false (legion_dev w) (trace w))).

Definition inb port : M HW Z := fun w =>
  let '(v, h) := hw_inb port (ec w) in
  Done (u8 v) (log (Inb port (u8 v)) (World h (ec_mutex w) (legion_dev w) (trace w))).

Definition outb value port : M HW unit := fun w =>
  Done tt (log (Outb value port)
             (World (hw_outb value port (ec w)) (ec_mutex w) (legion_dev w) (trace w))).

Definition udelay usecs : M HW unit := fun w =>
  Done tt (log (Udelay usecs)
             (World (hw_udelay usecs (ec w)) (ec_mutex w) (legion_dev w) (trace w))).

(** *** EC communication functions *)

(** [for (i = 0; i < 1000; i++)]: the argument counts the iterations that
    are left. *)
Fixpoint ec_wait_loop (left : nat) : M HW Z :=
  match left with
  | O => mret (- ETIMEDOUT)
  | S left' =>
      st ← inb EC_PORT_CMD;
      if Z.land st 0x02 =? 0 then mret 0
      else udelay 10;; ec_wait_loop left'
  end.

Definition ec_wait : M HW Z := ec_wait_loop 1000.

(** The label [out:] of [ec_read]; [value] is what has been stored through
    the result pointer, if anything. *)
Definition ec_read_out (ret : Z) (value : option Z) : M HW (Z * option Z) :=
  mutex_unlock;; mret (ret, value).

Definition ec_read reg : M HW (Z * option Z) :=
  mutex_lock;;
  ret ← ec_wait;
  if negb (ret =? 0) then ec_read_out ret None else
  outb 0x80 EC_PORT_CMD;;
  ret ← ec_wait;
  if negb (ret =? 0) then ec_read_out ret None else
  outb reg EC_PORT_DATA;;
  ret ← ec_wait;
  if negb (ret =? 0) then ec_read_out ret None else
  v ← inb EC_PORT_DATA;
  ec_read_out ret (Some v).

Definition ec_write_out (ret : Z) : M HW Z :=
  mutex_unlock;; mret ret.

Definition ec_write reg value : M HW Z :=
  mutex_lock;;
  ret ← ec_wait;
  if negb (ret =? 0) then ec_write_out ret else
  outb 0x81 EC_PORT_CMD;;
  ret ← ec_wait;
  if negb (ret =? 0) then ec_write_out ret else
  outb reg EC_PORT_DATA;;
  ret ← ec_wait;
  if negb (ret =? 0) then ec_write_out ret else
  outb value EC_PORT_DATA;;
  ret ← ec_wait;
  ec_write_out ret.

(** Reading a local variable: one that was never assigned has no value. *)
Definition load {A} (x : option A) : M HW A :=
  match x with
  | Some v => mret v
  | None => fail Uninitialised
  end.

(** [legion_dev->performance_mode = mode] *)
Definition set_performance_mode (mode : Z) : M HW unit := fun w =>
  match legion_dev w with
  | None => Fault NullDeref
  | Some d =>
      Done tt (World (ec w) (ec_mutex w)
                 (Some {| pdev := pdev d; hwmon_dev := hwmon_dev d;
                          thermal_zone := thermal_zone d;
                          performance_mode := mode;
                          fan1_speed := fan1_speed d; fan2_speed := fan2_speed d;
                          cpu_temp := cpu_temp d; gpu_temp := gpu_temp d |})
                 (trace w))
  end.

(** *** Attribute handlers

    The [dev] and [attr] arguments are unused by every handler and left
    out.  A [show] handler returns its return value and the text it put
    into [buf], if any; a [store] handler gets [buf] and [count]. *)

(** Performance mode control *)
Definition performance_mode_show : M HW (Z * option string) :=
  '(ret, mode) ← ec_read EC_REG_PERFORMANCE_MODE;
  if negb (ret =? 0) then mret (ret, None) else
  mode ← load mode;
  let mode_str :=
    match mode with
    | 0 => "quiet"
    | 1 => "balanced"
    | 2 => "performance"
    | 3 => "custom"
    | _ => "unknown"
    end%string in
  mret (strlen (sprintf_s_nl mode_str), Some (sprintf_s_nl mode_str)).

Definition performance_mode_store (buf : string) (count : Z) : M HW Z :=
  let mode :=
    if sysfs_streq buf "quiet" then Some 0
    else if sysfs_streq buf "balanced" then Some 1
    else if sysfs_streq buf "performance" then Some 2
    else if sysfs_streq buf "custom" then Some 3
    else None in
  match mode with
  | None => mret (- EINVAL)
  | Some mode =>
      ret ← ec_write EC_REG_PERFORMANCE_MODE mode;
      if negb (ret =? 0) then mret ret else
      set_performance_mode mode;;
      mret count
  end.

(** Fan control *)
Definition fan1_speed_show : M HW (Z * option string) :=
  '(ret, speed) ← ec_read EC_REG_FAN1_SPEED;
  if negb (ret =? 0) then mret (ret, None) else
  speed ← load speed;
  (* Convert to RPM (speed * 100) *)
  let out := sprintf_d_nl (c_int (speed * 100)) in
  mret (strlen out, Some out).

Definition fan1_target_store (buf : string) (count : Z) : M HW Z :=
  let '(err, target) := kstrtoul buf in
  if negb (err =? 0) then mret (- EINVAL) else
  target ← load target;
  if target >? 100 then mret (- EINVAL) else
  ret ← ec_write EC_REG_FAN1_TARGET (u8 target);
  if negb (ret =? 0) then mret ret else
  mret count.

Definition fan2_speed_show : M HW (Z * option string) :=
  '(ret, speed) ← ec_read EC_REG_FAN2_SPEED;
  if negb (ret =? 0) then mret (ret, None) else
  speed ← load speed;
  let out := sprintf_d_nl (c_int (speed * 100)) in
  mret (strlen out, Some out).

Definition fan2_target_store (buf : string) (count : Z) : M HW Z :=
  let '(err, target) := kstrtoul buf in
  if negb (err =? 0) then mret (- EINVAL) else
  target ← load target;
  if target >? 100 then mret (- EINVAL) else
  ret ← ec_write EC_REG_FAN2_TARGET (u8 target);
  if negb (ret =? 0) then mret ret else
  mret count.

(** Temperature monitoring *)
Definition cpu_temp_show : M HW (Z * option string) :=
  '(ret, temp) ← ec_read EC_REG_CPU_TEMP;
  if negb (ret =? 0) then mret (ret, None) else
  temp ← load temp;
  mret (strlen (sprintf_d_nl temp), Some (sprintf_d_nl temp)).

Definition gpu_temp_show : M HW (Z * option string) :=
  '(ret, temp) ← ec_read EC_REG_GPU_TEMP;
  if negb (ret =? 0) then mret (ret, None) else
  temp ← load temp;
  mret (strlen (sprintf_d_nl temp), Some (sprintf_d_nl temp)).

Definition gpu_hotspot_show : M HW (Z * option string) :=
  '(ret, temp) ← ec_read EC_REG_GPU_HOTSPOT;
  if negb (ret =? 0) then mret (ret, None) else
  temp ← load temp;
  mret (strlen (sprintf_d_nl temp), Some (sprintf_d_nl temp)).

Definition vrm_temp_show : M HW (Z * option string) :=
  '(ret, temp) ← ec_read EC_REG_VRM_TEMP;
  if negb (ret =? 0) then mret (ret, None) else
  temp ← load temp;
  mret (strlen (sprintf_d_nl temp), Some (sprintf_d_nl temp)).

Definition ssd_temp_show : M HW (Z * option string) :=
  '(ret, temp) ← ec_read EC_REG_SSD_TEMP;
  if negb (ret =? 0) then mret (ret, None) else
  temp ← load temp;
  mret (strlen (sprintf_d_nl temp), Some (sprintf_d_nl temp)).

(** Power limit control *)
Definition cpu_pl1_store (buf : string) (count : Z) : M HW Z :=
  let '(err, pl1) := kstrtoul buf in
  if negb (err =? 0) then mret (- EINVAL) else
  pl1 ← load pl1;
  if pl1 >? 140 then mret (- EINVAL) else  (* Max 140W for i9-14900HX *)
  ret ← ec_write EC_REG_CPU_PL1 (u8 pl1);
  if negb (ret =? 0) then mret ret else
  mret count.

Definition cpu_pl2_store (buf : string) (count : Z) : M HW Z :=
  let '(err, pl2) := kstrtoul buf in
  if negb (err =? 0) then mret (- EINVAL) else
  pl2 ← load pl2;
  if pl2 >? 200 then mret (- EINVAL) else  (* Max 200W turbo *)
  ret ← ec_write EC_REG_CPU_PL2 (u8 pl2);
  if negb (ret =? 0) then mret ret else
  mret count.

Definition gpu_tgp_store (buf : string) (count : Z) : M HW Z :=
  let '(err, tgp) := kstrtoul buf in
  if negb (err =? 0) then mret (- EINVAL) else
  tgp ← load tgp;
  if tgp >? 140 then mret (- EINVAL) else  (* Max 140W for RTX 4070 *)
  ret ← ec_write EC_REG_GPU_TGP (u8 tgp);
  if negb (ret =? 0) then mret ret else
  mret count.

(** RGB control *)
Definition rgb_mode_store (buf : string) (count : Z) : M HW Z :=
  let mode :=
    if sysfs_streq buf "off" then Some 0
    else if sysfs_streq buf "static" then Some 1
    else if sysfs_streq buf "breathing" then Some 2
    else if sysfs_streq buf "rainbow" then Some 3
    else if sysfs_streq buf "wave" then Some 4
    else None in
  match mode with
  | None => mret (- EINVAL)
  | Some mode =>
      ret ← ec_write EC_REG_RGB_MODE mode;
      if negb (ret =? 0) then mret ret else
      mret count
  end.

Definition rgb_brightness_store (buf : string) (count : Z) : M HW Z :=
  let '(err, brightness) := kstrtoul buf in
  if negb (err =? 0) then mret (- EINVAL) else
  brightness ← load brightness;
  if brightness >? 100 then mret (- EINVAL) else
  ret ← ec_write EC_REG_RGB_BRIGHTNESS (u8 brightness);
  if negb (ret =? 0) then mret ret else
  mret count.

(** Gen 9 hardware fixes implementation.  The results of the ten
    [ec_write] calls are not looked at; [dev_info] only logs. *)
Definition apply_gen9_fixes_store (buf : string) (count : Z) : M HW Z :=
  let '(err, enable) := kstrtoul buf in
  if negb (err =? 0) then mret (- EINVAL) else
  enable ← load enable;
  if negb (enable =? 0) then
    (* Apply thermal throttling fix *)
    ec_write 0xD0 0x69;;  (* CPU TjMax to 105 C *)
    ec_write 0xD2 0x05;;  (* 5 C throttle offset *)
    ec_write 0xD3 0x02;;  (* Enhanced vapor chamber mode *)
    ec_write 0xD4 0x0A;;  (* Aggressive thermal velocity *)
    (* Apply optimized fan curve *)
    ec_write 0xB6 0x02;;  (* Fan hysteresis *)
    ec_write 0xB7 0x03;;  (* Fast fan acceleration *)
    ec_write 0xB8 0x01;;  (* Enable zero RPM mode *)
    (* Optimize core scheduling *)
    ec_write 0xC7 0x39;;  (* P-core ratio (5.7GHz) *)
    ec_write 0xC8 0x2C;;  (* E-core ratio (4.4GHz) *)
    ec_write 0xC9 0x32;;  (* Cache ratio *)
    mret count
  else
    mret count.

(** *** Hwmon integration for temperature monitoring *)

Definition legion_hwmon_is_visible (type : hwmon_sensor_types) (attr channel : Z) : Z :=
  292.  (* 0444 *)

(** The pair is the return value and what was stored through [val]. *)
Definition legion_hwmon_read (type : hwmon_sensor_types) (attr channel : Z)
  : M HW (Z * option Z) :=
  match type with
  | hwmon_temp =>
      let reg :=
        match channel with
        | 0 => Some EC_REG_CPU_TEMP      (* CPU *)
        | 1 => Some EC_REG_GPU_TEMP      (* GPU *)
        | 2 => Some EC_REG_GPU_HOTSPOT   (* GPU Hotspot *)
        | 3 => Some EC_REG_VRM_TEMP      (* VRM *)
        | 4 => Some EC_REG_SSD_TEMP      (* SSD *)
        | _ => None
        end in
      match reg with
      | None => mret (- EOPNOTSUPP, None)
      | Some reg =>
          '(ret, temp) ← ec_read reg;
          if negb (ret =? 0) then mret (ret, None) else
          temp ← load temp;
          mret (0, Some (c_int (temp * 1000)))  (* Convert to millidegrees *)
      end
  | hwmon_fan =>
      let reg :=
        match channel with
        | 0 => Some EC_REG_FAN1_SPEED    (* Fan 1 *)
        | 1 => Some EC_REG_FAN2_SPEED    (* Fan 2 *)
        | _ => None
        end in
      match reg with
      | None => mret (- EOPNOTSUPP, None)
      | Some reg =>
          '(ret, temp) ← ec_read reg;
          if negb (ret =? 0) then mret (ret, None) else
          temp ← load temp;
          mret (0, Some (c_int (temp * 100)))  (* Convert to RPM *)
      end
  | _ => mret (- EOPNOTSUPP, None)
  end.

(** *** Attach and detach

    The three kernel services [legion_laptop_probe] relies on are outside
    the driver; their results are arguments: whether [devm_kzalloc] found
    memory, the return value of [sysfs_create_group], and the pointer
    returned by [devm_hwmon_device_register_with_info]. *)

(** [legion_dev = devm_kzalloc(...)]: NULL, or zeroed memory. *)
Definition devm_kzalloc (ok : bool) : M HW bool := fun w =>
  let fresh := {| pdev := 0; hwmon_dev := 0; thermal_zone := 0;
                  performance_mode := 0; fan1_speed := 0; fan2_speed := 0;
                  cpu_temp := 0; gpu_temp := 0 |} in
  Done ok (World (ec w) (ec_mutex w) (if ok then Some fresh else None) (trace w)).

Definition set_pdev (p : Z) : M HW unit := fun w =>
  match legion_dev w with
  | None => Fault NullDeref
  | Some d =>
      Done tt (World (ec w) (ec_mutex w)
                 (Some {| pdev := p; hwmon_dev := hwmon_dev d;
                          thermal_zone := thermal_zone d;
                          performance_mode := performance_mode d;
                          fan1_speed := fan1_speed d; fan2_speed := fan2_speed d;
                          cpu_temp := cpu_temp d; gpu_temp := gpu_temp d |})
                 (trace w))
  end.

Definition set_hwmon_dev (p : Z) : M HW unit := fun w =>
  match legion_dev w with
  | None => Fault NullDeref
  | Some d =>
      Done tt (World (ec w) (ec_mutex w)
                 (Some {| pdev := pdev d; hwmon_dev := p;
                          thermal_zone := thermal_zone d;
                          performance_mode := performance_mode d;
                          fan1_speed := fan1_speed d; fan2_speed := fan2_speed d;
                          cpu_temp := cpu_temp d; gpu_temp := gpu_temp d |})
                 (trace w))
  end.

Definition legion_laptop_probe (pdev_ptr : Z)
    (kzalloc_ok : bool) (sysfs_ret : Z) (hwmon_ptr : Z) : M HW Z :=
  allocated ← devm_kzalloc kzalloc_ok;
  if negb allocated then mret (- ENOMEM) else
  set_pdev pdev_ptr;;
  (* Create sysfs attributes *)
  if negb (sysfs_ret =? 0) then mret sysfs_ret else
  (* Register hwmon device *)
  set_hwmon_dev hwmon_ptr;;
  if IS_ERR hwmon_ptr then mret (PTR_ERR hwmon_ptr) (* err_sysfs *) else
  (* Apply Gen 9 hardware fixes on load *)
  ec_write 0xD0 0x69;;  (* CPU TjMax to 105 C *)
  ec_write 0xD3 0x02;;  (* Enhanced vapor chamber mode *)
  ec_write 0xB8 0x01;;  (* Enable zero RPM mode *)
  mret 0.

Definition legion_laptop_remove : M HW Z := mret 0.

End Driver.

(** ** A reference controller

    Not part of the driver: the hardware the handlers are run against where
    a concrete one is needed, and the controller "that echoes writes" of the
    round-trip property.  It keeps a register file and follows the two-port
    protocol (command 0x80: read, 0x81: write, then the address and, for a
    write, the data on the data port).  Each byte written to a port makes
    the controller busy (status bit 1 set) for a number of status polls taken
    from [delays]; once [delays] is used up it answers at once. *)
Module FakeEC.

Inductive phase :=
  | Idle
  | ReadAddr
  | WriteAddr
  | WriteData (addr : Z).

Record t := Make {
  regs : gmap Z Z;
  state : phase;
  busy : nat;
  delays : list nat;
  data_out : Z;
}.

Definition reg (h : t) (addr : Z) : Z := default 0 (regs h !! addr).

Definition inb (port : Z) (h : t) : Z * t :=
  if port =? EC_PORT_CMD then
    match busy h with
    | O => (0x00, h)
    | S n => (0x02, Make (regs h) (state h) n (delays h) (data_out h))
    end
  else if port =? EC_PORT_DATA then (data_out h, h)
  else (0xFF, h).

Definition outb (value port : Z) (h : t) : t :=
  let d := hd O (delays h) in
  let ds := tl (delays h) in
  if port =? EC_PORT_CMD then
    let st := if value =? 0x80 then ReadAddr
              else if value =? 0x81 then WriteAddr
              else Idle in
    Make (regs h) st d ds (data_out h)
  else if port =? EC_PORT_DATA then
    match state h with
    | Idle => Make (regs h) Idle d ds (data_out h)
    | ReadAddr => Make (regs h) Idle d ds (reg h value)
    | WriteAddr => Make (regs h) (WriteData value) d ds (data_out h)
    | WriteData addr => Make (<[addr := value]> (regs h)) Idle d ds (data_out h)
    end
  else h.

#[global] Instance port_io : PortIO t := {
  hw_inb := inb;
  hw_outb := outb;
  hw_udelay := fun _ h => h;
}.

(** An idle controller with the given registers and delays. *)
Definition init (r : gmap Z Z) (ds : list nat) : t := Make r Idle O ds 0.

(** A world with that controller, the lock free, the driver attached with
    the cached values [d], and an empty log. *)
Definition attached (r : gmap Z Z) (ds : list nat) (d : legion_laptop) : world t :=
  World (init r ds) false (Some d) [].

(** A controller that is never busy for 1000 polls in a row. *)
Definition responsive (h : t) : Prop :=
  (busy h < 1000)%nat /\ Forall (fun d => (d < 1000)%nat) (delays h).

(** The controller once it has become ready. *)
Definition settle (h : t) : t := Make (regs h) (state h) O (delays h) (data_out h).

End FakeEC.

(** A controller whose status never leaves "busy". *)
Module StuckEC.

#[global] Instance port_io : PortIO unit := {
  hw_inb := fun _ h => (0x02, h);
  hw_outb := fun _ _ h => h;
  hw_udelay := fun _ h => h;
}.

End StuckEC.


(** ** Vocabulary of the statements

    Nothing below is run by the driver; these definitions describe logs and
    controllers so that the theorems can talk about them. *)

(** A status byte with bit 1 set: the controller is not ready. *)
Definition is_busy (st : Z) : Prop := Z.land st 0x02 <> 0.

(** The events of one poll that found the controller busy. *)
Definition poll_busy (st : Z) : list event := [Inb EC_PORT_CMD st; Udelay 10].

(** The events of a wait that saw the statuses [busy] and then, if it did
    not give up, [last]. *)
Definition wait_events (busy : list Z) (last : option Z) : list event :=
  concat (poll_busy <$> busy) ++
  match last with
  | Some st => [Inb EC_PORT_CMD st]
  | None => []
  end.

Definition is_inb (e : event) : bool :=
  match e with
  | Inb _ _ => true
  | _ => false
  end.

(** The number of port reads in a log. *)
Definition poll_count (t : list event) : nat := length (List.filter is_inb t).

(** The two ways a wait ends, with the events it leaves in the log. *)
Inductive wait_path : Z -> list event -> Prop :=
  | wait_ready busy st :
      (length busy < 1000)%nat -> Forall is_busy busy -> Z.land st 0x02 = 0 ->
      wait_path 0 (wait_events busy (Some st))
  | wait_expired busy :
      length busy = 1000%nat -> Forall is_busy busy ->
      wait_path (- ETIMEDOUT) (wait_events busy None).

(** An event a wait may leave: a read of the command port or a delay of 10
    microseconds. *)
Definition is_poll (e : event) : Prop :=
  match e with
  | Inb port _ => port = EC_PORT_CMD
  | Udelay usecs => usecs = 10
  | _ => False
  end.

Definition is_lock_op (e : event) : bool :=
  match e with
  | Lock | Unlock => true
  | _ => false
  end.

(** The lock operations of a log, in order. *)
Definition lock_ops (t : list event) : list event := List.filter is_lock_op t.

Definition is_data_read (e : event) : bool :=
  match e with
  | Inb port _ => port =? EC_PORT_DATA
  | _ => false
  end.

(** The reads of the data port in a log, in order. *)
Definition data_reads (t : list event) : list event := List.filter is_data_read t.

Definition is_outb (e : event) : bool :=
  match e with
  | Outb _ _ => true
  | _ => false
  end.

(** The port writes of a log, in order. *)
Definition port_writes (t : list event) : list event := List.filter is_outb t.

(** The exit paths of [ec_read reg], between taking and releasing the lock:
    the return value, the byte stored through the result pointer, and the
    events. *)
Inductive read_path (reg : Z) : Z -> option Z -> list event -> Prop :=
  | read_expired_1 t1 :
      wait_path (- ETIMEDOUT) t1 ->
      read_path reg (- ETIMEDOUT) None t1
  | read_expired_2 t1 t2 :
      wait_path 0 t1 -> wait_path (- ETIMEDOUT) t2 ->
      read_path reg (- ETIMEDOUT) None (t1 ++ Outb 0x80 EC_PORT_CMD :: t2)
  | read_expired_3 t1 t2 t3 :
      wait_path 0 t1 -> wait_path 0 t2 -> wait_path (- ETIMEDOUT) t3 ->
      read_path reg (- ETIMEDOUT) None
        (t1 ++ Outb 0x80 EC_PORT_CMD :: t2 ++ Outb reg EC_PORT_DATA :: t3)
  | read_done t1 t2 t3 v :
      wait_path 0 t1 -> wait_path 0 t2 -> wait_path 0 t3 -> 0 <= v < 256 ->
      read_path reg 0 (Some v)
        (t1 ++ Outb 0x80 EC_PORT_CMD :: t2 ++ Outb reg EC_PORT_DATA :: t3 ++
           [Inb EC_PORT_DATA v]).

(** The exit paths of [ec_write reg value]. *)
Inductive write_path (reg value : Z) : Z -> list event -> Prop :=
  | write_expired_1 t1 :
      wait_path (- ETIMEDOUT) t1 ->
      write_path reg value (- ETIMEDOUT) t1
  | write_expired_2 t1 t2 :
      wait_path 0 t1 -> wait_path (- ETIMEDOUT) t2 ->
      write_path reg value (- ETIMEDOUT) (t1 ++ Outb 0x81 EC_PORT_CMD :: t2)
  | write_expired_3 t1 t2 t3 :
      wait_path 0 t1 -> wait_path 0 t2 -> wait_path (- ETIMEDOUT) t3 ->
      write_path reg value (- ETIMEDOUT)
        (t1 ++ Outb 0x81 EC_PORT_CMD :: t2 ++ Outb reg EC_PORT_DATA :: t3)
  | write_sent t1 t2 t3 t4 ret :
      wait_path 0 t1 -> wait_path 0 t2 -> wait_path 0 t3 -> wait_path ret t4 ->
      write_path reg value ret
        (t1 ++ Outb 0x81 EC_PORT_CMD :: t2 ++ Outb reg EC_PORT_DATA :: t3 ++
           Outb value EC_PORT_DATA :: t4).

(** A log that ends with a wait that gave up: nothing was done after it. *)
Definition ends_in_timeout (body : list event) : Prop :=
  exists pre t, body = pre ++ t /\ wait_path (- ETIMEDOUT) t.

(** The labels of the performance modes with their register bytes. *)
Definition performance_modes : list (string * Z) :=
  [("quiet", 0); ("balanced", 1); ("performance", 2); ("custom", 3)]%string.

Definition newline : string := String "010"%char EmptyString.

(** [buf] is [label], possibly followed by one newline. *)
Definition names (buf label : string) : Prop :=
  buf = label \/ buf = (label ++ newline)%string.

(** The driver data with another cached performance mode. *)
Definition with_performance_mode (mode : Z) (d : legion_laptop) : legion_laptop :=
  {| pdev := pdev d; hwmon_dev := hwmon_dev d; thermal_zone := thermal_zone d;
     performance_mode := mode;
     fan1_speed := fan1_speed d; fan2_speed := fan2_speed d;
     cpu_temp := cpu_temp d; gpu_temp := gpu_temp d |}.

(** Driver data as [devm_kzalloc] returns it. *)
Definition zero_dev : legion_laptop :=
  {| pdev := 0; hwmon_dev := 0; thermal_zone := 0;
     performance_mode := 0; fan1_speed := 0; fan2_speed := 0;
     cpu_temp := 0; gpu_temp := 0 |}.

(** The driver data once attach has filled in its two pointers. *)
Definition attached_dev (pdev_ptr hwmon_ptr : Z) : legion_laptop :=
  {| pdev := pdev_ptr; hwmon_dev := hwmon_ptr; thermal_zone := 0;
     performance_mode := 0; fan1_speed := 0; fan2_speed := 0;
     cpu_temp := 0; gpu_temp := 0 |}.

Fixpoint ends_with_newline (s : string) : bool :=
  match s with
  | EmptyString => false
  | String c EmptyString => Ascii.eqb c "010"%char
  | String _ s' => ends_with_newline s'
  end.

(** The labels of the lighting modes with their register bytes. *)
Definition rgb_modes : list (string * Z) :=
  [("off", 0); ("static", 1); ("breathing", 2); ("rainbow", 3); ("wave", 4)]%string.

(** The label shown for a byte of the performance-mode register. *)
Definition mode_label (mode : Z) : string :=
  if mode =? 0 then "quiet"
  else if mode =? 1 then "balanced"
  else if mode =? 2 then "performance"
  else if mode =? 3 then "custom"
  else "unknown".

(** The five temperatures. *)
Inductive temp_attr :=
  | CpuTemp
  | GpuTemp
  | GpuHotspot
  | VrmTemp
  | SsdTemp.

Definition temp_reg (a : temp_attr) : Z :=
  match a with
  | CpuTemp => EC_REG_CPU_TEMP
  | GpuTemp => EC_REG_GPU_TEMP
  | GpuHotspot => EC_REG_GPU_HOTSPOT
  | VrmTemp => EC_REG_VRM_TEMP
  | SsdTemp => EC_REG_SSD_TEMP
  end.

(** The sensor channel of a temperature. *)
Definition temp_channel (a : temp_attr) : Z :=
  match a with
  | CpuTemp => 0
  | GpuTemp => 1
  | GpuHotspot => 2
  | VrmTemp => 3
  | SsdTemp => 4
  end.

(** A transaction as seen from outside: a read of a register with its
    return value and the byte stored, or a write of a value to a register
    with its return value. *)
Inductive txn :=
  | TRead (reg ret : Z) (stored : option Z)
  | TWrite (reg value ret : Z).

(** A log that consists of whole transactions, each between a [Lock] and
    the next [Unlock]. *)
Inductive txns : list txn -> list event -> Prop :=
  | txns_nil : txns [] []
  | txns_read reg ret stored body l t :
      read_path reg ret stored body -> txns l t ->
      txns (TRead reg ret stored :: l) (Lock :: body ++ Unlock :: t)
  | txns_write reg value ret body l t :
      write_path reg value ret body -> txns l t ->
      txns (TWrite reg value ret :: l) (Lock :: body ++ Unlock :: t).

(** Exactly one read of [reg]. *)
Definition one_read (reg : Z) (l : list txn) : Prop :=
  exists ret stored, l = [TRead reg ret stored].

(** Nothing, or one write to [reg] of a value between 0 and [hi]. *)
Definition at_most_one_write (reg hi : Z) (l : list txn) : Prop :=
  l = [] \/ exists value ret, 0 <= value <= hi /\ l = [TWrite reg value ret].

(** The writes of a list with their return values. *)
Definition writes_of (fixes : list (Z * Z)) (rets : list Z) : list txn :=
  zip_with (fun fx ret => TWrite fx.1 fx.2 ret) fixes rets.

(** The registers the driver only reads: fan speeds and temperatures. *)
Definition sensor_registers : list Z :=
  [EC_REG_FAN1_SPEED; EC_REG_FAN2_SPEED; EC_REG_CPU_TEMP; EC_REG_GPU_TEMP;
   EC_REG_GPU_HOTSPOT; EC_REG_VRM_TEMP; EC_REG_SSD_TEMP].

(** The time spent in delays, in microseconds. *)
Definition delay_total (t : list event) : Z :=
  foldr (fun e acc => match e with Udelay usecs => usecs + acc | _ => acc end) 0 t.

(** The attributes whose store handler takes a number with an upper bound,
    with the register written and the bound. *)
Inductive bounded_attr :=
  | Fan1Target
  | Fan2Target
  | RgbBrightness
  | CpuPl1
  | CpuPl2
  | GpuTgp.

Definition bounded_reg (a : bounded_attr) : Z :=
  match a with
  | Fan1Target => EC_REG_FAN1_TARGET
  | Fan2Target => EC_REG_FAN2_TARGET
  | RgbBrightness => EC_REG_RGB_BRIGHTNESS
  | CpuPl1 => EC_REG_CPU_PL1
  | CpuPl2 => EC_REG_CPU_PL2
  | GpuTgp => EC_REG_GPU_TGP
  end.

Definition bound (a : bounded_attr) : Z :=
  match a with
  | Fan1Target | Fan2Target | RgbBrightness => 100
  | CpuPl1 => 140
  | CpuPl2 => 200
  | GpuTgp => 140
  end.

(** The sensor channels with their register and the factor from the raw
    byte to the reported value (millidegrees Celsius, RPM). *)
Definition sensor_channel (type : hwmon_sensor_types) (channel : Z) : option (Z * Z) :=
  match type with
  | hwmon_temp =>
      if channel =? 0 then Some (EC_REG_CPU_TEMP, 1000)
      else if channel =? 1 then Some (EC_REG_GPU_TEMP, 1000)
      else if channel =? 2 then Some (EC_REG_GPU_HOTSPOT, 1000)
      else if channel =? 3 then Some (EC_REG_VRM_TEMP, 1000)
      else if channel =? 4 then Some (EC_REG_SSD_TEMP, 1000)
      else None
  | hwmon_fan =>
      if channel =? 0 then Some (EC_REG_FAN1_SPEED, 100)
      else if channel =? 1 then Some (EC_REG_FAN2_SPEED, 100)
      else None
  | _ => None
  end.

(** The register writes of the tuning profile and of attach, in order. *)
Definition gen9_fixes : list (Z * Z) :=
  [(0xD0, 0x69); (0xD2, 0x05); (0xD3, 0x02); (0xD4, 0x0A);
   (0xB6, 0x02); (0xB7, 0x03); (0xB8, 0x01);
   (0xC7, 0x39); (0xC8, 0x2C); (0xC9, 0x32)].

Definition load_fixes : list (Z * Z) :=
  [(0xD0, 0x69); (0xD3, 0x02); (0xB8, 0x01)].

(** The log of a list of writes done one after the other, each under its
    own lock, with the return value of each. *)
Inductive writes_path : list (Z * Z) -> list Z -> list event -> Prop :=
  | writes_nil : writes_path [] [] []
  | writes_cons reg value l ret rets body t :
      write_path reg value ret body -> writes_path l rets t ->
      writes_path ((reg, value) :: l) (ret :: rets) (Lock :: body ++ Unlock :: t).

(** The decimal text of a number. *)
Definition decimal (n : Z) : string :=
  DecimalString.NilZero.string_of_int (Z.to_int n).

(** The number a row of decimal digits stands for when [acc] has been read
    before it. *)
Fixpoint uint_value (d : Decimal.uint) (acc : Z) : Z :=
  match d with
  | Decimal.Nil => acc
  | Decimal.D0 d => uint_value d (acc * 10 + 0)
  | Decimal.D1 d => uint_value d (acc * 10 + 1)
  | Decimal.D2 d => uint_value d (acc * 10 + 2)
  | Decimal.D3 d => uint_value d (acc * 10 + 3)
  | Decimal.D4 d => uint_value d (acc * 10 + 4)
  | Decimal.D5 d => uint_value d (acc * 10 + 5)
  | Decimal.D6 d => uint_value d (acc * 10 + 6)
  | Decimal.D7 d => uint_value d (acc * 10 + 7)
  | Decimal.D8 d => uint_value d (acc * 10 + 8)
  | Decimal.D9 d => uint_value d (acc * 10 + 9)
  end.

(** A text that does not go on with a digit. *)
Definition no_digit_first (rest : string) : Prop :=
  match rest with
  | EmptyString => True
  | String c _ => digit_val c = None
  end.

Section Vocabulary.
Context {HW : Type} `{!PortIO HW}.

(** The status bytes the controller shows to [n] successive polls that are
    10 microseconds apart. *)
Fixpoint statuses (n : nat) (h : HW) : list Z :=
  match n with
  | O => []
  | S n' =>
      let '(v, h') := hw_inb EC_PORT_CMD h in
      u8 v :: statuses n' (hw_udelay 10 h')
  end.

(** The show handler of a temperature. *)
Definition temp_show (a : temp_attr) : M HW (Z * option string) :=
  match a with
  | CpuTemp => cpu_temp_show
  | GpuTemp => gpu_temp_show
  | GpuHotspot => gpu_hotspot_show
  | VrmTemp => vrm_temp_show
  | SsdTemp => ssd_temp_show
  end.

(** The store handler of a bounded attribute. *)
Definition bounded_store (a : bounded_attr) : string -> Z -> M HW Z :=
  match a with
  | Fan1Target => fan1_target_store
  | Fan2Target => fan2_target_store
  | RgbBrightness => rgb_brightness_store
  | CpuPl1 => cpu_pl1_store
  | CpuPl2 => cpu_pl2_store
  | GpuTgp => gpu_tgp_store
  end.

(** The operations of the driver on an attached device: the sixteen
    attribute handlers, the two callbacks of the sensor interface and
    detach. *)
Inductive operation :=
  | PerformanceModeShow
  | PerformanceModeStore (buf : string) (count : Z)
  | Fan1SpeedShow
  | Fan1TargetStore (buf : string) (count : Z)
  | Fan2SpeedShow
  | Fan2TargetStore (buf : string) (count : Z)
  | CpuTempShow
  | GpuTempShow
  | GpuHotspotShow
  | VrmTempShow
  | SsdTempShow
  | CpuPl1Store (buf : string) (count : Z)
  | CpuPl2Store (buf : string) (count : Z)
  | GpuTgpStore (buf : string) (count : Z)
  | RgbModeStore (buf : string) (count : Z)
  | RgbBrightnessStore (buf : string) (count : Z)
  | ApplyGen9FixesStore (buf : string) (count : Z)
  | HwmonIsVisible (type : hwmon_sensor_types) (attr channel : Z)
  | HwmonRead (type : hwmon_sensor_types) (attr channel : Z)
  | Remove.

(** The world a computation leaves, if it returns. *)
Definition after {A} (m : M HW A) (w : world HW) : option (world HW) :=
  match m w with
  | Done _ w' => Some w'
  | Fault _ => None
  end.

Definition run (op : operation) : world HW -> option (world HW) :=
  match op with
  | PerformanceModeShow => after performance_mode_show
  | PerformanceModeStore buf count => after (performance_mode_store buf count)
  | Fan1SpeedShow => after fan1_speed_show
  | Fan1TargetStore buf count => after (fan1_target_store buf count)
  | Fan2SpeedShow => after fan2_speed_show
  | Fan2TargetStore buf count => after (fan2_target_store buf count)
  | CpuTempShow => after cpu_temp_show
  | GpuTempShow => after gpu_temp_show
  | GpuHotspotShow => after gpu_hotspot_show
  | VrmTempShow => after vrm_temp_show
  | SsdTempShow => after ssd_temp_show
  | CpuPl1Store buf count => after (cpu_pl1_store buf count)
  | CpuPl2Store buf count => after (cpu_pl2_store buf count)
  | GpuTgpStore buf count => after (gpu_tgp_store buf count)
  | RgbModeStore buf count => after (rgb_mode_store buf count)
  | RgbBrightnessStore buf count => after (rgb_brightness_store buf count)
  | ApplyGen9FixesStore buf count => after (apply_gen9_fixes_store buf count)
  | HwmonIsVisible type attr channel =>
      after (mret (legion_hwmon_is_visible type attr channel))
  | HwmonRead type attr channel => after (legion_hwmon_read type attr channel)
  | Remove => after legion_laptop_remove
  end.

(** What an operation may do to the controller: the transactions of each
    operation, with the registers and the range of the values written. *)
Definition op_txns (op : operation) (l : list txn) : Prop :=
  match op with
  | PerformanceModeShow => one_read EC_REG_PERFORMANCE_MODE l
  | PerformanceModeStore _ _ => at_most_one_write EC_REG_PERFORMANCE_MODE 3 l
  | Fan1SpeedShow => one_read EC_REG_FAN1_SPEED l
  | Fan1TargetStore _ _ => at_most_one_write EC_REG_FAN1_TARGET 100 l
  | Fan2SpeedShow => one_read EC_REG_FAN2_SPEED l
  | Fan2TargetStore _ _ => at_most_one_write EC_REG_FAN2_TARGET 100 l
  | CpuTempShow => one_read EC_REG_CPU_TEMP l
  | GpuTempShow => one_read EC_REG_GPU_TEMP l
  | GpuHotspotShow => one_read EC_REG_GPU_HOTSPOT l
  | VrmTempShow => one_read EC_REG_VRM_TEMP l
  | SsdTempShow => one_read EC_REG_SSD_TEMP l
  | CpuPl1Store _ _ => at_most_one_write EC_REG_CPU_PL1 140 l
  | CpuPl2Store _ _ => at_most_one_write EC_REG_CPU_PL2 200 l
  | GpuTgpStore _ _ => at_most_one_write EC_REG_GPU_TGP 140 l
  | RgbModeStore _ _ => at_most_one_write EC_REG_RGB_MODE 4 l
  | RgbBrightnessStore _ _ => at_most_one_write EC_REG_RGB_BRIGHTNESS 100 l
  | ApplyGen9FixesStore _ _ =>
      l = [] \/ exists rets, length rets = 10%nat /\ l = writes_of gen9_fixes rets
  | HwmonIsVisible _ _ _ => l = []
  | HwmonRead type _ channel =>
      match sensor_channel type channel with
      | Some (reg, _) => one_read reg l
      | None => l = []
      end
  | Remove => l = []
  end.

(** A computation that, from a free lock and with the driver attached,
    returns with the lock free and the driver attached, having added whole
    transactions to the log; [Q] relates its result to them. *)
Definition logged {A} (m : M HW A) (Q : A -> list txn -> Prop) : Prop :=
  forall w, ec_mutex w = false -> is_Some (legion_dev w) ->
    exists a w' l t,
      m w = Done a w' /\ ec_mutex w' = false /\ is_Some (legion_dev w') /\
      trace w' = trace w ++ t /\ txns l t /\ Q a l.

(** A computation that, from a free lock, returns with the lock free and
    [legion_dev] and what it points to as they were, its result satisfying
    [Q]. *)
Definition framed {A} (m : M HW A) (Q : A -> Prop) : Prop :=
  forall w, ec_mutex w = false ->
    exists a h t,
      m w = Done a (World h false (legion_dev w) (trace w ++ t)) /\ Q a.

(** The writes of a list, one after the other, whatever each returns. *)
Fixpoint ec_write_each (l : list (Z * Z)) : M HW (list Z) :=
  match l with
  | [] => mret []
  | (reg, value) :: l' =>
      ret ← ec_write reg value;
      rets ← ec_write_each l';
      mret (ret :: rets)
  end.

End Vocabulary.

(** * Module load and unload

    [legion_laptop_init] and [legion_laptop_exit] work on kernel resources:
    the I/O ports claimed, the platform driver and the platform device.
    The kernel is a record of these; what [platform_driver_register] returns
    and the pointer [platform_device_register_simple] returns are inputs.
    When the device is registered the driver core calls
    [legion_laptop_probe]; that call is not part of these two functions. *)

Definition ENODEV : Z := 19.
Definition EBUSY : Z := 16.

(** The identification strings (DMI) the table looks at. *)
Inductive dmi_field :=
  | DMI_SYS_VENDOR
  | DMI_PRODUCT_NAME
  | DMI_PRODUCT_VERSION
  | DMI_BOARD_NAME.

#[global] Instance dmi_field_eq_dec : EqDecision dmi_field.
Proof. solve_decision. Defined.

(** An entry of a DMI table: the fields with the text each has to contain. *)
Definition dmi_system_id : Type := list (dmi_field * string).

Definition legion_dmi_table : list dmi_system_id :=
  [[(DMI_SYS_VENDOR, "LENOVO"); (DMI_PRODUCT_NAME, "16IRX9")];
   [(DMI_SYS_VENDOR, "LENOVO"); (DMI_PRODUCT_VERSION, "Legion Slim 7i Gen 9")];
   [(DMI_SYS_VENDOR, "LENOVO"); (DMI_BOARD_NAME, "LNVNB161216")]]%string.

(** [strstr] as a test: [needle] occurs in [haystack]. *)
Definition strstr (haystack needle : string) : bool :=
  match String.index 0 needle haystack with
  | Some _ => true
  | None => false
  end.

Record kernel := Kernel {
  (** the strings of this machine; [None] for one the firmware lacks *)
  dmi_ident : dmi_field -> option string;
  (** the I/O ports that are claimed *)
  ioports : gset Z;
  (** [legion_laptop_driver] is registered *)
  driver_registered : bool;
  (** the platform devices registered, latest first *)
  platform_devices : list Z;
  (** the driver's variable of this name *)
  legion_platform_device : Z
}.

(** [dmi_matches] of the kernel: every field of the entry is there and
    contains the text (none of the entries asks for an exact match). *)
Definition dmi_matches (k : kernel) (dmi : dmi_system_id) : bool :=
  forallb (fun m => match dmi_ident k m.1 with
                    | Some s => strstr s m.2
                    | None => false
                    end) dmi.

(** [dmi_check_system]: the number of entries that match (no entry has a
    callback). *)
Fixpoint dmi_check_system (list : list dmi_system_id) (k : kernel) : Z :=
  match list with
  | [] => 0
  | d :: list' => (if dmi_matches k d then 1 else 0) + dmi_check_system list' k
  end.

(** [request_region]: the [n] ports from [start] are claimed if none of
    them is claimed yet. *)
Definition request_region (start n : Z) (k : kernel) : bool * kernel :=
  if decide (Forall (fun p => p ∉ ioports k) (seqZ start n))
  then (true, Kernel (dmi_ident k) (list_to_set (seqZ start n) ∪ ioports k)
                (driver_registered k) (platform_devices k) (legion_platform_device k))
  else (false, k).

Definition release_region (start n : Z) (k : kernel) : kernel :=
  Kernel (dmi_ident k) (ioports k ∖ list_to_set (seqZ start n))
    (driver_registered k) (platform_devices k) (legion_platform_device k).

(** [platform_driver_register], which returns [ret]. *)
Definition platform_driver_register (ret : Z) (k : kernel) : kernel :=
  if ret =? 0
  then Kernel (dmi_ident k) (ioports k) true (platform_devices k) (legion_platform_device k)
  else k.

Definition platform_driver_unregister (k : kernel) : kernel :=
  Kernel (dmi_ident k) (ioports k) false (platform_devices k) (legion_platform_device k).

(** [platform_device_register_simple], which returns [ptr]: a device, or
    an error as a pointer. *)
Definition platform_device_register_simple (ptr : Z) (k : kernel) : kernel :=
  if IS_ERR ptr then k
  else Kernel (dmi_ident k) (ioports k) (driver_registered k) (ptr :: platform_devices k)
         (legion_platform_device k).

Fixpoint remove_first (ptr : Z) (l : list Z) : list Z :=
  match l with
  | [] => []
  | x :: l' => if decide (x = ptr) then l' else x :: remove_first ptr l'
  end.

Definition platform_device_unregister (ptr : Z) (k : kernel) : kernel :=
  Kernel (dmi_ident k) (ioports k) (driver_registered k)
    (remove_first ptr (platform_devices k)) (legion_platform_device k).

Definition set_legion_platform_device (ptr : Z) (k : kernel) : kernel :=
  Kernel (dmi_ident k) (ioports k) (driver_registered k) (platform_devices k) ptr.

(** The labels [err_driver] and [err_regions] of [legion_laptop_init]. *)
Definition err_regions (k : kernel) : kernel :=
  release_region EC_PORT_CMD 1 (release_region EC_PORT_DATA 1 k).

Definition err_driver (k : kernel) : kernel :=
  err_regions (platform_driver_unregister k).

Definition legion_laptop_init (driver_ret device_ptr : Z) (k : kernel) : Z * kernel :=
  if dmi_check_system legion_dmi_table k =? 0 then (- ENODEV, k)
  else
    let '(cmd, k) := request_region EC_PORT_CMD 1 k in
    if negb cmd then (- EBUSY, k)
    else
      let '(data, k) := request_region EC_PORT_DATA 1 k in
      if negb data then (- EBUSY, release_region EC_PORT_CMD 1 k)
      else
        let ret := driver_ret in
        let k := platform_driver_register driver_ret k in
        if negb (ret =? 0) then (ret, err_regions k)
        else
          let k := set_legion_platform_device device_ptr
                     (platform_device_register_simple device_ptr k) in
          if IS_ERR (legion_platform_device k)
          then
            let ret := PTR_ERR (legion_platform_device k) in
            (ret, err_driver k)
          else (0, k).

Definition legion_laptop_exit (k : kernel) : kernel :=
  let k := platform_device_unregister (legion_platform_device k) k in
  let k := platform_driver_unregister k in
  let k := release_region EC_PORT_DATA 1 k in
  release_region EC_PORT_CMD 1 k.

(** The machines the table describes: the vendor contains [LENOVO], and the
    product name contains [16IRX9], or the product version contains
    [Legion Slim 7i Gen 9], or the board name contains [LNVNB161216]. *)
Definition contains (k : kernel) (f : dmi_field) (text : string) : Prop :=
  exists s, dmi_ident k f = Some s /\ strstr s text = true.

Definition supported (k : kernel) : Prop :=
  contains k DMI_SYS_VENDOR "LENOVO" /\
  (contains k DMI_PRODUCT_NAME "16IRX9" \/
   contains k DMI_PRODUCT_VERSION "Legion Slim 7i Gen 9" \/
   contains k DMI_BOARD_NAME "LNVNB161216").

(** The two ports of the controller are not claimed. *)
Definition ports_free (k : kernel) : Prop :=
  (EC_PORT_CMD ∉ ioports k) /\ (EC_PORT_DATA ∉ ioports k).

(** A machine of the table with nothing claimed, and one of another
    vendor. *)
Definition legion_machine : kernel :=
  Kernel (fun f => match f with
                   | DMI_SYS_VENDOR => Some "LENOVO"
                   | DMI_PRODUCT_NAME => Some "83FD"
                   | DMI_PRODUCT_VERSION => Some "Legion Slim 7i Gen 9 16IRX9"
                   | DMI_BOARD_NAME => None
                   end%string) ∅ false [] 0.

Definition other_machine : kernel :=
  Kernel (fun f => match f with
                   | DMI_SYS_VENDOR => Some "Dell Inc."
                   | DMI_PRODUCT_NAME => Some "16IRX9"
                   | _ => None
                   end%string) ∅ false [] 0.

(** ** Concrete worlds

    The reference controller in the states the examples are run in. *)

(** Empty registers, answering at once. *)
Definition idle_world : world FakeEC.t := FakeEC.attached ∅ [] zero_dev.

(** The fans report the bytes 37 and 41. *)
Definition fan_world : world FakeEC.t :=
  FakeEC.attached {[EC_REG_FAN1_SPEED := 37; EC_REG_FAN2_SPEED := 41;
                    EC_REG_GPU_TEMP := 55]} [] zero_dev.

(** The seventh byte sent, which is the command of the third write, is
    followed by 1000 busy polls: the third write gives up in its second
    wait, and the controller is ready again for the fourth. *)
Definition third_write_fails : world FakeEC.t :=
  FakeEC.attached ∅ [0; 0; 0; 0; 0; 0; 1000]%nat zero_dev.

(** Performance mode 2 in the register and in the cache. *)
Definition performance_world : world FakeEC.t :=
  FakeEC.attached {[EC_REG_PERFORMANCE_MODE := 2]} [] (with_performance_mode 2 zero_dev).

(** Before attach: [legion_dev] is NULL. *)
Definition unattached_world : world FakeEC.t :=
  World (FakeEC.init ∅ []) false None [].

(** * Facts *)

(** ** The handshake wait *)

Section Wait.
Context {HW : Type} `{!PortIO HW}.

Implicit Types (w : world HW).

Lemma bind_run {A B} (m : M HW A) (f : A -> M HW B) w :
  (m ≫= f) w = match m w with
               | Done a w' => f a w'
               | Fault e => Fault e
               end.
Proof. reflexivity. Qed.

Lemma statuses_length n h : length (statuses n h) = n.
Proof.
  revert h. induction n as [|n IH]; intros h; simpl; [done|].
  destruct (hw_inb EC_PORT_CMD h) as [v h']. simpl. by rewrite IH.
Qed.

(** What a wait of [n] polls does: it consumes the busy statuses up to
    the first one with bit 1 clear, or all [n] of them. *)
Lemma ec_wait_loop_spec n w :
  exists ret h busy last,
    ec_wait_loop n w =
      Done ret (World h (ec_mutex w) (legion_dev w)
                  (trace w ++ wait_events busy last)) /\
    Forall is_busy busy /\
    match last with
    | Some st =>
        ret = 0 /\ Z.land st 0x02 = 0 /\
        statuses n (ec w) = busy ++ st :: drop (S (length busy)) (statuses n (ec w))
    | None => ret = - ETIMEDOUT /\ statuses n (ec w) = busy
    end.
Proof.
  revert w. induction n as [|n IH]; intros w.
  - exists (- ETIMEDOUT), (ec w), [], None. simpl.
    split; [|done]. destruct w; simpl. by rewrite app_nil_r.
  - simpl. rewrite bind_run. unfold inb at 1.
    destruct (hw_inb EC_PORT_CMD (ec w)) as [v h1] eqn:Hin.
    destruct (Z.eqb_spec (Z.land (u8 v) 2) 0) as [Hready|Hbusy].
    + exists 0, h1, [], (Some (u8 v)). simpl.
      by repeat split.
    + rewrite bind_run. simpl.
      match goal with
      | |- context [ec_wait_loop n ?w1] => destruct (IH w1) as (ret & h & busy & last & Hrun & Hb & Hl)
      end.
      simpl in *. exists ret, h, (u8 v :: busy), last.
      rewrite Hrun. unfold wait_events. simpl. rewrite <- !app_assoc. simpl.
      split; [done|]. split; [by constructor|].
      destruct last as [st|].
      * destruct Hl as (-> & Hst & Heq). repeat split; try done.
        f_equal. exact Heq.
      * destruct Hl as (-> & Heq). split; [done|]. by f_equal.
Qed.

(** Past this point a wait is used through [ec_wait_loop_spec] only. *)
#[global] Arguments statuses : simpl never.
#[global] Arguments ec_wait : simpl never.

Lemma poll_count_wait_events busy last :
  poll_count (wait_events busy last) =
    (length busy + match last with Some _ => 1 | None => 0 end)%nat.
Proof.
  unfold poll_count, wait_events. rewrite List.filter_app, length_app.
  f_equal; [|by destruct last].
  induction busy as [|st busy IH]; [done|].
  rewrite fmap_cons. unfold poll_busy at 1. simpl. by rewrite IH.
Qed.

Lemma ec_wait_run w :
  exists ret h t,
    ec_wait w = Done ret (World h (ec_mutex w) (legion_dev w) (trace w ++ t)) /\
    wait_path ret t.
Proof.
  destruct (ec_wait_loop_spec 1000 w) as (ret & h & busy & last & Hrun & Hb & Hl).
  exists ret, h, (wait_events busy last). split; [exact Hrun|].
  pose proof (statuses_length 1000 (ec w)) as Hlen.
  destruct last as [st|].
  - destruct Hl as (-> & Hst & Heq). apply wait_ready; try done.
    rewrite Heq, length_app in Hlen. simpl in Hlen. lia.
  - destruct Hl as (-> & Heq). apply wait_expired; try done. by rewrite <- Heq.
Qed.

Lemma wait_path_ret ret t : wait_path ret t -> ret = 0 \/ ret = - ETIMEDOUT.
Proof. destruct 1; auto. Qed.

Lemma wait_events_polls busy last : Forall is_poll (wait_events busy last).
Proof.
  unfold wait_events. apply Forall_app. split.
  - induction busy as [|st busy IH]; [constructor|].
    rewrite fmap_cons. unfold poll_busy at 1. simpl.
    repeat (constructor; [done|]). exact IH.
  - destruct last; repeat constructor.
Qed.

Lemma wait_path_polls ret t : wait_path ret t -> Forall is_poll t.
Proof. destruct 1; apply wait_events_polls. Qed.

Lemma take_prefix_one {A} (l r : list A) x :
  take (S (length l)) (l ++ x :: r) = l ++ [x].
Proof. induction l as [|y l IH]; simpl; [by rewrite take_0|by f_equal]. Qed.

(** C3: [ec_wait] always returns, after at most 1000 reads of the command
    status byte, each busy one followed by a delay of 10 microseconds.  It
    returns 0 at the first status whose bit 1 is clear, all statuses before
    it being busy, and [-ETIMEDOUT] after exactly 1000 polls when all of the
    1000 statuses the controller shows are busy. *)
Theorem ec_wait_bounded_polling w :
  exists ret w' busy last,
    ec_wait w = Done ret w' /\
    trace w' = trace w ++ wait_events busy last /\
    ec_mutex w' = ec_mutex w /\ legion_dev w' = legion_dev w /\
    Forall is_busy busy /\
    (poll_count (wait_events busy last) <= 1000)%nat /\
    match last with
    | Some st =>
        ret = 0 /\ Z.land st 0x02 = 0 /\
        take (S (length busy)) (statuses 1000 (ec w)) = busy ++ [st]
    | None =>
        ret = - ETIMEDOUT /\ statuses 1000 (ec w) = busy /\
        poll_count (wait_events busy last) = 1000%nat
    end.
Proof.
  destruct (ec_wait_loop_spec 1000 w) as (ret & h & busy & last & Hrun & Hb & Hl).
  eexists ret, _, busy, last. split; [exact Hrun|]. simpl.
  do 4 (split; [done|]).
  pose proof (statuses_length 1000 (ec w)) as Hlen.
  rewrite poll_count_wait_events.
  destruct last as [st|].
  - destruct Hl as (-> & Hst & Heq).
    assert (length busy < 1000)%nat as Hlt.
    { rewrite Heq, length_app in Hlen. simpl in Hlen. lia. }
    split; [lia|]. do 2 (split; [done|]).
    rewrite Heq. apply take_prefix_one.
  - destruct Hl as (-> & Heq). rewrite <- Heq, Hlen. split; [lia|].
    split; [done|]. split; [done|lia].
Qed.

End Wait.

(** A controller that stays busy makes the wait give up after 1000 polls
    and 1000 delays. *)
Example ec_wait_stuck :
  exists w', ec_wait (World tt false None []) = Done (- ETIMEDOUT) w' /\
             trace w' = wait_events (replicate 1000 0x02) None /\
             poll_count (trace w') = 1000%nat.
Proof. eexists. split; [vm_compute; reflexivity|]. split; vm_compute; reflexivity. Qed.

(** A controller that is busy for five polls lets the wait return 0 at the
    sixth. *)
Example ec_wait_clears :
  exists w',
    ec_wait (World (FakeEC.Make ∅ FakeEC.Idle 5 [] 0) false None []) = Done 0 w' /\
    trace w' = wait_events (replicate 5 0x02) (Some 0x00) /\
    poll_count (trace w') = 6%nat.
Proof. eexists. split; [vm_compute; reflexivity|]. split; vm_compute; reflexivity. Qed.

(** ** The transport: [ec_read] and [ec_write] *)

Section Transport.
Context {HW : Type} `{!PortIO HW}.

Implicit Types (w : world HW) (reg value : Z).

Lemma u8_range z : 0 <= u8 z < 256.
Proof. unfold u8. apply Z.mod_pos_bound. lia. Qed.

Lemma u8_small z : 0 <= z < 256 -> u8 z = z.
Proof. unfold u8. intros. by apply Z.mod_small. Qed.

(** One wait in the middle of a handshake. *)
Ltac wait_step ret h t Hp :=
  rewrite bind_run;
  match goal with
  | |- context [ec_wait ?w1] =>
      let Hrun := fresh "Hrun" in
      destruct (ec_wait_run w1) as (ret & h & t & Hrun & Hp);
      rewrite Hrun; clear Hrun; simpl ec_mutex; simpl legion_dev; simpl trace
  end;
  let E := fresh "E" in
  destruct (wait_path_ret _ _ Hp) as [E|E]; subst ret;
  [change (negb (0 =? 0)) with false|change (negb (- ETIMEDOUT =? 0)) with true];
  cbv iota.

(** The unlock at the label [out:], and the shape of the log. *)
Ltac at_out :=
  unfold ec_read_out, ec_write_out; rewrite bind_run; unfold mutex_unlock at 1;
  unfold log; cbn [ec ec_mutex legion_dev trace mret M_ret];
  repeat (rewrite <- app_assoc; cbn [app]).

Lemma ec_read_spec reg w :
  ec_mutex w = false ->
  exists ret stored h body,
    ec_read reg w =
      Done (ret, stored)
        (World h false (legion_dev w) (trace w ++ Lock :: body ++ [Unlock])) /\
    read_path reg ret stored body.
Proof.
  intros Hfree. unfold ec_read.
  rewrite bind_run. unfold mutex_lock at 1. rewrite Hfree. unfold log; cbn [ec ec_mutex legion_dev trace].
  wait_step ret1 h1 t1 Hp1.
  2:{ eexists _, _, _, t1. split; [by at_out|by apply read_expired_1]. }
  rewrite bind_run. unfold outb at 1. unfold log; cbn [ec ec_mutex legion_dev trace].
  wait_step ret2 h2 t2 Hp2.
  2:{ eexists _, _, _, _. split; [|by apply (read_expired_2 _ t1 t2)]. by at_out. }
  rewrite bind_run. unfold outb at 1. unfold log; cbn [ec ec_mutex legion_dev trace].
  wait_step ret3 h3 t3 Hp3.
  2:{ eexists _, _, _, _. split; [|by apply (read_expired_3 _ t1 t2 t3)]. by at_out. }
  rewrite bind_run. unfold inb at 1. unfold log; cbn [ec ec_mutex legion_dev trace].
  destruct (hw_inb EC_PORT_DATA h3) as [v h4].
  eexists _, _, _, _. split.
  2:{ apply (read_done _ t1 t2 t3 (u8 v)); try done. apply u8_range. }
  by at_out.
Qed.

Lemma ec_write_spec reg value w :
  ec_mutex w = false ->
  exists ret h body,
    ec_write reg value w =
      Done ret
        (World h false (legion_dev w) (trace w ++ Lock :: body ++ [Unlock])) /\
    write_path reg value ret body.
Proof.
  intros Hfree. unfold ec_write.
  rewrite bind_run. unfold mutex_lock at 1. rewrite Hfree. unfold log; cbn [ec ec_mutex legion_dev trace].
  wait_step ret1 h1 t1 Hp1.
  2:{ eexists _, _, t1. split; [by at_out|by apply write_expired_1]. }
  rewrite bind_run. unfold outb at 1. unfold log; cbn [ec ec_mutex legion_dev trace].
  wait_step ret2 h2 t2 Hp2.
  2:{ eexists _, _, _. split; [|by apply (write_expired_2 _ _ t1 t2)]. by at_out. }
  rewrite bind_run. unfold outb at 1. unfold log; cbn [ec ec_mutex legion_dev trace].
  wait_step ret3 h3 t3 Hp3.
  2:{ eexists _, _, _. split; [|by apply (write_expired_3 _ _ t1 t2 t3)]. by at_out. }
  rewrite bind_run. unfold outb at 1. unfold log; cbn [ec ec_mutex legion_dev trace].
  rewrite bind_run.
  match goal with
  | |- context [ec_wait ?w1] =>
      destruct (ec_wait_run w1) as (ret4 & h4 & t4 & Hrun & Hp4); rewrite Hrun; clear Hrun
  end.
  cbn [ec_mutex legion_dev trace].
  eexists _, _, _. split; [|by apply (write_sent _ _ t1 t2 t3 t4)].
  by at_out.
Qed.

(** A filter that rejects polls rejects a whole wait. *)
Lemma filter_polls (f : event -> bool) t :
  (forall e, is_poll e -> f e = false) -> Forall is_poll t -> List.filter f t = [].
Proof.
  intros Hf. induction 1 as [|e t He _ IH]; simpl; [done|].
  by rewrite (Hf e He).
Qed.

Lemma lock_ops_wait ret t : wait_path ret t -> lock_ops t = [].
Proof.
  intros Hp. apply filter_polls; [|by eapply wait_path_polls].
  by intros [].
Qed.

Lemma data_reads_wait ret t : wait_path ret t -> data_reads t = [].
Proof.
  intros Hp. apply filter_polls; [|by eapply wait_path_polls].
  intros [] He; simpl in *; try done. by subst.
Qed.

Lemma port_writes_wait ret t : wait_path ret t -> port_writes t = [].
Proof.
  intros Hp. apply filter_polls; [|by eapply wait_path_polls].
  by intros [].
Qed.

Ltac filter_path f Hw :=
  unfold f;
  repeat (rewrite List.filter_app || cbn [List.filter is_lock_op is_data_read is_outb app]);
  fold f; erewrite ?Hw by eassumption; cbn [app].

Lemma read_path_lock_ops reg ret stored body :
  read_path reg ret stored body -> lock_ops body = [].
Proof. destruct 1; filter_path lock_ops lock_ops_wait; done. Qed.

Lemma write_path_lock_ops reg value ret body :
  write_path reg value ret body -> lock_ops body = [].
Proof. destruct 1; filter_path lock_ops lock_ops_wait; done. Qed.

Lemma read_path_ret reg ret stored body :
  read_path reg ret stored body -> ret = 0 \/ ret = - ETIMEDOUT.
Proof. destruct 1; auto. Qed.

Lemma write_path_ret reg value ret body :
  write_path reg value ret body -> ret = 0 \/ ret = - ETIMEDOUT.
Proof. destruct 1; eauto using wait_path_ret. Qed.

Lemma read_path_failed reg ret stored body :
  read_path reg ret stored body -> ret <> 0 ->
  stored = None /\ data_reads body = [] /\ ends_in_timeout body.
Proof.
  destruct 1; intros Hret; try done; (split; [done|]); split.
  all: try (filter_path data_reads data_reads_wait; done).
  - by exists [], t1.
  - by exists (t1 ++ [Outb 0x80 EC_PORT_CMD]), t2; rewrite <- app_assoc.
  - exists (t1 ++ Outb 0x80 EC_PORT_CMD :: t2 ++ [Outb reg EC_PORT_DATA]), t3.
    by repeat (rewrite <- app_assoc; cbn [app]).
Qed.

Lemma read_path_done reg stored body :
  read_path reg 0 stored body ->
  exists v, stored = Some v /\ 0 <= v < 256 /\
            data_reads body = [Inb EC_PORT_DATA v] /\
            port_writes body = [Outb 0x80 EC_PORT_CMD; Outb reg EC_PORT_DATA].
Proof.
  inversion 1; subst. exists v. do 2 (split; [done|]). split.
  - filter_path data_reads data_reads_wait. done.
  - filter_path port_writes port_writes_wait. done.
Qed.

Lemma write_path_failed reg value ret body :
  write_path reg value ret body -> ret <> 0 -> ends_in_timeout body.
Proof.
  destruct 1; intros Hret.
  - by exists [], t1.
  - by exists (t1 ++ [Outb 0x81 EC_PORT_CMD]), t2; rewrite <- app_assoc.
  - exists (t1 ++ Outb 0x81 EC_PORT_CMD :: t2 ++ [Outb reg EC_PORT_DATA]), t3.
    by repeat (rewrite <- app_assoc; cbn [app]).
  - destruct (wait_path_ret _ _ H2) as [->| ->]; [done|].
    exists (t1 ++ Outb 0x81 EC_PORT_CMD :: t2 ++ Outb reg EC_PORT_DATA :: t3 ++
              [Outb value EC_PORT_DATA]), t4.
    by repeat (rewrite <- app_assoc; cbn [app]).
Qed.

Lemma lock_ops_bracket body :
  lock_ops body = [] -> lock_ops (Lock :: body ++ [Unlock]) = [Lock; Unlock].
Proof.
  intros Hb. unfold lock_ops in *. cbn [List.filter is_lock_op].
  by rewrite List.filter_app, Hb.
Qed.

(** C2: from a free lock, [ec_read] and [ec_write] always return, and on
    every exit path the log of the call is [Lock], the events of the path,
    [Unlock]: the lock is taken once at entry, released once as the last
    action, and free afterwards.  The return value is 0 or [-ETIMEDOUT]; a
    wait that gives up is the last thing done before the release, and a
    failed read has stored no byte and has not read the data port. *)
Theorem transport_releases_lock reg value w :
  ec_mutex w = false ->
  (exists ret stored w' body,
     ec_read reg w = Done (ret, stored) w' /\
     ec_mutex w' = false /\
     trace w' = trace w ++ Lock :: body ++ [Unlock] /\
     lock_ops (Lock :: body ++ [Unlock]) = [Lock; Unlock] /\
     read_path reg ret stored body /\
     (ret = 0 \/ ret = - ETIMEDOUT) /\
     (ret <> 0 -> stored = None /\ data_reads body = [] /\ ends_in_timeout body)) /\
  (exists ret w' body,
     ec_write reg value w = Done ret w' /\
     ec_mutex w' = false /\
     trace w' = trace w ++ Lock :: body ++ [Unlock] /\
     lock_ops (Lock :: body ++ [Unlock]) = [Lock; Unlock] /\
     write_path reg value ret body /\
     (ret = 0 \/ ret = - ETIMEDOUT) /\
     (ret <> 0 -> ends_in_timeout body)).
Proof.
  intros Hfree. split.
  - destruct (ec_read_spec reg w Hfree) as (ret & stored & h & body & Hrun & Hp).
    eexists ret, stored, _, body. split; [exact Hrun|]. cbn [ec_mutex trace].
    do 2 (split; [done|]).
    split; [eapply lock_ops_bracket, read_path_lock_ops, Hp|].
    split; [done|]. split; [eapply read_path_ret, Hp|].
    exact (read_path_failed _ _ _ _ Hp).
  - destruct (ec_write_spec reg value w Hfree) as (ret & h & body & Hrun & Hp).
    eexists ret, _, body. split; [exact Hrun|]. cbn [ec_mutex trace].
    do 2 (split; [done|]).
    split; [eapply lock_ops_bracket, write_path_lock_ops, Hp|].
    split; [done|]. split; [eapply write_path_ret, Hp|].
    exact (write_path_failed _ _ _ _ Hp).
Qed.

End Transport.

(** ** The transport on the reference controller *)

Section OnFakeEC.

Implicit Types (h : FakeEC.t) (dev : option legion_laptop) (tr : list event).

Lemma fake_wait_loop n h mu dev tr :
  (FakeEC.busy h < n)%nat ->
  exists t, ec_wait_loop n (World h mu dev tr) =
              Done 0 (World (FakeEC.settle h) mu dev (tr ++ t)).
Proof.
  revert h tr. induction n as [|n IH]; intros h tr Hb; [lia|].
  cbn [ec_wait_loop]. rewrite bind_run. unfold inb at 1.
  cbn [ec hw_inb FakeEC.port_io]. unfold FakeEC.inb.
  change (EC_PORT_CMD =? EC_PORT_CMD) with true. cbv iota.
  destruct h as [r st b ds o]. cbn [FakeEC.busy] in *. destruct b as [|b].
  - eexists. reflexivity.
  - cbn [FakeEC.regs FakeEC.state FakeEC.delays FakeEC.data_out].
    change (Z.land (u8 2) 2 =? 0) with false. cbv iota.
    rewrite bind_run. unfold udelay at 1. unfold log.
    cbn [ec ec_mutex legion_dev trace hw_udelay FakeEC.port_io].
    destruct (IH (FakeEC.Make r st b ds o) ((tr ++ [Inb EC_PORT_CMD (u8 2)]) ++ [Udelay 10]))
      as [t Ht]; [cbn [FakeEC.busy]; lia|].
    rewrite Ht. unfold FakeEC.settle.
    cbn [FakeEC.regs FakeEC.state FakeEC.delays FakeEC.data_out].
    eexists. rewrite <- !app_assoc. reflexivity.
Qed.

Lemma fake_wait h mu dev tr :
  (FakeEC.busy h < 1000)%nat ->
  exists t, ec_wait (World h mu dev tr) =
              Done 0 (World (FakeEC.settle h) mu dev (tr ++ t)).
Proof. apply fake_wait_loop. Qed.

Lemma responsive_hd ds :
  Forall (fun d => (d < 1000)%nat) ds -> (hd O ds < 1000)%nat.
Proof. destruct 1; simpl; lia. Qed.

Lemma responsive_tl ds :
  Forall (fun d => (d < 1000)%nat) ds -> Forall (fun d => (d < 1000)%nat) (tl ds).
Proof. destruct 1; simpl; [constructor|done]. Qed.

(** A wait on the reference controller, in the middle of a handshake. *)
Ltac fake_wait_step t :=
  rewrite bind_run;
  match goal with
  | |- context [ec_wait (World ?h ?mu ?dev ?tr)] =>
      let Ht := fresh "Ht" in
      destruct (fake_wait h mu dev tr) as [t Ht];
      [cbn [FakeEC.busy]; auto using responsive_hd, responsive_tl; try lia|
       rewrite Ht; clear Ht]
  end;
  unfold FakeEC.settle;
  cbn [FakeEC.regs FakeEC.state FakeEC.delays FakeEC.data_out];
  change (negb (0 =? 0)) with false; cbv iota.

Ltac fake_outb :=
  rewrite bind_run; unfold outb at 1; unfold log;
  cbn [ec ec_mutex legion_dev trace hw_outb FakeEC.port_io];
  unfold FakeEC.outb;
  change (EC_PORT_CMD =? EC_PORT_CMD) with true;
  change (EC_PORT_DATA =? EC_PORT_CMD) with false;
  change (EC_PORT_DATA =? EC_PORT_DATA) with true;
  change (0x81 =? 0x80) with false; change (0x81 =? 0x81) with true;
  change (0x80 =? 0x80) with true;
  cbv iota;
  cbn [FakeEC.regs FakeEC.state FakeEC.delays FakeEC.data_out].

(** A write on a responsive controller succeeds and lands in the register
    file. *)
Lemma fake_ec_write reg value r st b ds o dev tr :
  FakeEC.responsive (FakeEC.Make r st b ds o) ->
  exists t,
    ec_write reg value (World (FakeEC.Make r st b ds o) false dev tr) =
      Done 0 (World (FakeEC.Make (<[reg := value]> r) FakeEC.Idle O (tl (tl (tl ds))) o)
                false dev (tr ++ t)).
Proof.
  intros [Hb Hds]. cbn [FakeEC.busy FakeEC.delays] in *.
  pose proof (responsive_tl _ Hds) as Hds1.
  pose proof (responsive_tl _ Hds1) as Hds2.
  unfold ec_write.
  rewrite bind_run. unfold mutex_lock at 1. unfold log. cbn [ec ec_mutex legion_dev trace].
  fake_wait_step t1. fake_outb.
  fake_wait_step t2. fake_outb.
  fake_wait_step t3. fake_outb.
  fake_wait_step t4.
  unfold ec_write_out. rewrite bind_run. unfold mutex_unlock at 1. unfold log.
  cbn [ec ec_mutex legion_dev trace mret M_ret].
  eexists. rewrite <- !app_assoc. reflexivity.
Qed.

(** A read on a responsive controller succeeds with the byte of the
    register file. *)
Lemma fake_ec_read reg r st b ds o dev tr :
  FakeEC.responsive (FakeEC.Make r st b ds o) ->
  exists t,
    ec_read reg (World (FakeEC.Make r st b ds o) false dev tr) =
      Done (0, Some (u8 (default 0 (r !! reg))))
        (World (FakeEC.Make r FakeEC.Idle O (tl (tl ds)) (default 0 (r !! reg)))
           false dev (tr ++ t)).
Proof.
  intros [Hb Hds]. cbn [FakeEC.busy FakeEC.delays] in *.
  pose proof (responsive_tl _ Hds) as Hds1.
  unfold ec_read.
  rewrite bind_run. unfold mutex_lock at 1. unfold log. cbn [ec ec_mutex legion_dev trace].
  fake_wait_step t1. fake_outb.
  fake_wait_step t2. fake_outb.
  fake_wait_step t3.
  rewrite bind_run. unfold inb at 1. cbn [ec hw_inb FakeEC.port_io]. unfold FakeEC.inb.
  change (EC_PORT_DATA =? EC_PORT_CMD) with false.
  change (EC_PORT_DATA =? EC_PORT_DATA) with true. cbv iota.
  cbn [FakeEC.data_out]. unfold log. cbn [ec ec_mutex legion_dev trace].
  unfold ec_read_out. rewrite bind_run. unfold mutex_unlock at 1. unfold log.
  cbn [ec ec_mutex legion_dev trace mret M_ret]. unfold FakeEC.reg. cbn [FakeEC.regs].
  eexists. rewrite <- !app_assoc. reflexivity.
Qed.

Lemma responsive_after r st ds o :
  Forall (fun d => (d < 1000)%nat) ds ->
  FakeEC.responsive (FakeEC.Make r st O ds o).
Proof. intros Hds. split; cbn [FakeEC.busy FakeEC.delays]; [lia|done]. Qed.

End OnFakeEC.

(** ** Text arguments *)

Lemma string_app_cons c (s t : string) :
  (String c s ++ t)%string = String c (s ++ t)%string.
Proof. reflexivity. Qed.

Lemma string_app_empty_r (s : string) : (s ++ EmptyString)%string = s.
Proof. induction s as [|c s IH]; [done|]. by rewrite string_app_cons, IH. Qed.

Lemma sysfs_streq_spec s1 s2 :
  sysfs_streq s1 s2 = true <->
  s1 = s2 \/ s1 = (s2 ++ newline)%string \/ s2 = (s1 ++ newline)%string.
Proof.
  revert s2. induction s1 as [|c1 r1 IH]; intros [|c2 r2]; simpl.
  - tauto.
  - destruct r2 as [|c3 r3].
    + destruct (Ascii.eqb_spec c2 "010"%char) as [->|Hc]; unfold newline.
      * tauto.
      * split; [done|]. intros [?|[?|?]]; cbv [String.append] in *; congruence.
    + unfold newline. split; [done|]. intros [?|[?|?]]; cbv [String.append] in *; congruence.
  - destruct r1 as [|c3 r3].
    + destruct (Ascii.eqb_spec c1 "010"%char) as [->|Hc]; unfold newline.
      * tauto.
      * split; [done|]. intros [?|[?|?]]; cbv [String.append] in *; congruence.
    + unfold newline. split; [done|]. intros [?|[?|?]]; cbv [String.append] in *; congruence.
  - destruct (Ascii.eqb_spec c1 c2) as [->|Hc].
    + rewrite IH, !string_app_cons. split.
      * intros [-> | [-> | ->]]; auto.
      * intros [?|[?|?]]; simplify_eq; auto.
    + assert (match r1 with
              | EmptyString => false
              | String _ _ => false
              end = false) as -> by (by destruct r1).
      split; [done|]. intros [?|[?|?]]; cbv [String.append] in *; congruence.
Qed.

Lemma ends_with_newline_app s : ends_with_newline (s ++ newline) = true.
Proof.
  induction s as [|c s IH]; [done|].
  simpl. destruct (s ++ newline)%string eqn:E; [|exact IH].
  destruct s; discriminate.
Qed.

(** For a label that does not end in a newline, [sysfs_streq] decides
    [names]. *)
Lemma sysfs_streq_names buf label :
  ends_with_newline label = false ->
  sysfs_streq buf label = true <-> names buf label.
Proof.
  intros Hl. rewrite sysfs_streq_spec. unfold names. split.
  - intros [?|[?|He]]; auto. subst label. by rewrite ends_with_newline_app in Hl.
  - intros [?|?]; auto.
Qed.

Lemma parse_integer_range s res rv ovf :
  0 <= res < 2 ^ 64 ->
  0 <= (parse_integer s res rv ovf).1.1.2 < 2 ^ 64.
Proof.
  revert res rv ovf. induction s as [|c s IH]; intros res rv ovf Hres; simpl; [done|].
  destruct (digit_val c) as [val|]; simpl; [|done].
  apply IH. apply Z.mod_pos_bound. lia.
Qed.

(** [kstrtoul] stores a value exactly when it returns 0, and the value fits
    an [unsigned long]. *)
Lemma kstrtoul_cases s :
  (exists t, kstrtoul s = (0, Some t) /\ 0 <= t <= ULONG_MAX) \/
  (exists err, kstrtoul s = (err, None) /\ err <> 0).
Proof.
  unfold kstrtoul.
  set (s' := match s with String "+"%char s' => s' | _ => s end).
  pose proof (parse_integer_range s' 0 O false ltac:(lia)) as Hr.
  destruct (parse_integer s' 0 O false) as [[[rest res] rv] ovf]. simpl in Hr.
  destruct ovf; [right; by eexists|].
  destruct (Nat.eqb rv O); [right; by eexists|].
  set (rest' := match rest with String "010"%char r => r | _ => rest end).
  destruct rest'; [|right; by eexists].
  left. exists res. split; [done|]. unfold ULONG_MAX. lia.
Qed.

(** *** Decimal texts are read back as their number *)

Lemma uint_value_ge d acc : 0 <= acc -> acc <= uint_value d acc.
Proof.
  revert acc. induction d as [|d IH|d IH|d IH|d IH|d IH|d IH|d IH|d IH|d IH|d IH];
    intros acc Hacc; simpl; [lia|..];
    (etransitivity; [|apply IH; lia]); lia.
Qed.

Lemma parse_integer_step c s res rv val :
  digit_val c = Some val -> 0 <= val <= 9 -> 0 <= res ->
  res * 10 + val <= ULONG_MAX ->
  parse_integer (String c s) res rv false =
    parse_integer s (res * 10 + val) (S rv) false.
Proof.
  intros Hc Hval Hres Hmax. cbn [parse_integer]. rewrite Hc.
  rewrite Z.mod_small by (unfold ULONG_MAX in Hmax; lia).
  assert ((res >? (ULONG_MAX - val) / 10) = false) as ->.
  { rewrite Z.gtb_ltb. apply Z.ltb_ge. apply Z.div_le_lower_bound; lia. }
  by destruct (negb _).
Qed.

Lemma parse_integer_uint d rest res rv :
  0 <= res -> uint_value d res <= ULONG_MAX -> no_digit_first rest ->
  parse_integer (NilEmpty.string_of_uint d ++ rest) res rv false =
    (rest, uint_value d res, (rv + Decimal.nb_digits d)%nat, false).
Proof.
  revert res rv.
  induction d as [|d IH|d IH|d IH|d IH|d IH|d IH|d IH|d IH|d IH|d IH];
    intros res rv Hres Hmax Hrest; cbn [NilEmpty.string_of_uint uint_value Decimal.nb_digits].
  { rewrite Nat.add_0_r. change (EmptyString ++ rest)%string with rest.
    destruct rest as [|c rest]; [done|].
    cbn [parse_integer no_digit_first] in *. by rewrite Hrest. }
  all: rewrite string_app_cons; cbn [uint_value] in Hmax;
    match type of Hmax with
    | uint_value ?u (?r * 10 + ?k) <= _ =>
        pose proof (uint_value_ge u (r * 10 + k) ltac:(lia)) as Hge;
        rewrite (parse_integer_step _ _ r rv k) by (reflexivity || lia);
        rewrite IH by (done || lia); by rewrite Nat.add_succ_r
    end.
Qed.

Lemma uint_value_acc d acc :
  uint_value d (Z.pos acc) = Z.pos (Pos.of_uint_acc d acc).
Proof.
  revert acc. induction d as [|d IH|d IH|d IH|d IH|d IH|d IH|d IH|d IH|d IH|d IH];
    intros acc; cbn [uint_value Pos.of_uint_acc]; [done|..];
    rewrite <- IH; f_equal; lia.
Qed.

Lemma uint_value_of_uint d : uint_value d 0 = Z.of_N (Pos.of_uint d).
Proof.
  induction d as [|d IH|d IH|d IH|d IH|d IH|d IH|d IH|d IH|d IH|d IH];
    cbn [uint_value Pos.of_uint]; [done|exact IH|..];
    by rewrite Z.mul_0_l, Z.add_0_l, uint_value_acc.
Qed.

(** The decimal text of a number that fits an [unsigned long], with or
    without a newline after it, is read by [kstrtoul] as that number. *)
Lemma kstrtoul_decimal n rest :
  0 <= n <= ULONG_MAX -> rest = EmptyString \/ rest = newline ->
  kstrtoul (decimal n ++ rest) = (0, Some n).
Proof.
  intros Hn Hrest.
  assert (no_digit_first rest) as Hnd by (by destruct Hrest as [-> | ->]).
  assert (match rest with
          | String "010"%char r => r
          | _ => rest
          end = EmptyString) as Hend by (by destruct Hrest as [-> | ->]).
  destruct n as [|p|p]; [|  |lia].
  { destruct Hrest as [-> | ->]; reflexivity. }
  unfold decimal. cbn [Z.to_int NilZero.string_of_int].
  pose proof (DecimalPos.Unsigned.of_to p) as Hof.
  pose proof (DecimalPos.Unsigned.to_uint_nonnil p) as Hnil.
  destruct (Pos.to_uint p) as [|d|d|d|d|d|d|d|d|d|d] eqn:Hd; [done|..].
  all: unfold NilZero.string_of_uint;
    match goal with
    | |- kstrtoul (NilEmpty.string_of_uint ?u ++ ?r) = _ =>
        pose proof (parse_integer_uint u r 0 O ltac:(lia)) as Hparse;
        rewrite uint_value_of_uint, Hof in Hparse;
        specialize (Hparse ltac:(cbn; lia) Hnd);
        cbn [NilEmpty.string_of_uint] in Hparse |- *;
        rewrite string_app_cons in Hparse |- *
    end;
    unfold kstrtoul; rewrite Hparse; cbn [Nat.add Decimal.nb_digits Nat.eqb];
    by rewrite Hend.
Qed.

(** *** Numbers that do not fit an [unsigned long] are refused *)

Lemma parse_integer_overflowed s res rv :
  (parse_integer s res rv true).2 = true.
Proof.
  revert res rv. induction s as [|c s IH]; intros res rv; cbn [parse_integer]; [done|].
  destruct (digit_val c) as [val|]; [|done].
  assert ((if negb (Z.land res (Z.shiftl (2 ^ 64 - 1) 60 mod 2 ^ 64) =? 0)
           then true || (res >? (ULONG_MAX - val) / 10)
           else true) = true) as -> by (by destruct (negb _)).
  apply IH.
Qed.

(** The test of the four high bits in [_parse_integer] sees every value
    from which one more digit can overflow. *)
Lemma high_bits_set res :
  2 ^ 60 <= res < 2 ^ 64 ->
  (Z.land res (Z.shiftl (2 ^ 64 - 1) 60 mod 2 ^ 64) =? 0) = false.
Proof.
  intros Hres. apply Z.eqb_neq. intros Hland.
  assert (Z.shiftr (Z.land res (Z.shiftl (2 ^ 64 - 1) 60 mod 2 ^ 64)) 60 = res / 2 ^ 60)
    as Hshift.
  { rewrite Z.shiftr_land.
    change (Z.shiftr (Z.shiftl (2 ^ 64 - 1) 60 mod 2 ^ 64) 60) with (Z.ones 4).
    rewrite Z.land_ones, Z.shiftr_div_pow2 by lia.
    apply Z.mod_small. split; [apply Z.div_pos; lia|].
    apply Z.div_lt_upper_bound; lia. }
  rewrite Hland in Hshift. cbn [Z.shiftr Z.shiftl] in Hshift.
  assert (1 <= res / 2 ^ 60) by (apply Z.div_le_lower_bound; lia).
  rewrite <- Hshift in *. by vm_compute in H.
Qed.

Lemma parse_integer_uint_big d rest res rv :
  0 <= res <= ULONG_MAX -> ULONG_MAX < uint_value d res ->
  (parse_integer (NilEmpty.string_of_uint d ++ rest) res rv false).2 = true.
Proof.
  revert res rv.
  induction d as [|d IH|d IH|d IH|d IH|d IH|d IH|d IH|d IH|d IH|d IH];
    intros res rv Hres Hbig; cbn [NilEmpty.string_of_uint uint_value] in *; [lia|..].
  all: rewrite string_app_cons;
    match type of Hbig with
    | _ < uint_value ?u (?r * 10 + ?k) =>
        destruct (Z_le_gt_dec (r * 10 + k) ULONG_MAX) as [Hfit|Hover];
        [rewrite (parse_integer_step _ _ r rv k) by (reflexivity || lia);
         apply IH; [lia|done]
        |cbn [parse_integer];
         change (digit_val _) with (Some k); cbv iota;
         rewrite high_bits_set by (unfold ULONG_MAX in *; lia);
         cbn [negb orb];
         assert ((r >? (ULONG_MAX - k) / 10) = true) as ->
           by (apply Z.gtb_lt, Z.div_lt_upper_bound; lia);
         apply parse_integer_overflowed]
    end.
Qed.

Lemma kstrtoul_decimal_big n :
  ULONG_MAX < n -> kstrtoul (decimal n) = (- ERANGE, None).
Proof.
  intros Hn. destruct n as [|p|p]; [done| |done].
  unfold decimal. cbn [Z.to_int NilZero.string_of_int].
  pose proof (DecimalPos.Unsigned.of_to p) as Hof.
  pose proof (DecimalPos.Unsigned.to_uint_nonnil p) as Hnil.
  destruct (Pos.to_uint p) as [|d|d|d|d|d|d|d|d|d|d] eqn:Hd; [done|..].
  all: unfold NilZero.string_of_uint;
    match goal with
    | |- kstrtoul (NilEmpty.string_of_uint ?u) = _ =>
        pose proof (parse_integer_uint_big u EmptyString 0 O
                      ltac:(unfold ULONG_MAX; lia)) as Hparse;
        rewrite uint_value_of_uint, Hof, string_app_empty_r in Hparse;
        specialize (Hparse Hn);
        cbn [NilEmpty.string_of_uint] in Hparse |- *
    end;
    unfold kstrtoul;
    match type of Hparse with
    | (parse_integer ?x _ _ _).2 = _ =>
        destruct (parse_integer x 0 O false) as [[[rest res] rv] ovf]
    end;
    cbn [snd] in Hparse; by subst ovf.
Qed.

Lemma c_int_small z : - 2 ^ 31 <= z < 2 ^ 31 -> c_int z = z.
Proof. intros Hz. unfold c_int. rewrite Z.mod_small; lia. Qed.

(** ** The attribute handlers *)

Section Handlers.
Context {HW : Type} `{!PortIO HW}.

Implicit Types (w : world HW) (reg : Z) (d : legion_laptop).

Lemma ec_write_run reg value w :
  ec_mutex w = false ->
  exists ret h t,
    ec_write reg value w = Done ret (World h false (legion_dev w) (trace w ++ t)) /\
    (ret = 0 \/ ret = - ETIMEDOUT).
Proof.
  intros Hfree.
  destruct (ec_write_spec reg value w Hfree) as (ret & h & body & Hrun & Hp).
  exists ret, h, (Lock :: body ++ [Unlock]). split; [exact Hrun|].
  eapply write_path_ret, Hp.
Qed.

Lemma ec_read_run reg w :
  ec_mutex w = false ->
  exists ret stored h t,
    ec_read reg w = Done (ret, stored) (World h false (legion_dev w) (trace w ++ t)) /\
    ((ret = 0 /\ exists v, stored = Some v /\ 0 <= v < 256) \/
     (ret = - ETIMEDOUT /\ stored = None)).
Proof.
  intros Hfree.
  destruct (ec_read_spec reg w Hfree) as (ret & stored & h & body & Hrun & Hp).
  exists ret, stored, h, (Lock :: body ++ [Unlock]). split; [exact Hrun|].
  destruct Hp; eauto 6.
Qed.

(** The text of a mode is recognised by the chain of comparisons. *)
Ltac eval_streq :=
  repeat match goal with
         | |- context [sysfs_streq ?a ?b] =>
             let v := eval vm_compute in (sysfs_streq a b) in
             change (sysfs_streq a b) with v
         end;
  cbv iota.

Lemma performance_mode_store_named buf count label mode w d :
  (label, mode) ∈ performance_modes -> names buf label ->
  ec_mutex w = false -> legion_dev w = Some d ->
  exists ret w1,
    ec_write EC_REG_PERFORMANCE_MODE mode w = Done ret w1 /\
    legion_dev w1 = Some d /\ ec_mutex w1 = false /\
    (ret = 0 \/ ret = - ETIMEDOUT) /\
    performance_mode_store buf count w =
      if ret =? 0
      then Done count (World (ec w1) (ec_mutex w1)
                         (Some (with_performance_mode mode d)) (trace w1))
      else Done ret w1.
Proof.
  intros Hin Hname Hfree Hdev.
  destruct (ec_write_run EC_REG_PERFORMANCE_MODE mode w Hfree)
    as (ret & h & t & Hrun & Hret).
  eexists ret, _. split; [exact Hrun|]. cbn [legion_dev ec_mutex ec trace].
  do 3 (split; [done|]).
  unfold performance_modes in Hin.
  repeat (apply elem_of_cons in Hin as [Hin|Hin]); try (by apply elem_of_nil in Hin);
    simplify_eq; destruct Hname as [-> | ->]; unfold performance_mode_store, newline;
    eval_streq; rewrite bind_run, Hrun;
    destruct Hret as [-> | ->]; try reflexivity;
    change (negb (0 =? 0)) with false; cbv iota;
    rewrite bind_run; unfold set_performance_mode; cbn [legion_dev]; rewrite Hdev;
    reflexivity.
Qed.

Lemma performance_mode_store_unnamed buf count w :
  (forall label mode, (label, mode) ∈ performance_modes -> ~ names buf label) ->
  performance_mode_store buf count w = Done (- EINVAL) w.
Proof.
  intros Hno. unfold performance_mode_store.
  assert (forall label mode, (label, mode) ∈ performance_modes ->
            ends_with_newline label = false -> sysfs_streq buf label = false) as Hf.
  { intros label mode Hin Hl. destruct (sysfs_streq buf label) eqn:E; [|done].
    apply sysfs_streq_names in E; [|done]. by destruct (Hno label mode Hin). }
  rewrite (Hf "quiet" 0), (Hf "balanced" 1), (Hf "performance" 2), (Hf "custom" 3)
    by (done || unfold performance_modes; set_solver).
  reflexivity.
Qed.

(** A byte that [ec_read] stored is a byte. *)
Lemma ec_read_byte reg w raw w' :
  ec_read reg w = Done (0, Some raw) w' -> 0 <= raw <= 255.
Proof.
  intros Hrun. destruct (ec_mutex w) eqn:Hm.
  - unfold ec_read in Hrun. rewrite bind_run in Hrun.
    unfold mutex_lock in Hrun. by rewrite Hm in Hrun.
  - destruct (ec_read_run reg w Hm) as (ret & stored & h & t & Hr & Hc).
    rewrite Hr in Hrun. injection Hrun as -> -> <-.
    destruct Hc as [(_ & v & Hv & Hrange)|(? & ?)]; [|done].
    injection Hv as ->. lia.
Qed.

(** A read that failed has stored nothing, one that worked has. *)
Lemma ec_read_failed reg w ret stored w' :
  ec_read reg w = Done (ret, stored) w' -> ret <> 0 -> stored = None.
Proof.
  intros Hrun Hret. destruct (ec_mutex w) eqn:Hm.
  - unfold ec_read in Hrun. rewrite bind_run in Hrun.
    unfold mutex_lock in Hrun. by rewrite Hm in Hrun.
  - destruct (ec_read_run reg w Hm) as (ret' & stored' & h & t & Hr & Hc).
    rewrite Hr in Hrun. injection Hrun as -> -> <-.
    destruct Hc as [(? & _)|(_ & ?)]; [done|done].
Qed.

(** *** Range-checked stores *)

Ltac unfold_bounded a :=
  destruct a;
  unfold bounded_store, fan1_target_store, fan2_target_store, rgb_brightness_store,
    cpu_pl1_store, cpu_pl2_store, gpu_tgp_store.

Lemma bounded_store_unparsed a buf count w err :
  kstrtoul buf = (err, None) -> err <> 0 ->
  bounded_store a buf count w = Done (- EINVAL) w.
Proof.
  intros Hk Herr. unfold_bounded a; rewrite Hk;
    apply Z.eqb_neq in Herr; rewrite Herr; reflexivity.
Qed.

Lemma bounded_store_above a buf count w t :
  kstrtoul buf = (0, Some t) -> bound a < t ->
  bounded_store a buf count w = Done (- EINVAL) w.
Proof.
  intros Hk Ht. unfold_bounded a; rewrite Hk; cbn [bound] in Ht;
    change (negb (0 =? 0)) with false; cbv iota;
    rewrite bind_run; cbn [load mret M_ret];
    apply Z.gtb_lt in Ht; rewrite Ht; reflexivity.
Qed.

Lemma bounded_store_within a buf count w t :
  kstrtoul buf = (0, Some t) -> 0 <= t <= bound a -> ec_mutex w = false ->
  exists ret w1,
    ec_write (bounded_reg a) t w = Done ret w1 /\
    (ret = 0 \/ ret = - ETIMEDOUT) /\
    bounded_store a buf count w = Done (if ret =? 0 then count else ret) w1.
Proof.
  intros Hk Ht Hfree.
  destruct (ec_write_run (bounded_reg a) t w Hfree) as (ret & h & tr & Hrun & Hret).
  eexists ret, _. split; [exact Hrun|]. split; [done|].
  assert (u8 t = t) as Hu8.
  { apply u8_small. destruct a; cbn [bound] in Ht; lia. }
  assert ((t >? bound a) = false) as Hle.
  { rewrite Z.gtb_ltb. apply Z.ltb_ge. lia. }
  unfold_bounded a; rewrite Hk; cbn [bound bounded_reg] in *;
    change (negb (0 =? 0)) with false; cbv iota;
    rewrite bind_run; cbn [load mret M_ret]; rewrite Hle, bind_run, Hu8, Hrun;
    destruct Hret as [-> | ->]; reflexivity.
Qed.

(** *** Sensor reads *)

Lemma fan1_speed_show_value w raw w' :
  ec_read EC_REG_FAN1_SPEED w = Done (0, Some raw) w' ->
  fan1_speed_show w =
    Done (strlen (sprintf_d_nl (raw * 100)), Some (sprintf_d_nl (raw * 100))) w'.
Proof.
  intros Hrun. pose proof (ec_read_byte _ _ _ _ Hrun) as Hraw.
  unfold fan1_speed_show. rewrite bind_run, Hrun.
  change (negb (0 =? 0)) with false. cbv iota.
  rewrite bind_run. cbn [load mret M_ret]. rewrite c_int_small by lia. reflexivity.
Qed.

Lemma fan2_speed_show_value w raw w' :
  ec_read EC_REG_FAN2_SPEED w = Done (0, Some raw) w' ->
  fan2_speed_show w =
    Done (strlen (sprintf_d_nl (raw * 100)), Some (sprintf_d_nl (raw * 100))) w'.
Proof.
  intros Hrun. pose proof (ec_read_byte _ _ _ _ Hrun) as Hraw.
  unfold fan2_speed_show. rewrite bind_run, Hrun.
  change (negb (0 =? 0)) with false. cbv iota.
  rewrite bind_run. cbn [load mret M_ret]. rewrite c_int_small by lia. reflexivity.
Qed.

(** The two [switch] statements of [legion_hwmon_read] are the table
    [sensor_channel]. *)
Lemma legion_hwmon_read_table type attr channel w :
  legion_hwmon_read type attr channel w =
    match sensor_channel type channel with
    | Some (reg, factor) =>
        ('(ret, temp) ← ec_read reg;
         if negb (ret =? 0) then mret (ret, None) else
         temp ← load temp;
         mret (0, Some (c_int (temp * factor)))) w
    | None => Done (- EOPNOTSUPP, None) w
    end.
Proof.
  destruct type; try reflexivity;
    destruct channel as [|p|p]; try reflexivity;
    destruct p as [[[?|?|]|[?|?|]|]|[[?|?|]|[?|?|]|]|]; reflexivity.
Qed.

Lemma sensor_channel_factor type channel reg factor :
  sensor_channel type channel = Some (reg, factor) -> factor = 100 \/ factor = 1000.
Proof.
  unfold sensor_channel. destruct type; try done;
    repeat (case_match; [intros [= <- <-]; auto|]); done.
Qed.

Lemma legion_hwmon_read_value type attr channel reg factor w raw w' :
  sensor_channel type channel = Some (reg, factor) ->
  ec_read reg w = Done (0, Some raw) w' ->
  legion_hwmon_read type attr channel w = Done (0, Some (raw * factor)) w'.
Proof.
  intros Hch Hrun. pose proof (ec_read_byte _ _ _ _ Hrun) as Hraw.
  rewrite legion_hwmon_read_table, Hch, bind_run, Hrun.
  change (negb (0 =? 0)) with false. cbv iota.
  rewrite bind_run. cbn [load mret M_ret].
  rewrite c_int_small; [done|].
  destruct (sensor_channel_factor _ _ _ _ Hch) as [-> | ->]; lia.
Qed.

Lemma legion_hwmon_read_failed type attr channel reg factor w ret stored w' :
  sensor_channel type channel = Some (reg, factor) ->
  ec_read reg w = Done (ret, stored) w' -> ret <> 0 ->
  legion_hwmon_read type attr channel w = Done (ret, None) w'.
Proof.
  intros Hch Hrun Hret.
  rewrite legion_hwmon_read_table, Hch, bind_run, Hrun.
  apply Z.eqb_neq in Hret. rewrite Hret. reflexivity.
Qed.

Lemma legion_hwmon_read_unsupported type attr channel w :
  sensor_channel type channel = None ->
  legion_hwmon_read type attr channel w = Done (- EOPNOTSUPP, None) w.
Proof. intros Hch. by rewrite legion_hwmon_read_table, Hch. Qed.

(** *** Sequences of writes *)

Lemma ec_write_each_spec l w :
  ec_mutex w = false ->
  exists rets h t,
    ec_write_each l w = Done rets (World h false (legion_dev w) (trace w ++ t)) /\
    writes_path l rets t.
Proof.
  revert w. induction l as [|[reg value] l IH]; intros w Hfree.
  - exists [], (ec w), []. split; [|constructor].
    cbn [ec_write_each mret M_ret]. destruct w; cbn in *. subst. by rewrite app_nil_r.
  - cbn [ec_write_each]. rewrite bind_run.
    destruct (ec_write_spec reg value w Hfree) as (ret & h1 & body & Hrun & Hp).
    rewrite Hrun.
    destruct (IH (World h1 false (legion_dev w) (trace w ++ Lock :: body ++ [Unlock])) eq_refl)
      as (rets & h & t & Hrest & Hps).
    rewrite bind_run, Hrest. cbn [legion_dev trace mret M_ret].
    exists (ret :: rets), h, (Lock :: body ++ Unlock :: t).
    split; [|by constructor].
    do 2 f_equal. rewrite <- !app_assoc. cbn [app]. by rewrite <- app_assoc.
Qed.

Lemma writes_path_length l rets t : writes_path l rets t -> length rets = length l.
Proof. induction 1; simpl; congruence. Qed.

Lemma writes_path_rets l rets t :
  writes_path l rets t -> Forall (fun ret => ret = 0 \/ ret = - ETIMEDOUT) rets.
Proof. induction 1; constructor; eauto using write_path_ret. Qed.

(** Every write of the list takes and releases the lock once. *)
Lemma writes_path_lock_ops l rets t :
  writes_path l rets t ->
  lock_ops t = concat (replicate (length l) [Lock; Unlock]).
Proof.
  induction 1 as [|reg value l ret rets body t Hp _ IH]; [done|].
  unfold lock_ops in *. cbn [List.filter is_lock_op length replicate concat app].
  rewrite List.filter_app. fold (lock_ops body).
  rewrite (write_path_lock_ops _ _ _ _ Hp). cbn [List.filter is_lock_op app].
  by rewrite IH.
Qed.

(** The ten calls of [apply_gen9_fixes_store] are the writes of
    [gen9_fixes], and the handler returns [count] after them. *)
Lemma apply_gen9_fixes_store_enabled buf count enable w :
  kstrtoul buf = (0, Some enable) -> enable <> 0 ->
  apply_gen9_fixes_store buf count w =
    (ec_write_each gen9_fixes ≫= fun _ => mret count) w.
Proof.
  intros Hk Hen. unfold apply_gen9_fixes_store. rewrite Hk.
  change (negb (0 =? 0)) with false. cbv iota.
  rewrite bind_run. cbn [load mret M_ret].
  apply Z.eqb_neq in Hen. rewrite Hen. cbn [negb].
  unfold gen9_fixes. cbn [ec_write_each].
  repeat (rewrite !bind_run;
          match goal with
          | |- context [ec_write ?r ?v ?w0] =>
              destruct (ec_write r v w0) as [? ?|?]; [|reflexivity]
          end).
  reflexivity.
Qed.

Lemma apply_gen9_fixes_store_disabled buf count w :
  kstrtoul buf = (0, Some 0) ->
  apply_gen9_fixes_store buf count w = Done count w.
Proof. intros Hk. unfold apply_gen9_fixes_store. by rewrite Hk. Qed.

Lemma apply_gen9_fixes_store_unparsed buf count err w :
  kstrtoul buf = (err, None) -> err <> 0 ->
  apply_gen9_fixes_store buf count w = Done (- EINVAL) w.
Proof.
  intros Hk Herr. unfold apply_gen9_fixes_store. rewrite Hk.
  apply Z.eqb_neq in Herr. by rewrite Herr.
Qed.

(** *** Attach *)

Lemma legion_laptop_probe_writes pdev_ptr hwmon_ptr w :
  IS_ERR hwmon_ptr = false ->
  legion_laptop_probe pdev_ptr true 0 hwmon_ptr w =
    (ec_write_each load_fixes ≫= fun _ => mret 0)
      (World (ec w) (ec_mutex w) (Some (attached_dev pdev_ptr hwmon_ptr)) (trace w)).
Proof.
  intros Herr. unfold legion_laptop_probe.
  rewrite bind_run. unfold devm_kzalloc at 1. cbn [negb].
  rewrite bind_run. unfold set_pdev at 1. cbn [legion_dev ec ec_mutex trace].
  change (negb (0 =? 0)) with false. cbv iota.
  rewrite bind_run. unfold set_hwmon_dev at 1. cbn [legion_dev ec ec_mutex trace].
  rewrite Herr. cbn [pdev hwmon_dev thermal_zone performance_mode fan1_speed fan2_speed
                       cpu_temp gpu_temp].
  fold (attached_dev pdev_ptr hwmon_ptr).
  unfold load_fixes. cbn [ec_write_each].
  repeat (rewrite !bind_run;
          match goal with
          | |- context [ec_write ?r ?v ?w0] =>
              destruct (ec_write r v w0) as [? ?|?]; [|reflexivity]
          end).
  reflexivity.
Qed.

(** An attach that fails does so before it touches the controller. *)
Lemma legion_laptop_probe_fails pdev_ptr kzalloc_ok sysfs_ret hwmon_ptr w :
  kzalloc_ok = false \/ sysfs_ret <> 0 \/ IS_ERR hwmon_ptr = true ->
  exists ret dev,
    legion_laptop_probe pdev_ptr kzalloc_ok sysfs_ret hwmon_ptr w =
      Done ret (World (ec w) (ec_mutex w) dev (trace w)) /\
    ret <> 0.
Proof.
  intros Hfail. unfold legion_laptop_probe.
  rewrite bind_run. unfold devm_kzalloc at 1.
  destruct kzalloc_ok; cbn [negb]; [|by eexists _, _].
  rewrite bind_run. unfold set_pdev at 1. cbn [legion_dev ec ec_mutex trace].
  destruct (Z.eqb_spec sysfs_ret 0) as [->|Hs]; cbn [negb]; [|by eexists _, _].
  rewrite bind_run. unfold set_hwmon_dev at 1. cbn [legion_dev ec ec_mutex trace].
  destruct (IS_ERR hwmon_ptr) eqn:Herr; [|by destruct Hfail as [?|[?|?]]].
  eexists _, _. split; [reflexivity|].
  unfold IS_ERR in Herr. unfold PTR_ERR. lia.
Qed.

(** *** What the handlers leave alone *)

Lemma framed_ret {A} (a : A) (Q : A -> Prop) : Q a -> framed (mret a : M HW A) Q.
Proof.
  intros Ha w Hfree. exists a, (ec w), []. split; [|done].
  cbn [mret M_ret]. destruct w; cbn in *. subst. by rewrite app_nil_r.
Qed.

Lemma framed_load {A} (v : A) (Q : A -> Prop) : Q v -> framed (load (Some v) : M HW A) Q.
Proof. apply framed_ret. Qed.

Lemma framed_bind {A B} (m : M HW A) (f : A -> M HW B) Q R :
  framed m Q -> (forall a, Q a -> framed (f a) R) -> framed (m ≫= f) R.
Proof.
  intros Hm Hf w Hfree. destruct (Hm w Hfree) as (a & h & t & Hrun & Ha).
  rewrite bind_run, Hrun.
  destruct (Hf a Ha (World h false (legion_dev w) (trace w ++ t)) eq_refl)
    as (b & h' & t' & Hrun' & Hb).
  rewrite Hrun'. cbn [legion_dev trace]. exists b, h', (t ++ t').
  by rewrite <- app_assoc.
Qed.

Lemma framed_weaken {A} (m : M HW A) (Q R : A -> Prop) :
  framed m Q -> (forall a, Q a -> R a) -> framed m R.
Proof.
  intros Hm HQR w Hfree. destruct (Hm w Hfree) as (a & h & t & Hrun & Ha). eauto 6.
Qed.

Lemma framed_ec_write reg value : framed (ec_write reg value) (fun _ => True).
Proof.
  intros w Hfree. destruct (ec_write_run reg value w Hfree) as (ret & h & t & Hrun & _).
  eauto 6.
Qed.

Lemma framed_ec_read reg :
  framed (ec_read reg) (fun r => r.1 = 0 -> exists v, r.2 = Some v).
Proof.
  intros w Hfree.
  destruct (ec_read_run reg w Hfree) as (ret & stored & h & t & Hrun & Hc).
  exists (ret, stored), h, t. split; [done|]. cbn [fst snd].
  destruct Hc as [(_ & v & -> & _)|(-> & _)]; [eauto|done].
Qed.

Lemma framed_ec_write_each l : framed (ec_write_each l) (fun _ => True).
Proof.
  intros w Hfree. destruct (ec_write_each_spec l w Hfree) as (rets & h & t & Hrun & _).
  eauto 6.
Qed.

(** A [show] handler or sensor query: one read, then a pure conversion. *)
Lemma framed_read_then {A} reg (k : Z -> A) (e : Z -> A) :
  framed ('(ret, x) ← ec_read reg;
          if negb (ret =? 0) then mret (e ret) else
          x ← load x; mret (k x)) (fun _ => True).
Proof.
  eapply framed_bind; [apply framed_ec_read|].
  intros [ret stored] Hs. cbn [fst snd] in Hs.
  destruct (Z.eqb_spec ret 0) as [->|Hret]; cbn [negb]; [|by apply framed_ret].
  destruct Hs as [v ->]; [done|]. cbn [load].
  eapply framed_bind; [by apply (framed_ret v (fun _ => True))|].
  intros ? _. by apply framed_ret.
Qed.

(** A [store] handler that parses a number, checks it and writes it. *)
Lemma framed_bounded_store a buf count :
  framed (bounded_store a buf count) (fun _ => True).
Proof.
  destruct (kstrtoul_cases buf) as [(t & Hk & _)|(err & Hk & Herr)].
  - unfold_bounded a; rewrite Hk; change (negb (0 =? 0)) with false; cbv iota;
      (eapply framed_bind; [by apply (framed_load t (fun _ => True))|]); intros ? _;
      (case_match; [by apply framed_ret|]);
      (eapply framed_bind; [apply framed_ec_write|]); intros ret _;
      case_match; by apply framed_ret.
  - intros w Hfree. rewrite (bounded_store_unparsed a buf count w err Hk Herr).
    exists (- EINVAL), (ec w), []. split; [|done].
    destruct w; cbn in *. subst. by rewrite app_nil_r.
Qed.

Lemma framed_rgb_mode_store buf count :
  framed (rgb_mode_store buf count) (fun _ => True).
Proof.
  unfold rgb_mode_store.
  repeat match goal with
         | |- context [sysfs_streq buf ?l] => destruct (sysfs_streq buf l)
         end;
    first [by apply framed_ret
          |eapply framed_bind; [apply framed_ec_write|];
           intros ret _; case_match; by apply framed_ret].
Qed.

Lemma framed_apply_gen9_fixes_store buf count :
  framed (apply_gen9_fixes_store buf count) (fun _ => True).
Proof.
  destruct (kstrtoul_cases buf) as [(enable & Hk & _)|(err & Hk & Herr)].
  - destruct (Z.eq_dec enable 0) as [->|Hen]; intros w Hfree.
    + rewrite (apply_gen9_fixes_store_disabled buf count w Hk).
      exists count, (ec w), []. split; [|done].
      destruct w; cbn in *. subst. by rewrite app_nil_r.
    + rewrite (apply_gen9_fixes_store_enabled buf count enable w Hk Hen).
      revert w Hfree. eapply framed_bind; [apply framed_ec_write_each|].
      intros ? _. by apply framed_ret.
  - intros w Hfree. rewrite (apply_gen9_fixes_store_unparsed buf count err w Hk Herr).
    exists (- EINVAL), (ec w), []. split; [|done].
    destruct w; cbn in *. subst. by rewrite app_nil_r.
Qed.

Lemma framed_legion_hwmon_read type attr channel :
  framed (legion_hwmon_read type attr channel) (fun _ => True).
Proof.
  intros w Hfree. rewrite legion_hwmon_read_table.
  destruct (sensor_channel type channel) as [[reg factor]|].
  - revert w Hfree.
    apply (framed_read_then reg (fun x => (0, Some (c_int (x * factor))))
             (fun ret => (ret, None))).
  - exists (- EOPNOTSUPP, None), (ec w), []. split; [|done].
    destruct w; cbn in *. subst. by rewrite app_nil_r.
Qed.

(** [performance_mode_store] is the one handler that follows [legion_dev]:
    it leaves the driver data as they were, or with another cached
    performance mode. *)
Lemma performance_mode_store_frame buf count w d :
  ec_mutex w = false -> legion_dev w = Some d ->
  exists ret h t d',
    performance_mode_store buf count w =
      Done ret (World h false (Some d') (trace w ++ t)) /\
    (d' = d \/ exists mode, d' = with_performance_mode mode d).
Proof.
  intros Hfree Hdev. unfold performance_mode_store.
  assert (forall mode,
    exists ret h t d',
      (ret ← ec_write EC_REG_PERFORMANCE_MODE mode;
       if negb (ret =? 0) then mret ret else
       set_performance_mode mode;; mret count) w =
        Done ret (World h false (Some d') (trace w ++ t)) /\
      (d' = d \/ exists mode, d' = with_performance_mode mode d)) as Hmode.
  { intros mode.
    destruct (ec_write_run EC_REG_PERFORMANCE_MODE mode w Hfree)
      as (ret & h & t & Hrun & Hret).
    rewrite bind_run, Hrun, Hdev.
    destruct Hret as [-> | ->].
    - change (negb (0 =? 0)) with false. cbv iota.
      rewrite bind_run. unfold set_performance_mode. cbn [legion_dev ec ec_mutex trace].
      eexists _, _, _, _. split; [reflexivity|]. right. by exists mode.
    - eexists _, _, _, _. split; [reflexivity|]. by left. }
  repeat match goal with
         | |- context [sysfs_streq buf ?l] => destruct (sysfs_streq buf l)
         end;
    try apply Hmode.
  exists (- EINVAL), (ec w), [], d. split; [|by left].
  cbn [mret M_ret]. destruct w; cbn in *. subst. by rewrite app_nil_r.
Qed.

Lemma kstrtoul_nonneg buf t : kstrtoul buf = (0, Some t) -> 0 <= t.
Proof.
  intros Hk. destruct (kstrtoul_cases buf) as [(t' & Hk' & Ht)|(err & Hk' & _)];
    rewrite Hk in Hk'; simplify_eq. lia.
Qed.

Lemma legion_laptop_probe_fresh pdev_ptr kzalloc_ok sysfs_ret hwmon_ptr w ret w1 d1 :
  ec_mutex w = false ->
  legion_laptop_probe pdev_ptr kzalloc_ok sysfs_ret hwmon_ptr w = Done ret w1 ->
  legion_dev w1 = Some d1 ->
  performance_mode d1 = 0 /\ fan1_speed d1 = 0 /\ fan2_speed d1 = 0 /\
  cpu_temp d1 = 0 /\ gpu_temp d1 = 0.
Proof.
  intros Hfree Hrun Hdev.
  destruct kzalloc_ok; [destruct (Z.eqb_spec sysfs_ret 0) as [->|Hs];
                        [destruct (IS_ERR hwmon_ptr) eqn:Herr|]|].
  - unfold legion_laptop_probe in Hrun. rewrite bind_run in Hrun.
    unfold devm_kzalloc at 1 in Hrun. cbn [negb] in Hrun.
    rewrite bind_run in Hrun. unfold set_pdev at 1 in Hrun.
    cbn [legion_dev ec ec_mutex trace] in Hrun.
    change (negb (0 =? 0)) with false in Hrun. cbv iota in Hrun.
    rewrite bind_run in Hrun. unfold set_hwmon_dev at 1 in Hrun.
    cbn [legion_dev ec ec_mutex trace] in Hrun. rewrite Herr in Hrun.
    unfold mret, M_ret in Hrun. injection Hrun as <- <-.
    cbn [legion_dev] in Hdev. by injection Hdev as <-.
  - rewrite (legion_laptop_probe_writes _ _ _ Herr), bind_run in Hrun.
    match type of Hrun with
    | context [ec_write_each _ ?w0] =>
        destruct (ec_write_each_spec load_fixes w0 Hfree) as (rets & h & t & Heach & _)
    end.
    rewrite Heach in Hrun. unfold mret, M_ret in Hrun. injection Hrun as <- <-.
    cbn [legion_dev] in Hdev. by injection Hdev as <-.
  - unfold legion_laptop_probe in Hrun. rewrite bind_run in Hrun.
    unfold devm_kzalloc at 1 in Hrun. cbn [negb] in Hrun.
    rewrite bind_run in Hrun. unfold set_pdev at 1 in Hrun.
    cbn [legion_dev ec ec_mutex trace] in Hrun.
    apply Z.eqb_neq in Hs. rewrite Hs in Hrun. cbn [negb] in Hrun.
    unfold mret, M_ret in Hrun. injection Hrun as <- <-.
    cbn [legion_dev] in Hdev. by injection Hdev as <-.
  - unfold legion_laptop_probe in Hrun. rewrite bind_run in Hrun.
    unfold devm_kzalloc at 1 in Hrun. cbn [negb] in Hrun.
    unfold mret, M_ret in Hrun. injection Hrun as <- <-. done.
Qed.

(** *** Statements about the handlers *)

(** X10: what the tuning-profile handler does: with a number other than 0 it
    does the ten writes of [gen9_fixes] in order, each under its own lock
    and whatever the earlier ones returned (for every write, any of its exit
    paths), undoes none of them, and returns [count] whatever they returned;
    with 0 it returns [count] and does nothing; text that is no number is
    refused with [-EINVAL] and nothing is done. *)
Theorem apply_gen9_fixes_store_writes_all buf count w :
  ec_mutex w = false ->
  (forall enable, kstrtoul buf = (0, Some enable) -> enable <> 0 ->
     exists rets h t,
       apply_gen9_fixes_store buf count w =
         Done count (World h false (legion_dev w) (trace w ++ t)) /\
       writes_path gen9_fixes rets t /\
       length rets = 10%nat /\
       lock_ops t = concat (replicate 10 [Lock; Unlock])) /\
  (kstrtoul buf = (0, Some 0) -> apply_gen9_fixes_store buf count w = Done count w) /\
  (forall err, kstrtoul buf = (err, None) -> err <> 0 ->
     apply_gen9_fixes_store buf count w = Done (- EINVAL) w).
Proof.
  intros Hfree. split; [|split].
  - intros enable Hk Hen.
    rewrite (apply_gen9_fixes_store_enabled buf count enable w Hk Hen), bind_run.
    destruct (ec_write_each_spec gen9_fixes w Hfree) as (rets & h & t & Hrun & Hp).
    rewrite Hrun. exists rets, h, t. split; [done|]. split; [done|].
    split; [by rewrite (writes_path_length _ _ _ Hp)|].
    by rewrite (writes_path_lock_ops _ _ _ Hp).
  - apply apply_gen9_fixes_store_disabled.
  - intros err. apply apply_gen9_fixes_store_unparsed.
Qed.

(** C4, as the code has it: the texts accepted are the four labels, each
    possibly followed by one newline.  For such a text the byte of the label
    is written to the performance-mode register first; the cached mode is
    set to it, and [count] returned, only when that write returned 0, and
    after a write that failed the handler returns its error with the driver
    data as they were.  Any other text is refused with [-EINVAL] in the
    world as it was: no lock taken, no port touched. *)
Theorem performance_mode_store_checked buf count w d :
  ec_mutex w = false -> legion_dev w = Some d ->
  (forall label mode, (label, mode) ∈ performance_modes -> names buf label ->
     exists ret w1,
       ec_write EC_REG_PERFORMANCE_MODE mode w = Done ret w1 /\
       legion_dev w1 = Some d /\
       (ret = 0 \/ ret = - ETIMEDOUT) /\
       performance_mode_store buf count w =
         if ret =? 0
         then Done count (World (ec w1) (ec_mutex w1)
                            (Some (with_performance_mode mode d)) (trace w1))
         else Done ret w1) /\
  ((forall label mode, (label, mode) ∈ performance_modes -> ~ names buf label) ->
   performance_mode_store buf count w = Done (- EINVAL) w).
Proof.
  intros Hfree Hdev. split.
  - intros label mode Hin Hname.
    destruct (performance_mode_store_named buf count label mode w d Hin Hname Hfree Hdev)
      as (ret & w1 & Hw & Hd & _ & Hret & Hstore).
    by exists ret, w1.
  - apply performance_mode_store_unnamed.
Qed.

(** C6: whenever the read of a fan-speed register yields the byte [raw],
    which is between 0 and 255, the attribute of that fan shows the decimal
    text of [raw * 100], a text that reads back as the number [raw * 100],
    and the fan channel of the sensor query reports [raw * 100], in the
    world the read left. *)
Theorem fan_speed_is_raw_times_100 w raw w' :
  (ec_read EC_REG_FAN1_SPEED w = Done (0, Some raw) w' ->
   0 <= raw <= 255 /\
   fan1_speed_show w =
     Done (strlen (decimal (raw * 100) ++ newline),
           Some (decimal (raw * 100) ++ newline)%string) w' /\
   kstrtoul (decimal (raw * 100) ++ newline) = (0, Some (raw * 100)) /\
   forall attr, legion_hwmon_read hwmon_fan attr 0 w = Done (0, Some (raw * 100)) w') /\
  (ec_read EC_REG_FAN2_SPEED w = Done (0, Some raw) w' ->
   0 <= raw <= 255 /\
   fan2_speed_show w =
     Done (strlen (decimal (raw * 100) ++ newline),
           Some (decimal (raw * 100) ++ newline)%string) w' /\
   kstrtoul (decimal (raw * 100) ++ newline) = (0, Some (raw * 100)) /\
   forall attr, legion_hwmon_read hwmon_fan attr 1 w = Done (0, Some (raw * 100)) w').
Proof.
  split; intros Hrun; pose proof (ec_read_byte _ _ _ _ Hrun) as Hraw.
  - split; [done|].
    split; [by apply fan1_speed_show_value|].
    split; [apply kstrtoul_decimal; [unfold ULONG_MAX; lia|by right]|].
    intros attr. by apply (legion_hwmon_read_value _ _ _ EC_REG_FAN1_SPEED 100).
  - split; [done|].
    split; [by apply fan2_speed_show_value|].
    split; [apply kstrtoul_decimal; [unfold ULONG_MAX; lia|by right]|].
    intros attr. by apply (legion_hwmon_read_value _ _ _ EC_REG_FAN2_SPEED 100).
Qed.

(** C7: for each of the six range-checked attributes, with the bound 100
    for the fan targets and the brightness, 140 for PL1 and TGP and 200 for
    PL2: the decimal text of a number up to the bound is accepted, that is,
    the number is written to the register of the attribute and the handler
    returns [count], or the error of the write; the decimal text of any
    larger number is refused with [-EINVAL] in the world as it was: no lock
    taken, no port touched.  The same holds of any text by what [kstrtoul] makes of
    it, and text that is no number is refused in the same way. *)
Theorem bounded_store_checks_range a buf count w :
  ec_mutex w = false ->
  (forall n, 0 <= n <= bound a ->
     exists ret w1,
       ec_write (bounded_reg a) n w = Done ret w1 /\
       (ret = 0 \/ ret = - ETIMEDOUT) /\
       bounded_store a (decimal n) count w = Done (if ret =? 0 then count else ret) w1) /\
  (forall n, bound a < n ->
     bounded_store a (decimal n) count w = Done (- EINVAL) w) /\
  (forall t, kstrtoul buf = (0, Some t) -> t <= bound a ->
     exists ret w1,
       ec_write (bounded_reg a) t w = Done ret w1 /\
       (ret = 0 \/ ret = - ETIMEDOUT) /\
       bounded_store a buf count w = Done (if ret =? 0 then count else ret) w1) /\
  (forall t, kstrtoul buf = (0, Some t) -> bound a < t ->
     bounded_store a buf count w = Done (- EINVAL) w) /\
  (forall err, kstrtoul buf = (err, None) -> err <> 0 ->
     bounded_store a buf count w = Done (- EINVAL) w).
Proof.
  intros Hfree.
  assert (forall n, 0 <= n <= ULONG_MAX -> kstrtoul (decimal n) = (0, Some n)) as Hdec.
  { intros n Hn. pose proof (kstrtoul_decimal n EmptyString Hn (or_introl eq_refl)) as Hk.
    by rewrite string_app_empty_r in Hk. }
  assert (0 <= bound a <= 200) as Hb by (destruct a; cbn [bound]; lia).
  split; [|split; [|split; [|split]]].
  - intros n Hn. apply bounded_store_within; [|done..].
    apply Hdec. unfold ULONG_MAX. lia.
  - intros n Hn. destruct (Z_le_gt_dec n ULONG_MAX) as [Hfit|Hbig].
    + apply (bounded_store_above _ _ _ _ n); [|lia]. apply Hdec. lia.
    + apply (bounded_store_unparsed _ _ _ _ (- ERANGE)); [|done].
      apply kstrtoul_decimal_big. lia.
  - intros t Hk Ht. apply bounded_store_within; [done| |done].
    split; [by eapply kstrtoul_nonneg|done].
  - intros t. apply bounded_store_above.
  - intros err. apply bounded_store_unparsed.
Qed.

(** C8: the sensor query follows the table [sensor_channel]: temperature
    channels 0 to 4 read the CPU, GPU, GPU-hotspot, VRM and SSD registers
    and report the byte times 1000, fan channels 0 and 1 read the two
    fan-speed registers and report the byte times 100, a read that fails
    passes its error on with no value, and any other type or channel is
    answered with [-EOPNOTSUPP] in the world as it was. *)
Theorem legion_hwmon_read_channels type attr channel w :
  (sensor_channel type channel =
     match type, channel with
     | hwmon_temp, 0 => Some (EC_REG_CPU_TEMP, 1000)
     | hwmon_temp, 1 => Some (EC_REG_GPU_TEMP, 1000)
     | hwmon_temp, 2 => Some (EC_REG_GPU_HOTSPOT, 1000)
     | hwmon_temp, 3 => Some (EC_REG_VRM_TEMP, 1000)
     | hwmon_temp, 4 => Some (EC_REG_SSD_TEMP, 1000)
     | hwmon_fan, 0 => Some (EC_REG_FAN1_SPEED, 100)
     | hwmon_fan, 1 => Some (EC_REG_FAN2_SPEED, 100)
     | _, _ => None
     end) /\
  match sensor_channel type channel with
  | Some (reg, factor) =>
      (forall raw w', ec_read reg w = Done (0, Some raw) w' ->
         0 <= raw <= 255 /\
         legion_hwmon_read type attr channel w = Done (0, Some (raw * factor)) w') /\
      (forall ret stored w', ec_read reg w = Done (ret, stored) w' -> ret <> 0 ->
         legion_hwmon_read type attr channel w = Done (ret, None) w')
  | None => legion_hwmon_read type attr channel w = Done (- EOPNOTSUPP, None) w
  end.
Proof.
  split.
  - destruct type; try (by destruct channel as [|[[[?|?|]|[?|?|]|]|[[?|?|]|[?|?|]|]|]|?]);
      destruct channel as [|p|p]; try reflexivity;
      destruct p as [[[?|?|]|[?|?|]|]|[[?|?|]|[?|?|]|]|]; reflexivity.
  - destruct (sensor_channel type channel) as [[reg factor]|] eqn:Hch.
    + split.
      * intros raw w' Hrun. split; [by eapply ec_read_byte|].
        by apply (legion_hwmon_read_value _ _ _ reg factor).
      * intros ret stored w' Hrun Hret.
        by apply (legion_hwmon_read_failed _ _ _ reg factor _ _ stored).
    + by apply legion_hwmon_read_unsupported.
Qed.

(** C9: an attach that gets as far as the controller does the three writes
    of [load_fixes], (0xD0, 0x69), (0xD3, 0x02), (0xB8, 0x01), in this order
    and whatever each returns, and then returns 0; it depends on nothing
    else.  An attach that fails has not touched the controller.  The three
    writes are a subsequence of the ten of the tuning profile, addresses and
    values alike. *)
Theorem attach_writes_are_part_of_the_fixes pdev_ptr hwmon_ptr w :
  ec_mutex w = false -> IS_ERR hwmon_ptr = false ->
  (exists rets h t,
     legion_laptop_probe pdev_ptr true 0 hwmon_ptr w =
       Done 0 (World h false (Some (attached_dev pdev_ptr hwmon_ptr)) (trace w ++ t)) /\
     writes_path load_fixes rets t /\ length rets = 3%nat /\
     lock_ops t = concat (replicate 3 [Lock; Unlock])) /\
  (forall kzalloc_ok sysfs_ret hwmon_ptr',
     kzalloc_ok = false \/ sysfs_ret <> 0 \/ IS_ERR hwmon_ptr' = true ->
     exists ret dev,
       legion_laptop_probe pdev_ptr kzalloc_ok sysfs_ret hwmon_ptr' w =
         Done ret (World (ec w) (ec_mutex w) dev (trace w)) /\ ret <> 0) /\
  load_fixes = [(0xD0, 0x69); (0xD3, 0x02); (0xB8, 0x01)] /\
  load_fixes `sublist_of` gen9_fixes /\
  (forall buf count enable, kstrtoul buf = (0, Some enable) -> enable <> 0 ->
     exists rets h t,
       apply_gen9_fixes_store buf count w =
         Done count (World h false (legion_dev w) (trace w ++ t)) /\
       writes_path gen9_fixes rets t).
Proof.
  intros Hfree Herr. split; [|split; [|split; [|split]]].
  - rewrite (legion_laptop_probe_writes _ _ _ Herr), bind_run.
    match goal with
    | |- context [ec_write_each _ ?w0] =>
        destruct (ec_write_each_spec load_fixes w0 Hfree) as (rets & h & t & Hrun & Hp)
    end.
    rewrite Hrun. cbn [legion_dev trace]. exists rets, h, t. split; [done|].
    split; [done|]. split; [by rewrite (writes_path_length _ _ _ Hp)|].
    by rewrite (writes_path_lock_ops _ _ _ Hp).
  - intros kzalloc_ok sysfs_ret hwmon_ptr'. apply legion_laptop_probe_fails.
  - reflexivity.
  - unfold load_fixes, gen9_fixes.
    apply sublist_skip || apply sublist_cons.
    repeat (apply sublist_skip || apply sublist_cons || apply sublist_nil).
  - intros buf count enable Hk Hen.
    rewrite (apply_gen9_fixes_store_enabled buf count enable w Hk Hen), bind_run.
    destruct (ec_write_each_spec gen9_fixes w Hfree) as (rets & h & t & Hrun & Hp).
    rewrite Hrun. by exists rets, h, t.
Qed.

Lemma framed_after {A} (m : M HW A) Q w d :
  framed m Q -> ec_mutex w = false -> legion_dev w = Some d ->
  exists w', after m w = Some w' /\ ec_mutex w' = false /\ legion_dev w' = Some d.
Proof.
  intros Hm Hfree Hdev. destruct (Hm w Hfree) as (a & h & t & Hrun & _).
  unfold after. rewrite Hrun. eauto.
Qed.

Lemma framed_run op :
  (forall buf count, op <> PerformanceModeStore buf count) ->
  exists A (m : M HW A), run op = after m /\ framed m (fun _ => True).
Proof.
  intros Hop. destruct op; try (by destruct (Hop buf count));
    eexists _, _; (split; [reflexivity|]).
  - apply framed_read_then.
  - apply framed_read_then.
  - apply (framed_bounded_store Fan1Target).
  - apply framed_read_then.
  - apply (framed_bounded_store Fan2Target).
  - apply framed_read_then.
  - apply framed_read_then.
  - apply framed_read_then.
  - apply framed_read_then.
  - apply framed_read_then.
  - apply (framed_bounded_store CpuPl1).
  - apply (framed_bounded_store CpuPl2).
  - apply (framed_bounded_store GpuTgp).
  - apply framed_rgb_mode_store.
  - apply (framed_bounded_store RgbBrightness).
  - apply framed_apply_gen9_fixes_store.
  - by apply framed_ret.
  - apply framed_legion_hwmon_read.
  - by apply framed_ret.
Qed.

(** C10: every operation on an attached device returns, from a free lock,
    with the lock free and with driver data whose cached fan speeds and
    temperatures (and pointers) are those it found; if the cached
    performance mode differs, the operation was the performance-mode store.
    Attach itself assigns none of the five cached values: they are the
    zeros of [devm_kzalloc]. *)
Theorem cached_values_frame op w d :
  ec_mutex w = false -> legion_dev w = Some d ->
  (exists w' d',
     run op w = Some w' /\ ec_mutex w' = false /\ legion_dev w' = Some d' /\
     fan1_speed d' = fan1_speed d /\ fan2_speed d' = fan2_speed d /\
     cpu_temp d' = cpu_temp d /\ gpu_temp d' = gpu_temp d /\
     pdev d' = pdev d /\ hwmon_dev d' = hwmon_dev d /\
     thermal_zone d' = thermal_zone d /\
     (performance_mode d' <> performance_mode d ->
      exists buf count, op = PerformanceModeStore buf count)) /\
  (forall pdev_ptr kzalloc_ok sysfs_ret hwmon_ptr ret w1 d1,
     legion_laptop_probe pdev_ptr kzalloc_ok sysfs_ret hwmon_ptr w = Done ret w1 ->
     legion_dev w1 = Some d1 ->
     performance_mode d1 = 0 /\ fan1_speed d1 = 0 /\ fan2_speed d1 = 0 /\
     cpu_temp d1 = 0 /\ gpu_temp d1 = 0).
Proof.
  intros Hfree Hdev. split.
  2:{ intros pdev_ptr kzalloc_ok sysfs_ret hwmon_ptr ret w1 d1.
      by apply legion_laptop_probe_fresh. }
  assert ((exists buf count, op = PerformanceModeStore buf count) \/
          (forall buf count, op <> PerformanceModeStore buf count))
    as [(buf & count & ->)|Hop] by (destruct op; eauto; right; done).
  - destruct (performance_mode_store_frame buf count w d Hfree Hdev)
      as (ret & h & t & d' & Hrun & Hd').
    cbn [run]. unfold after. rewrite Hrun. eexists _, d'.
    do 3 (split; [reflexivity|]).
    destruct Hd' as [->|[mode ->]]; [|by eauto 12].
    repeat (split; [reflexivity|]). done.
  - destruct (framed_run op Hop) as (A & m & -> & Hm).
    destruct (framed_after m _ w d Hm Hfree Hdev) as (w' & Hrun & Hfree' & Hdev').
    exists w', d. repeat (split; [done|]). done.
Qed.

End Handlers.

(** ** Handlers on the reference controller *)

Section HandlersOnFakeEC.

Implicit Types (d : legion_laptop) (tr : list event).

(** The reference controller echoes: a byte written to a register is the
    byte read from it next. *)
Lemma fake_ec_echo reg value r st b ds o dev tr :
  FakeEC.responsive (FakeEC.Make r st b ds o) ->
  exists w1 w2,
    ec_write reg value (World (FakeEC.Make r st b ds o) false dev tr) = Done 0 w1 /\
    ec_read reg w1 = Done (0, Some (u8 value)) w2.
Proof.
  intros Hr. destruct (fake_ec_write reg value r st b ds o dev tr Hr) as [t1 H1].
  destruct (fake_ec_read reg (<[reg := value]> r) FakeEC.Idle O (tl (tl (tl ds))) o dev
              (tr ++ t1)) as [t2 H2].
  { apply responsive_after. destruct Hr as [_ Hds]. cbn [FakeEC.delays] in Hds.
    auto using responsive_tl. }
  eexists _, _. split; [exact H1|].
  rewrite H2, lookup_insert_eq. reflexivity.
Qed.

(** C5: on the reference controller, which echoes (a byte written to a
    register is the byte read from it next, [fake_ec_echo]), in any state in
    which it answers within the 1000 polls of a wait: storing the text of
    any of the four labels succeeds, leaves the byte of the label in the
    performance-mode register and in the cache, and the show that follows
    puts that label, with the newline that ends an attribute, into the
    buffer and returns its length. *)
Theorem performance_mode_round_trip buf count label mode r st b ds o d tr :
  (label, mode) ∈ performance_modes -> names buf label ->
  FakeEC.responsive (FakeEC.Make r st b ds o) ->
  exists w1 w2,
    performance_mode_store buf count
      (World (FakeEC.Make r st b ds o) false (Some d) tr) = Done count w1 /\
    FakeEC.reg (ec w1) EC_REG_PERFORMANCE_MODE = mode /\
    legion_dev w1 = Some (with_performance_mode mode d) /\
    performance_mode_show w1 =
      Done (strlen (label ++ newline), Some (label ++ newline)%string) w2.
Proof.
  intros Hin Hname Hr.
  destruct (performance_mode_store_named buf count label mode
              (World (FakeEC.Make r st b ds o) false (Some d) tr) d Hin Hname eq_refl eq_refl)
    as (ret & w1 & Hw & _ & _ & _ & Hstore).
  destruct (fake_ec_write EC_REG_PERFORMANCE_MODE mode r st b ds o (Some d) tr Hr)
    as [t1 H1].
  rewrite H1 in Hw. injection Hw as <- <-.
  change (0 =? 0) with true in Hstore. cbv iota in Hstore.
  cbn [ec ec_mutex trace] in Hstore.
  destruct (fake_ec_read EC_REG_PERFORMANCE_MODE (<[EC_REG_PERFORMANCE_MODE := mode]> r)
              FakeEC.Idle O (tl (tl (tl ds))) o (Some (with_performance_mode mode d))
              (tr ++ t1)) as [t2 H2].
  { apply responsive_after. destruct Hr as [_ Hds]. cbn [FakeEC.delays] in Hds.
    auto using responsive_tl. }
  eexists _, _. split; [exact Hstore|]. cbn [ec legion_dev].
  split; [unfold FakeEC.reg; cbn [FakeEC.regs]; by rewrite lookup_insert_eq|].
  split; [done|].
  unfold performance_mode_show. rewrite bind_run.
  rewrite H2, lookup_insert_eq. clear H2 Hstore H1.
  unfold performance_modes in Hin.
  repeat (apply elem_of_cons in Hin as [Hin|Hin]); try (by apply elem_of_nil in Hin);
    simplify_eq; reflexivity.
Qed.

End HandlersOnFakeEC.

(** ** The statements at concrete inputs *)

(** C1 does not hold of the code: in [third_write_fails] the third of the
    ten writes returns [-ETIMEDOUT] and the others 0, yet the handler
    returns [count] and not that failure; the first two writes have reached
    the registers, the third has not, and the seven after it have been done
    all the same.  Every other store handler returns the error of its
    write. *)
Lemma apply_gen9_fixes_store_hides_failure :
  exists w',
    ec_write_each gen9_fixes third_write_fails =
      Done [0; 0; - ETIMEDOUT; 0; 0; 0; 0; 0; 0; 0] w' /\
    apply_gen9_fixes_store "1" 1 third_write_fails = Done 1 w' /\
    1 <> - ETIMEDOUT /\
    FakeEC.regs (ec w') !! 0xD0 = Some 0x69 /\
    FakeEC.regs (ec w') !! 0xD2 = Some 0x05 /\
    FakeEC.regs (ec w') !! 0xD3 = None /\
    FakeEC.regs (ec w') !! 0xD4 = Some 0x0A /\
    FakeEC.regs (ec w') !! 0xC9 = Some 0x32.
Proof.
  eexists. split; [vm_compute; reflexivity|].
  split; [vm_compute; reflexivity|].
  split; [done|]. repeat split; vm_compute; reflexivity.
Qed.

Lemma apply_gen9_fixes_store_writes_all_witness :
  ec_mutex third_write_fails = false /\
  exists rets h t,
    apply_gen9_fixes_store "1" 1 third_write_fails =
      Done 1 (World h false (legion_dev third_write_fails)
                (trace third_write_fails ++ t)) /\
    writes_path gen9_fixes rets t /\
    length rets = 10%nat.
Proof.
  split; [reflexivity|].
  destruct (apply_gen9_fixes_store_writes_all (HW := FakeEC.t) "1" 1 third_write_fails eq_refl)
    as [Hen _].
  destruct (Hen 1) as (rets & h & t & Hrun & Hp & Hlen & _);
    [vm_compute; reflexivity|lia|].
  exists rets, h, t. split; [exact Hrun|]. split; [exact Hp|exact Hlen].
Defined.

Lemma transport_releases_lock_witness :
  ec_mutex idle_world = false /\
  (exists ret stored w' body,
     ec_read EC_REG_CPU_TEMP idle_world = Done (ret, stored) w' /\
     ec_mutex w' = false /\
     lock_ops (Lock :: body ++ [Unlock]) = [Lock; Unlock]) /\
  (exists ret w' body,
     ec_write EC_REG_FAN1_TARGET 50 idle_world = Done ret w' /\
     ec_mutex w' = false /\
     lock_ops (Lock :: body ++ [Unlock]) = [Lock; Unlock]).
Proof.
  split; [reflexivity|].
  destruct (transport_releases_lock (HW := FakeEC.t) EC_REG_CPU_TEMP 50 idle_world eq_refl)
    as [(ret & stored & w' & body & Hr & Hm & _ & Hl & _) _].
  destruct (transport_releases_lock (HW := FakeEC.t) EC_REG_FAN1_TARGET 50 idle_world eq_refl)
    as [_ (ret2 & w2 & body2 & Hr2 & Hm2 & _ & Hl2 & _)].
  split.
  - exists ret, stored, w', body. split; [exact Hr|]. split; [exact Hm|exact Hl].
  - exists ret2, w2, body2. split; [exact Hr2|]. split; [exact Hm2|exact Hl2].
Defined.

(** C4 does not hold as worded: the text [quiet] followed by a newline
    is none of the four labels, and it is accepted: the register and the
    cache go from mode 2 to mode 0. *)
Lemma performance_mode_store_accepts_newline :
  (("quiet" ++ newline)%string ∉
     ["quiet"; "balanced"; "performance"; "custom"]%string) /\
  exists w',
    performance_mode_store ("quiet" ++ newline) 6 performance_world = Done 6 w' /\
    FakeEC.reg (ec performance_world) EC_REG_PERFORMANCE_MODE = 2 /\
    FakeEC.reg (ec w') EC_REG_PERFORMANCE_MODE = 0 /\
    performance_mode <$> legion_dev performance_world = Some 2 /\
    performance_mode <$> legion_dev w' = Some 0.
Proof.
  split.
  - intros Hin. repeat (apply elem_of_cons in Hin as [Hin|Hin]; [discriminate Hin|]).
    by apply elem_of_nil in Hin.
  - eexists. split; [vm_compute; reflexivity|]. repeat split; vm_compute; reflexivity.
Qed.

Lemma performance_mode_store_checked_witness :
  ec_mutex performance_world = false /\
  legion_dev performance_world = Some (with_performance_mode 2 zero_dev) /\
  ("balanced", 1) ∈ performance_modes /\
  names "balanced" "balanced" /\
  (exists ret w1,
     ec_write EC_REG_PERFORMANCE_MODE 1 performance_world = Done ret w1 /\
     performance_mode_store "balanced" 8 performance_world =
       if ret =? 0
       then Done 8 (World (ec w1) (ec_mutex w1)
                      (Some (with_performance_mode 1 (with_performance_mode 2 zero_dev)))
                      (trace w1))
       else Done ret w1) /\
  performance_mode_store "turbo" 5 performance_world = Done (- EINVAL) performance_world.
Proof.
  assert (("balanced", 1) ∈ performance_modes) as Hin
    by (unfold performance_modes; set_solver).
  assert (names "balanced" "balanced") as Hname by (by left).
  split; [reflexivity|]. split; [reflexivity|]. split; [exact Hin|]. split; [exact Hname|].
  destruct (performance_mode_store_checked (HW := FakeEC.t) "balanced" 8 performance_world
              (with_performance_mode 2 zero_dev) eq_refl eq_refl) as [Hacc _].
  destruct (performance_mode_store_checked (HW := FakeEC.t) "turbo" 5 performance_world
              (with_performance_mode 2 zero_dev) eq_refl eq_refl) as [_ Hrej].
  split.
  - destruct (Hacc "balanced" 1 Hin Hname) as (ret & w1 & Hw & _ & _ & Hs).
    exists ret, w1. split; [exact Hw|exact Hs].
  - apply Hrej. intros label mode Hl [Hn|Hn]; unfold performance_modes in Hl;
      repeat (apply elem_of_cons in Hl as [Hl|Hl]; [by simplify_eq|]);
      by apply elem_of_nil in Hl.
Defined.

Lemma performance_mode_round_trip_witness :
  ("custom", 3) ∈ performance_modes /\
  names ("custom" ++ newline) "custom" /\
  FakeEC.responsive (ec performance_world) /\
  exists w1 w2,
    performance_mode_store ("custom" ++ newline) 7 performance_world = Done 7 w1 /\
    FakeEC.reg (ec w1) EC_REG_PERFORMANCE_MODE = 3 /\
    performance_mode_show w1 = Done (7, Some ("custom" ++ newline)%string) w2.
Proof.
  assert (("custom", 3) ∈ performance_modes) as Hin
    by (unfold performance_modes; set_solver).
  assert (names ("custom" ++ newline) "custom") as Hname by (by right).
  assert (FakeEC.responsive (ec performance_world)) as Hr.
  { split; cbn; [lia|constructor]. }
  split; [exact Hin|]. split; [exact Hname|]. split; [exact Hr|].
  destruct (performance_mode_round_trip ("custom" ++ newline) 7 "custom" 3
              {[EC_REG_PERFORMANCE_MODE := 2]} FakeEC.Idle O [] 0
              (with_performance_mode 2 zero_dev) [] Hin Hname Hr)
    as (w1 & w2 & Hs & Hreg & _ & Hshow).
  exists w1, w2. split; [exact Hs|]. split; [exact Hreg|exact Hshow].
Defined.

Lemma fan_speed_is_raw_times_100_witness :
  exists w1 w2,
    ec_read EC_REG_FAN1_SPEED fan_world = Done (0, Some 37) w1 /\
    fan1_speed_show fan_world = Done (5, Some ("3700" ++ newline)%string) w1 /\
    legion_hwmon_read hwmon_fan 0 0 fan_world = Done (0, Some 3700) w1 /\
    ec_read EC_REG_FAN2_SPEED fan_world = Done (0, Some 41) w2 /\
    fan2_speed_show fan_world = Done (5, Some ("4100" ++ newline)%string) w2 /\
    legion_hwmon_read hwmon_fan 0 1 fan_world = Done (0, Some 4100) w2.
Proof.
  assert (exists w1, ec_read EC_REG_FAN1_SPEED fan_world = Done (0, Some 37) w1) as [w1 H1]
    by (eexists; vm_compute; reflexivity).
  assert (exists w2, ec_read EC_REG_FAN2_SPEED fan_world = Done (0, Some 41) w2) as [w2 H2]
    by (eexists; vm_compute; reflexivity).
  destruct (fan_speed_is_raw_times_100 (HW := FakeEC.t) fan_world 37 w1) as [Hf1 _].
  destruct (fan_speed_is_raw_times_100 (HW := FakeEC.t) fan_world 41 w2) as [_ Hf2].
  destruct (Hf1 H1) as (_ & Hs1 & _ & Hq1). destruct (Hf2 H2) as (_ & Hs2 & _ & Hq2).
  exists w1, w2. split; [exact H1|]. split; [exact Hs1|]. split; [exact (Hq1 0)|].
  split; [exact H2|]. split; [exact Hs2|exact (Hq2 0)].
Defined.

(** The bounds at work: 100, 140 and 200 are written, the next number is
    refused and nothing is written. *)
Lemma bounded_store_checks_range_witness :
  ec_mutex idle_world = false /\
  kstrtoul "100" = (0, Some 100) /\ kstrtoul "101" = (0, Some 101) /\
  kstrtoul "fast" = (- EINVAL, None) /\
  (exists ret w1,
     ec_write EC_REG_FAN1_TARGET 100 idle_world = Done ret w1 /\
     bounded_store Fan1Target "100" 3 idle_world = Done (if ret =? 0 then 3 else ret) w1) /\
  (exists ret w1,
     ec_write EC_REG_CPU_PL2 200 idle_world = Done ret w1 /\
     bounded_store CpuPl2 (decimal 200) 3 idle_world =
       Done (if ret =? 0 then 3 else ret) w1) /\
  bounded_store Fan1Target "101" 3 idle_world = Done (- EINVAL) idle_world /\
  bounded_store RgbBrightness (decimal 101) 3 idle_world = Done (- EINVAL) idle_world /\
  bounded_store CpuPl1 (decimal 141) 3 idle_world = Done (- EINVAL) idle_world /\
  bounded_store CpuPl2 (decimal 201) 3 idle_world = Done (- EINVAL) idle_world /\
  bounded_store GpuTgp (decimal 141) 3 idle_world = Done (- EINVAL) idle_world /\
  bounded_store Fan2Target "fast" 4 idle_world = Done (- EINVAL) idle_world.
Proof.
  split; [reflexivity|]. do 3 (split; [vm_compute; reflexivity|]).
  split.
  { destruct (bounded_store_checks_range (HW := FakeEC.t) Fan1Target "100" 3 idle_world
                eq_refl) as (_ & _ & Hacc & _ & _).
    destruct (Hacc 100) as (ret & w1 & Hw & _ & Hs);
      [vm_compute; reflexivity|cbn [bound]; lia|].
    exists ret, w1. split; [exact Hw|exact Hs]. }
  split.
  { destruct (bounded_store_checks_range (HW := FakeEC.t) CpuPl2 "" 3 idle_world
                eq_refl) as (Hacc & _).
    destruct (Hacc 200) as (ret & w1 & Hw & _ & Hs); [cbn [bound]; lia|].
    exists ret, w1. split; [exact Hw|exact Hs]. }
  split.
  { destruct (bounded_store_checks_range (HW := FakeEC.t) Fan1Target "101" 3 idle_world
                eq_refl) as (_ & _ & _ & Hrej & _).
    apply (Hrej 101); [vm_compute; reflexivity|cbn [bound]; lia]. }
  split.
  { destruct (bounded_store_checks_range (HW := FakeEC.t) RgbBrightness "" 3 idle_world
                eq_refl) as (_ & Hrej & _).
    apply (Hrej 101). cbn [bound]. lia. }
  split.
  { destruct (bounded_store_checks_range (HW := FakeEC.t) CpuPl1 "" 3 idle_world
                eq_refl) as (_ & Hrej & _).
    apply (Hrej 141). cbn [bound]. lia. }
  split.
  { destruct (bounded_store_checks_range (HW := FakeEC.t) CpuPl2 "" 3 idle_world
                eq_refl) as (_ & Hrej & _).
    apply (Hrej 201). cbn [bound]. lia. }
  split.
  { destruct (bounded_store_checks_range (HW := FakeEC.t) GpuTgp "" 3 idle_world
                eq_refl) as (_ & Hrej & _).
    apply (Hrej 141). cbn [bound]. lia. }
  destruct (bounded_store_checks_range (HW := FakeEC.t) Fan2Target "fast" 4 idle_world
              eq_refl) as (_ & _ & _ & _ & Hbad).
  apply (Hbad (- EINVAL)); [vm_compute; reflexivity|done].
Defined.

(** The same on the reference controller, run: 100 reaches the fan target
    register, 101 reaches nothing. *)
Example fan1_target_store_runs :
  (exists w1,
     fan1_target_store "100" 3 idle_world = Done 3 w1 /\
     FakeEC.regs (ec w1) !! EC_REG_FAN1_TARGET = Some 100) /\
  fan1_target_store "101" 3 idle_world = Done (- EINVAL) idle_world.
Proof.
  split; [eexists; split|]; vm_compute; reflexivity.
Qed.

Lemma legion_hwmon_read_channels_witness :
  (exists w1,
     ec_read EC_REG_GPU_TEMP fan_world = Done (0, Some 55) w1 /\
     legion_hwmon_read hwmon_temp 0 1 fan_world = Done (0, Some 55000) w1) /\
  legion_hwmon_read hwmon_temp 0 5 fan_world = Done (- EOPNOTSUPP, None) fan_world /\
  legion_hwmon_read hwmon_fan 0 2 fan_world = Done (- EOPNOTSUPP, None) fan_world /\
  legion_hwmon_read hwmon_pwm 0 0 fan_world = Done (- EOPNOTSUPP, None) fan_world.
Proof.
  assert (exists w1, ec_read EC_REG_GPU_TEMP fan_world = Done (0, Some 55) w1) as [w1 H1]
    by (eexists; vm_compute; reflexivity).
  split; [|split; [|split]].
  - destruct (legion_hwmon_read_channels (HW := FakeEC.t) hwmon_temp 0 1 fan_world)
      as [_ Hch].
    cbn [sensor_channel Z.eqb Pos.eqb] in Hch. destruct Hch as [Hok _].
    destruct (Hok 55 w1 H1) as [_ Hq]. exists w1. split; [exact H1|exact Hq].
  - destruct (legion_hwmon_read_channels (HW := FakeEC.t) hwmon_temp 0 5 fan_world)
      as [_ Hch]. exact Hch.
  - destruct (legion_hwmon_read_channels (HW := FakeEC.t) hwmon_fan 0 2 fan_world)
      as [_ Hch]. exact Hch.
  - destruct (legion_hwmon_read_channels (HW := FakeEC.t) hwmon_pwm 0 0 fan_world)
      as [_ Hch]. exact Hch.
Defined.

Lemma attach_writes_are_part_of_the_fixes_witness :
  ec_mutex unattached_world = false /\ IS_ERR 4096 = false /\
  exists rets h t,
    legion_laptop_probe 8192 true 0 4096 unattached_world =
      Done 0 (World h false (Some (attached_dev 8192 4096)) (trace unattached_world ++ t)) /\
    writes_path load_fixes rets t /\ length rets = 3%nat.
Proof.
  do 2 (split; [reflexivity|]).
  destruct (attach_writes_are_part_of_the_fixes (HW := FakeEC.t) 8192 4096 unattached_world
              eq_refl eq_refl) as [(rets & h & t & Hrun & Hp & Hlen & _) _].
  exists rets, h, t. split; [exact Hrun|]. split; [exact Hp|exact Hlen].
Defined.

(** Attach on the reference controller: the three registers hold the three
    values, and no other register was written. *)
Example legion_laptop_probe_registers :
  exists w',
    legion_laptop_probe 8192 true 0 4096 unattached_world = Done 0 w' /\
    FakeEC.regs (ec w') = {[0xD0 := 0x69; 0xD3 := 0x02; 0xB8 := 0x01]} /\
    legion_dev w' = Some (attached_dev 8192 4096).
Proof.
  eexists. split; [vm_compute; reflexivity|]. split; vm_compute; reflexivity.
Qed.

Lemma cached_values_frame_witness :
  ec_mutex fan_world = false /\ legion_dev fan_world = Some zero_dev /\
  exists w' d',
    run Fan1SpeedShow fan_world = Some w' /\ legion_dev w' = Some d' /\
    fan1_speed d' = 0 /\ fan2_speed d' = 0 /\ cpu_temp d' = 0 /\ gpu_temp d' = 0.
Proof.
  do 2 (split; [reflexivity|]).
  destruct (cached_values_frame (HW := FakeEC.t) Fan1SpeedShow fan_world zero_dev
              eq_refl eq_refl) as [(w' & d' & Hrun & _ & Hd & H1 & H2 & H3 & H4 & _) _].
  exists w', d'. split; [exact Hrun|]. split; [exact Hd|].
  split; [exact H1|]. split; [exact H2|]. split; [exact H3|exact H4].
Defined.

(** * Further properties of the transport *)

Section TransportBounds.
Context {HW : Type} `{!PortIO HW}.

Implicit Types (w : world HW) (reg value : Z).

Lemma poll_count_app t1 t2 : poll_count (t1 ++ t2) = (poll_count t1 + poll_count t2)%nat.
Proof. unfold poll_count. by rewrite List.filter_app, length_app. Qed.

Lemma delay_total_app t1 t2 : delay_total (t1 ++ t2) = delay_total t1 + delay_total t2.
Proof.
  unfold delay_total. induction t1 as [|e t1 IH]; cbn [app foldr]; [lia|].
  destruct e; lia.
Qed.

Lemma delay_total_wait_events busy last :
  delay_total (wait_events busy last) = 10 * Z.of_nat (length busy).
Proof.
  unfold wait_events. rewrite delay_total_app.
  assert (delay_total match last with Some st => [Inb EC_PORT_CMD st] | None => [] end = 0)
    as -> by (by destruct last).
  induction busy as [|st busy IH]; [done|].
  rewrite fmap_cons. unfold poll_busy at 1. cbn [concat app length].
  change (delay_total (Inb EC_PORT_CMD st :: Udelay 10 :: concat (poll_busy <$> busy)))
    with (10 + delay_total (concat (poll_busy <$> busy))).
  lia.
Qed.

(** One wait: at most 1000 polls and 10 milliseconds of delay. *)
Lemma wait_path_bounds ret t :
  wait_path ret t -> (poll_count t <= 1000)%nat /\ 0 <= delay_total t <= 10000.
Proof.
  destruct 1 as [busy st Hlen _ _|busy Hlen _];
    rewrite poll_count_wait_events, delay_total_wait_events; lia.
Qed.

Lemma poll_count_cons e t :
  poll_count (e :: t) = ((if is_inb e then 1 else 0) + poll_count t)%nat.
Proof. unfold poll_count. cbn [List.filter]. by destruct (is_inb e). Qed.

Lemma delay_total_cons e t :
  delay_total (e :: t) =
    match e with Udelay usecs => usecs | _ => 0 end + delay_total t.
Proof. unfold delay_total. cbn [foldr]. destruct e; lia. Qed.

Ltac bound_path :=
  repeat match goal with
         | H : wait_path _ _ |- _ => apply wait_path_bounds in H
         end;
  repeat (rewrite poll_count_app || rewrite delay_total_app ||
          rewrite poll_count_cons || rewrite delay_total_cons);
  change (poll_count []) with O; change (delay_total []) with 0;
  cbn [is_inb]; lia.

Lemma read_path_bounds reg ret stored body :
  read_path reg ret stored body ->
  (poll_count body <= 3001)%nat /\ 0 <= delay_total body <= 30000.
Proof. destruct 1; bound_path. Qed.

Lemma write_path_bounds reg value ret body :
  write_path reg value ret body ->
  (poll_count body <= 4000)%nat /\ 0 <= delay_total body <= 40000.
Proof. destruct 1; bound_path. Qed.





(** X2: a transaction is bounded, whatever the controller does.  [ec_read]
    reads a port at most 3001 times (three waits and the data byte) and
    spends at most 30 milliseconds in delays; [ec_write] polls at most 4000
    times and delays at most 40 milliseconds. *)
Theorem transport_worst_case reg value w :
  ec_mutex w = false ->
  (exists ret stored w' body,
     ec_read reg w = Done (ret, stored) w' /\
     trace w' = trace w ++ Lock :: body ++ [Unlock] /\
     (poll_count body <= 3001)%nat /\ 0 <= delay_total body <= 30000) /\
  (exists ret w' body,
     ec_write reg value w = Done ret w' /\
     trace w' = trace w ++ Lock :: body ++ [Unlock] /\
     (poll_count body <= 4000)%nat /\ 0 <= delay_total body <= 40000).
Proof.
  intros Hfree. split.
  - destruct (ec_read_spec reg w Hfree) as (ret & stored & h & body & Hrun & Hp).
    eexists ret, stored, _, body. split; [exact Hrun|]. split; [done|].
    exact (read_path_bounds _ _ _ _ Hp).
  - destruct (ec_write_spec reg value w Hfree) as (ret & h & body & Hrun & Hp).
    eexists ret, _, body. split; [exact Hrun|]. split; [done|].
    exact (write_path_bounds _ _ _ _ Hp).
Qed.

End TransportBounds.

(** * Further properties of the handlers *)

Section MoreHandlers.
Context {HW : Type} `{!PortIO HW}.

Implicit Types (w : world HW) (reg : Z) (d : legion_laptop).

Ltac unfold_temp a :=
  destruct a;
  unfold temp_show, cpu_temp_show, gpu_temp_show, gpu_hotspot_show, vrm_temp_show,
    ssd_temp_show; cbn [temp_reg temp_channel] in *.

Lemma temp_show_value a w raw w' :
  ec_read (temp_reg a) w = Done (0, Some raw) w' ->
  temp_show a w =
    Done (strlen (decimal raw ++ newline), Some (decimal raw ++ newline)%string) w'.
Proof.
  intros Hrun. unfold_temp a; rewrite bind_run, Hrun;
    change (negb (0 =? 0)) with false; cbv iota; by rewrite bind_run.
Qed.

Lemma temp_show_failed a w ret stored w' :
  ec_read (temp_reg a) w = Done (ret, stored) w' -> ret <> 0 ->
  temp_show a w = Done (ret, None) w'.
Proof.
  intros Hrun Hret. apply Z.eqb_neq in Hret.
  unfold_temp a; by rewrite bind_run, Hrun, Hret.
Qed.

Lemma temp_sensor_channel a :
  sensor_channel hwmon_temp (temp_channel a) = Some (temp_reg a, 1000).
Proof. by destruct a. Qed.

(** X3: a temperature attribute shows the byte of its register as decimal
    text, in degrees; that text reads back as the byte, and the sensor
    channel of the same temperature reports 1000 times that number.  A read
    that fails is passed on by the attribute as its return value, with no
    text. *)
Theorem temperature_attribute_and_channel_agree a w w' :
  (forall raw, ec_read (temp_reg a) w = Done (0, Some raw) w' ->
     0 <= raw <= 255 /\
     temp_show a w =
       Done (strlen (decimal raw ++ newline), Some (decimal raw ++ newline)%string) w' /\
     kstrtoul (decimal raw ++ newline) = (0, Some raw) /\
     forall attr,
       legion_hwmon_read hwmon_temp attr (temp_channel a) w =
         Done (0, Some (1000 * raw)) w') /\
  (forall ret stored, ec_read (temp_reg a) w = Done (ret, stored) w' -> ret <> 0 ->
     temp_show a w = Done (ret, None) w' /\
     forall attr,
       legion_hwmon_read hwmon_temp attr (temp_channel a) w = Done (ret, None) w').
Proof.
  split.
  - intros raw Hrun. pose proof (ec_read_byte _ _ _ _ Hrun) as Hraw.
    split; [done|]. split; [by apply temp_show_value|].
    split; [apply kstrtoul_decimal; [unfold ULONG_MAX; lia|by right]|].
    intros attr. rewrite Z.mul_comm.
    apply (legion_hwmon_read_value _ _ _ (temp_reg a) 1000); [|done].
    apply temp_sensor_channel.
  - intros ret stored Hrun Hret. split; [by eapply temp_show_failed|].
    intros attr.
    apply (legion_hwmon_read_failed _ _ _ (temp_reg a) 1000 _ _ stored); [|done..].
    apply temp_sensor_channel.
Qed.

Ltac compute_streq :=
  repeat match goal with
         | |- context [sysfs_streq ?a ?b] =>
             let v := eval vm_compute in (sysfs_streq a b) in
             change (sysfs_streq a b) with v
         end;
  cbv iota.

Lemma performance_mode_show_value w mode w' :
  ec_read EC_REG_PERFORMANCE_MODE w = Done (0, Some mode) w' ->
  performance_mode_show w =
    Done (strlen (mode_label mode ++ newline),
          Some (mode_label mode ++ newline)%string) w'.
Proof.
  intros Hrun. unfold performance_mode_show. rewrite bind_run, Hrun.
  change (negb (0 =? 0)) with false. cbv iota.
  rewrite bind_run. cbn [load mret M_ret]. unfold mode_label.
  destruct mode as [|p|p]; try reflexivity.
  destruct p as [[?|?|]|[?|?|]|]; reflexivity.
Qed.

Lemma performance_mode_show_failed w ret stored w' :
  ec_read EC_REG_PERFORMANCE_MODE w = Done (ret, stored) w' -> ret <> 0 ->
  performance_mode_show w = Done (ret, None) w'.
Proof.
  intros Hrun Hret. apply Z.eqb_neq in Hret.
  unfold performance_mode_show. by rewrite bind_run, Hrun, Hret.
Qed.

Lemma mode_label_known mode :
  0 <= mode <= 3 -> (mode_label mode, mode) ∈ performance_modes.
Proof.
  intros Hm. assert (mode = 0 \/ mode = 1 \/ mode = 2 \/ mode = 3) as Hc by lia.
  clear Hm. unfold performance_modes.
  destruct Hc as [Hc|[Hc|[Hc|Hc]]]; rewrite Hc; cbn [mode_label Z.eqb Pos.eqb]; set_solver.
Qed.

Lemma mode_label_unknown mode :
  ~ 0 <= mode <= 3 -> mode_label mode = "unknown"%string.
Proof.
  intros Hm. unfold mode_label.
  destruct (Z.eqb_spec mode 0); [lia|]. destruct (Z.eqb_spec mode 1); [lia|].
  destruct (Z.eqb_spec mode 2); [lia|]. destruct (Z.eqb_spec mode 3); [lia|]. done.
Qed.

(** X4: what the performance-mode attribute shows can be stored back.  The
    attribute shows the label of the byte it read, or [unknown] for a byte
    above 3, and passes a failed read on with no text.  Storing the text
    shown for a byte up to 3 writes that same byte to the register; the text
    [unknown] is refused with [-EINVAL] and nothing is written. *)
Theorem performance_mode_show_then_store w w' :
  (forall mode, ec_read EC_REG_PERFORMANCE_MODE w = Done (0, Some mode) w' ->
     exists text,
       performance_mode_show w = Done (strlen text, Some text) w' /\
       text = (mode_label mode ++ newline)%string /\
       forall count w2 d, ec_mutex w2 = false -> legion_dev w2 = Some d ->
         (mode <= 3 ->
          exists ret w3,
            ec_write EC_REG_PERFORMANCE_MODE mode w2 = Done ret w3 /\
            performance_mode_store text count w2 =
              if ret =? 0
              then Done count (World (ec w3) (ec_mutex w3)
                                 (Some (with_performance_mode mode d)) (trace w3))
              else Done ret w3) /\
         (3 < mode -> performance_mode_store text count w2 = Done (- EINVAL) w2)) /\
  (forall ret stored,
     ec_read EC_REG_PERFORMANCE_MODE w = Done (ret, stored) w' -> ret <> 0 ->
     performance_mode_show w = Done (ret, None) w').
Proof.
  split; [|intros ret stored; apply performance_mode_show_failed].
  intros mode Hrun. pose proof (ec_read_byte _ _ _ _ Hrun) as Hraw.
  exists (mode_label mode ++ newline)%string.
  split; [by apply performance_mode_show_value|]. split; [done|].
  intros count w2 d Hfree Hdev. split.
  - intros Hm.
    destruct (performance_mode_store_named (mode_label mode ++ newline) count
                (mode_label mode) mode w2 d) as (ret & w3 & Hw & _ & _ & _ & Hs);
      [apply mode_label_known; lia|by right|done|done|].
    by exists ret, w3.
  - intros Hm. rewrite mode_label_unknown by lia.
    unfold performance_mode_store, newline. by compute_streq.
Qed.

Lemma rgb_mode_store_named buf count label mode w :
  (label, mode) ∈ rgb_modes -> names buf label -> ec_mutex w = false ->
  exists ret w1,
    ec_write EC_REG_RGB_MODE mode w = Done ret w1 /\
    legion_dev w1 = legion_dev w /\
    (ret = 0 \/ ret = - ETIMEDOUT) /\
    rgb_mode_store buf count w = Done (if ret =? 0 then count else ret) w1.
Proof.
  intros Hin Hname Hfree.
  destruct (ec_write_run EC_REG_RGB_MODE mode w Hfree) as (ret & h & t & Hrun & Hret).
  eexists ret, _. split; [exact Hrun|]. cbn [legion_dev].
  do 2 (split; [done|]).
  unfold rgb_modes in Hin.
  repeat (apply elem_of_cons in Hin as [Hin|Hin]); try (by apply elem_of_nil in Hin);
    simplify_eq; destruct Hname as [-> | ->]; unfold rgb_mode_store, newline;
    compute_streq; rewrite bind_run, Hrun;
    destruct Hret as [-> | ->]; reflexivity.
Qed.

Lemma rgb_mode_store_unnamed buf count w :
  (forall label mode, (label, mode) ∈ rgb_modes -> ~ names buf label) ->
  rgb_mode_store buf count w = Done (- EINVAL) w.
Proof.
  intros Hno. unfold rgb_mode_store.
  assert (forall label mode, (label, mode) ∈ rgb_modes ->
            ends_with_newline label = false -> sysfs_streq buf label = false) as Hf.
  { intros label mode Hin Hl. destruct (sysfs_streq buf label) eqn:E; [|done].
    apply sysfs_streq_names in E; [|done]. by destruct (Hno label mode Hin). }
  rewrite (Hf "off" 0), (Hf "static" 1), (Hf "breathing" 2), (Hf "rainbow" 3),
    (Hf "wave" 4) by (done || unfold rgb_modes; set_solver).
  reflexivity.
Qed.

(** X5: the lighting mode.  The texts accepted are [off], [static],
    [breathing], [rainbow] and [wave], each possibly followed by one
    newline; the byte 0 to 4 of the label is written to the lighting-mode
    register and the handler returns [count], or the error of the write.
    Unlike the performance mode, nothing is cached: the driver data are as
    they were, also after a write that succeeded.  Any other text is refused
    with [-EINVAL] in the world as it was. *)
Theorem rgb_mode_store_checked buf count w :
  ec_mutex w = false ->
  (forall label mode, (label, mode) ∈ rgb_modes -> names buf label ->
     exists ret w1,
       ec_write EC_REG_RGB_MODE mode w = Done ret w1 /\
       legion_dev w1 = legion_dev w /\
       (ret = 0 \/ ret = - ETIMEDOUT) /\
       rgb_mode_store buf count w = Done (if ret =? 0 then count else ret) w1) /\
  ((forall label mode, (label, mode) ∈ rgb_modes -> ~ names buf label) ->
   rgb_mode_store buf count w = Done (- EINVAL) w).
Proof.
  intros Hfree. split.
  - intros label mode Hin Hname. by apply (rgb_mode_store_named _ _ label).
  - apply rgb_mode_store_unnamed.
Qed.

End MoreHandlers.

(** * What each operation does to the controller *)

Section Footprint.
Context {HW : Type} `{!PortIO HW}.

Implicit Types (w : world HW) (reg : Z) (l : list txn).

Lemma txns_app l1 t1 l2 t2 : txns l1 t1 -> txns l2 t2 -> txns (l1 ++ l2) (t1 ++ t2).
Proof.
  intros H1 H2. induction H1 as [|reg ret stored body l t Hp _ IH|reg value ret body l t Hp _ IH];
    [done|..]; cbn [app]; rewrite <- app_assoc; cbn [app]; by constructor.
Qed.

Lemma logged_ret {A} (a : A) (Q : A -> list txn -> Prop) :
  Q a [] -> logged (mret a : M HW A) Q.
Proof.
  intros Ha w Hfree Hdev. exists a, w, [], []. rewrite app_nil_r.
  repeat split; try done. constructor.
Qed.

Lemma logged_load {A} (v : A) (Q : A -> list txn -> Prop) :
  Q v [] -> logged (load (Some v) : M HW A) Q.
Proof. apply logged_ret. Qed.

Lemma logged_bind {A B} (m : M HW A) (f : A -> M HW B) Q R :
  logged m Q ->
  (forall a l1, Q a l1 -> logged (f a) (fun b l2 => R b (l1 ++ l2))) ->
  logged (m ≫= f) R.
Proof.
  intros Hm Hf w Hfree Hdev.
  destruct (Hm w Hfree Hdev) as (a & w1 & l1 & t1 & Hrun & Hfree1 & Hdev1 & Ht1 & Hl1 & Ha).
  destruct (Hf a l1 Ha w1 Hfree1 Hdev1)
    as (b & w2 & l2 & t2 & Hrun2 & Hfree2 & Hdev2 & Ht2 & Hl2 & Hb).
  exists b, w2, (l1 ++ l2), (t1 ++ t2). rewrite bind_run, Hrun.
  split; [done|]. split; [done|]. split; [done|].
  split; [by rewrite Ht2, Ht1, app_assoc|]. split; [by apply txns_app|done].
Qed.

Lemma logged_weaken {A} (m : M HW A) (Q R : A -> list txn -> Prop) :
  logged m Q -> (forall a l, Q a l -> R a l) -> logged m R.
Proof.
  intros Hm HQR w Hfree Hdev.
  destruct (Hm w Hfree Hdev) as (a & w1 & l1 & t1 & Hrun & ? & ? & ? & ? & Ha).
  exists a, w1, l1, t1. eauto 10.
Qed.

Lemma logged_ec_read reg :
  logged (ec_read reg)
    (fun r l => l = [TRead reg r.1 r.2] /\ (r.1 = 0 -> exists v, r.2 = Some v)).
Proof.
  intros w Hfree Hdev.
  destruct (ec_read_spec reg w Hfree) as (ret & stored & h & body & Hrun & Hp).
  eexists (ret, stored), _, [TRead reg ret stored], (Lock :: body ++ [Unlock]).
  split; [exact Hrun|]. cbn [ec_mutex legion_dev trace fst snd].
  do 3 (split; [done|]). split; [by repeat constructor|].
  split; [done|]. intros ->. destruct (read_path_done _ _ _ Hp) as (v & -> & _). eauto.
Qed.

Lemma logged_ec_write reg value :
  logged (ec_write reg value) (fun ret l => l = [TWrite reg value ret]).
Proof.
  intros w Hfree Hdev.
  destruct (ec_write_spec reg value w Hfree) as (ret & h & body & Hrun & Hp).
  eexists ret, _, [TWrite reg value ret], (Lock :: body ++ [Unlock]).
  split; [exact Hrun|]. cbn [ec_mutex legion_dev trace].
  do 3 (split; [done|]). split; [by repeat constructor|done].
Qed.

Lemma logged_ec_write_each fixes :
  logged (ec_write_each fixes)
    (fun rets l => length rets = length fixes /\ l = writes_of fixes rets).
Proof.
  induction fixes as [|[reg value] fixes IH]; cbn [ec_write_each].
  - by apply logged_ret.
  - eapply logged_bind; [apply logged_ec_write|]. intros ret l1 ->.
    eapply logged_bind; [apply IH|]. intros rets l2 [Hlen ->].
    apply logged_ret. rewrite app_nil_r. cbn [length]. by rewrite Hlen.
Qed.

Lemma logged_set_performance_mode mode :
  logged (set_performance_mode mode : M HW unit) (fun _ l => l = []).
Proof.
  intros w Hfree [d Hdev]. unfold set_performance_mode. rewrite Hdev.
  eexists tt, _, [], []. split; [reflexivity|]. cbn [ec_mutex legion_dev trace].
  rewrite app_nil_r. repeat split; try done. constructor.
Qed.

(** A [show] handler or sensor query: one read, then a pure conversion. *)
Lemma logged_read_then {A} reg (k : Z -> A) (e : Z -> A) :
  logged ('(ret, x) ← ec_read reg;
          if negb (ret =? 0) then mret (e ret) else
          x ← load x; mret (k x)) (fun _ l => one_read reg l).
Proof.
  eapply logged_bind; [apply logged_ec_read|].
  intros [ret stored] l1 [-> Hs]. cbn [fst snd] in *.
  assert (one_read reg ([TRead reg ret stored] ++ [])) as Hone by (by exists ret, stored).
  destruct (Z.eqb_spec ret 0) as [->|Hret]; cbn [negb]; [|by apply logged_ret].
  destruct Hs as [v ->]; [done|].
  eapply logged_bind; [by apply (logged_load v (fun _ l => l = []))|].
  intros ? ? ->. by apply logged_ret.
Qed.

Ltac unfold_bounded_store a :=
  destruct a;
  unfold bounded_store, fan1_target_store, fan2_target_store, rgb_brightness_store,
    cpu_pl1_store, cpu_pl2_store, gpu_tgp_store.

Lemma logged_bounded_store a buf count :
  logged (bounded_store a buf count)
    (fun _ l => at_most_one_write (bounded_reg a) (bound a) l).
Proof.
  destruct (kstrtoul_cases buf) as [(t & Hk & Ht)|(err & Hk & Herr)].
  - assert (forall v, (v >? bound a) = false -> 0 <= v -> u8 v = v) as Hu8.
    { intros v Hv Hv0. apply u8_small. rewrite Z.gtb_ltb in Hv. apply Z.ltb_ge in Hv.
      destruct a; cbn [bound] in Hv; lia. }
    unfold_bounded_store a; rewrite Hk; change (negb (0 =? 0)) with false; cbv iota;
      (eapply logged_bind; [by apply (logged_load t (fun v l => v = t /\ l = []))|]);
      intros ? ? [-> ->];
      (destruct (_ >? _) eqn:Hgt; [apply logged_ret; by left|]);
      rewrite (Hu8 t Hgt) by lia;
      (eapply logged_bind; [apply logged_ec_write|]); intros ret ? ->;
      rewrite Z.gtb_ltb in Hgt; apply Z.ltb_ge in Hgt;
      case_match; apply logged_ret; right; exists t, ret;
      (split; [cbn [bound]; lia|done]).
  - intros w Hfree Hdev. rewrite (bounded_store_unparsed a buf count w err Hk Herr).
    exists (- EINVAL), w, [], []. rewrite app_nil_r.
    repeat split; try done; [constructor|by left].
Qed.

Lemma logged_rgb_mode_store buf count :
  logged (rgb_mode_store buf count)
    (fun _ l => at_most_one_write EC_REG_RGB_MODE 4 l).
Proof.
  unfold rgb_mode_store.
  repeat match goal with
         | |- context [sysfs_streq buf ?lbl] => destruct (sysfs_streq buf lbl)
         end;
    first [apply logged_ret; by left
          |eapply logged_bind; [apply logged_ec_write|];
           intros ret ? ->; case_match; apply logged_ret; right;
           eexists _, ret; (split; [|reflexivity]); lia].
Qed.

Lemma logged_performance_mode_store buf count :
  logged (performance_mode_store buf count)
    (fun _ l => at_most_one_write EC_REG_PERFORMANCE_MODE 3 l).
Proof.
  unfold performance_mode_store.
  repeat match goal with
         | |- context [sysfs_streq buf ?lbl] => destruct (sysfs_streq buf lbl)
         end;
    first [apply logged_ret; by left
          |eapply logged_bind; [apply logged_ec_write|];
           intros ret ? ->; case_match;
           [apply logged_ret; right; eexists _, ret; (split; [|reflexivity]); lia
           |eapply logged_bind; [apply logged_set_performance_mode|];
            intros ? ? ->; apply logged_ret; right;
            eexists _, ret; (split; [|reflexivity]); lia]].
Qed.

Lemma logged_apply_gen9_fixes_store buf count :
  logged (apply_gen9_fixes_store buf count)
    (fun _ l => l = [] \/ exists rets, length rets = 10%nat /\ l = writes_of gen9_fixes rets).
Proof.
  destruct (kstrtoul_cases buf) as [(enable & Hk & _)|(err & Hk & Herr)].
  - destruct (Z.eq_dec enable 0) as [->|Hen]; intros w Hfree Hdev.
    + rewrite (apply_gen9_fixes_store_disabled buf count w Hk).
      exists count, w, [], []. rewrite app_nil_r.
      repeat split; try done; [constructor|by left].
    + rewrite (apply_gen9_fixes_store_enabled buf count enable w Hk Hen).
      revert w Hfree Hdev. eapply logged_bind; [apply logged_ec_write_each|].
      intros rets l1 [Hlen ->]. apply logged_ret. right. exists rets.
      by rewrite app_nil_r.
  - intros w Hfree Hdev. rewrite (apply_gen9_fixes_store_unparsed buf count err w Hk Herr).
    exists (- EINVAL), w, [], []. rewrite app_nil_r.
    repeat split; try done; [constructor|by left].
Qed.

Lemma logged_legion_hwmon_read type attr channel :
  logged (legion_hwmon_read type attr channel)
    (fun _ l => match sensor_channel type channel with
                | Some (reg, _) => one_read reg l
                | None => l = []
                end).
Proof.
  intros w Hfree Hdev. rewrite legion_hwmon_read_table.
  destruct (sensor_channel type channel) as [[reg factor]|].
  - revert w Hfree Hdev.
    apply (logged_read_then reg (fun x => (0, Some (c_int (x * factor))))
             (fun ret => (ret, None))).
  - exists (- EOPNOTSUPP, None), w, [], []. rewrite app_nil_r.
    repeat split; try done. constructor.
Qed.

Lemma logged_run op :
  exists A (m : M HW A), run op = after m /\ logged m (fun _ l => op_txns op l).
Proof.
  destruct op; eexists _, _; (split; [reflexivity|]); cbn [op_txns].
  - apply logged_read_then.
  - apply logged_performance_mode_store.
  - apply logged_read_then.
  - apply (logged_bounded_store Fan1Target).
  - apply logged_read_then.
  - apply (logged_bounded_store Fan2Target).
  - apply logged_read_then.
  - apply logged_read_then.
  - apply logged_read_then.
  - apply logged_read_then.
  - apply logged_read_then.
  - apply (logged_bounded_store CpuPl1).
  - apply (logged_bounded_store CpuPl2).
  - apply (logged_bounded_store GpuTgp).
  - apply logged_rgb_mode_store.
  - apply (logged_bounded_store RgbBrightness).
  - apply logged_apply_gen9_fixes_store.
  - by apply logged_ret.
  - apply logged_legion_hwmon_read.
  - by apply logged_ret.
Qed.

(** X6: the hardware footprint of the operations.  From a free lock, on an
    attached device, every operation returns with the lock free, and what
    it has added to the log is a sequence of whole transactions, each
    between a [Lock] and the next [Unlock]: exactly one read of its own
    register for a show handler or a supported sensor channel; nothing or
    one write to its own register, of a byte within the bound, for a store
    handler; nothing or the ten writes of the tuning profile for that
    handler; nothing at all for an unsupported channel, the visibility
    callback and detach. *)
Theorem operations_footprint op w :
  ec_mutex w = false -> is_Some (legion_dev w) ->
  exists w' l t,
    run op w = Some w' /\ ec_mutex w' = false /\
    trace w' = trace w ++ t /\ txns l t /\ op_txns op l.
Proof.
  intros Hfree Hdev. destruct (logged_run op) as (A & m & -> & Hm).
  destruct (Hm w Hfree Hdev) as (a & w' & l & t & Hrun & Hfree' & _ & Ht & Hl & Hop).
  exists w', l, t. unfold after. by rewrite Hrun.
Qed.

Ltac not_listed :=
  let Hin := fresh "Hin" in
  intros Hin; unfold sensor_registers in Hin;
  repeat (apply elem_of_cons in Hin as [Hin|Hin]; [discriminate Hin|]);
  by apply elem_of_nil in Hin.

Lemma one_read_no_write reg l r v e :
  one_read reg l -> TWrite r v e ∉ l.
Proof.
  intros (ret & stored & ->) Hin.
  apply list_elem_of_singleton in Hin. discriminate Hin.
Qed.

Lemma at_most_one_write_within reg hi l r v e :
  at_most_one_write reg hi l -> hi <= 200 -> TWrite r v e ∈ l ->
  r = reg /\ 0 <= v <= 200 /\ u8 v = v.
Proof.
  intros [->|(v0 & e0 & Hv & ->)] Hhi Hin.
  - by apply elem_of_nil in Hin.
  - apply list_elem_of_singleton in Hin. simplify_eq.
    split; [done|]. split; [lia|]. unfold u8. apply Z.mod_small. lia.
Qed.

Lemma writes_of_listed fixes rets r v e :
  TWrite r v e ∈ writes_of fixes rets -> (r, v) ∈ fixes.
Proof.
  unfold writes_of. revert rets.
  induction fixes as [|[reg value] fixes IH]; intros [|ret rets] Hin;
    cbn [zip_with fst snd] in Hin; try (by apply elem_of_nil in Hin).
  apply elem_of_cons in Hin as [Hin|Hin].
  - simplify_eq. apply elem_of_cons. by left.
  - apply elem_of_cons. right. by apply (IH rets).
Qed.

Lemma writes_of_gen9_fixes_within rets r v e :
  TWrite r v e ∈ writes_of gen9_fixes rets ->
  (r ∉ sensor_registers) /\ 0 <= v <= 200 /\ u8 v = v.
Proof.
  intros Hin%writes_of_listed. unfold gen9_fixes in Hin.
  repeat (apply elem_of_cons in Hin as [Hin|Hin];
          [simplify_eq; split; [not_listed|split; [lia|done]]|]).
  by apply elem_of_nil in Hin.
Qed.

Lemma op_txns_writes op l reg value ret :
  op_txns op l -> TWrite reg value ret ∈ l ->
  (reg ∉ sensor_registers) /\ 0 <= value <= 200 /\ u8 value = value.
Proof.
  intros Hop Hin.
  destruct op; cbn [op_txns] in Hop;
    try (by destruct (one_read_no_write _ _ reg value ret Hop));
    try (subst l; by apply elem_of_nil in Hin);
    try (destruct (at_most_one_write_within _ _ _ _ _ _ Hop ltac:(lia) Hin)
           as (-> & Hv & Hu); split; [not_listed|done]).
  - destruct Hop as [->|(rets & _ & ->)]; [by apply elem_of_nil in Hin|].
    by eapply writes_of_gen9_fixes_within.
  - destruct (sensor_channel type channel) as [[r factor]|].
    + by destruct (one_read_no_write _ _ reg value ret Hop).
    + subst l. by apply elem_of_nil in Hin.
Qed.

(** The operations that only read. *)
Lemma op_txns_reads op l reg value ret :
  op_txns op l ->
  match op with
  | PerformanceModeStore _ _ | Fan1TargetStore _ _ | Fan2TargetStore _ _
  | CpuPl1Store _ _ | CpuPl2Store _ _ | GpuTgpStore _ _
  | RgbModeStore _ _ | RgbBrightnessStore _ _ | ApplyGen9FixesStore _ _ => True
  | _ => TWrite reg value ret ∉ l
  end.
Proof.
  intros Hop.
  destruct op; cbn [op_txns] in Hop; try exact I;
    try (by eapply one_read_no_write);
    try (subst l; by intros Hin%elem_of_nil).
  destruct (sensor_channel type channel) as [[r factor]|].
  - by eapply one_read_no_write.
  - subst l. by intros Hin%elem_of_nil.
Qed.

(** X7: what the driver never does.  Whatever the operation and its input,
    every write it sends goes to a register that is none of the fan-speed
    and temperature registers, with a value from 0 to 200, which the cast to
    a byte leaves as it is; and the show handlers, the sensor callbacks and
    detach send no write at all. *)
Theorem sensors_are_never_written op w :
  ec_mutex w = false -> is_Some (legion_dev w) ->
  exists w' l t,
    run op w = Some w' /\ trace w' = trace w ++ t /\ txns l t /\
    (forall reg value ret, TWrite reg value ret ∈ l ->
       (reg ∉ sensor_registers) /\ 0 <= value <= 200 /\ u8 value = value) /\
    (forall reg value ret,
       match op with
       | PerformanceModeStore _ _ | Fan1TargetStore _ _ | Fan2TargetStore _ _
       | CpuPl1Store _ _ | CpuPl2Store _ _ | GpuTgpStore _ _
       | RgbModeStore _ _ | RgbBrightnessStore _ _ | ApplyGen9FixesStore _ _ => True
       | _ => TWrite reg value ret ∉ l
       end).
Proof.
  intros Hfree Hdev. destruct (logged_run op) as (A & m & -> & Hm).
  destruct (Hm w Hfree Hdev) as (a & w' & l & t & Hrun & _ & _ & Ht & Hl & Hop).
  exists w', l, t. unfold after. rewrite Hrun. do 3 (split; [done|]). split.
  - intros reg value ret. by apply (op_txns_writes op).
  - intros reg value ret. by apply op_txns_reads.
Qed.

End Footprint.

(** * Module load and unload *)

Section LoadUnload.

Implicit Types (k : kernel) (f : dmi_field).

Lemma strstr_contains k f text :
  contains k f text <->
  match dmi_ident k f with Some s => strstr s text | None => false end = true.
Proof.
  unfold contains. split.
  - by intros (s & -> & Hs).
  - destruct (dmi_ident k f) as [s|]; [by exists s|done].
Qed.

Lemma dmi_check_system_supported k :
  dmi_check_system legion_dmi_table k <> 0 <-> supported k.
Proof.
  unfold supported. rewrite !strstr_contains.
  cbn [dmi_check_system legion_dmi_table dmi_matches forallb fst snd].
  destruct (match dmi_ident k DMI_SYS_VENDOR with Some s => strstr s "LENOVO" | None => false end),
    (match dmi_ident k DMI_PRODUCT_NAME with Some s => strstr s "16IRX9" | None => false end),
    (match dmi_ident k DMI_PRODUCT_VERSION with
     | Some s => strstr s "Legion Slim 7i Gen 9" | None => false end),
    (match dmi_ident k DMI_BOARD_NAME with Some s => strstr s "LNVNB161216" | None => false end);
    cbn [andb]; split; intros H; try done; try lia; try tauto;
    try (by destruct H as [? [?|[?|?]]]); try (split; [done|tauto]).
Qed.

Lemma request_region_free start k :
  start ∉ ioports k ->
  request_region start 1 k =
    (true, Kernel (dmi_ident k) ({[start]} ∪ ioports k) (driver_registered k)
             (platform_devices k) (legion_platform_device k)).
Proof.
  intros Hfree. unfold request_region. change (seqZ start 1) with [start].
  destruct (decide _) as [_|Hno].
  - by rewrite list_to_set_singleton_L.
  - destruct Hno. by apply Forall_singleton.
Qed.

Lemma request_region_busy start k :
  start ∈ ioports k -> request_region start 1 k = (false, k).
Proof.
  intros Hbusy. unfold request_region. change (seqZ start 1) with [start].
  destruct (decide _) as [Hall|_]; [|done].
  apply Forall_inv in Hall. by destruct Hall.
Qed.

Lemma release_region_claimed start k X :
  start ∉ X -> ioports k = {[start]} ∪ X ->
  release_region start 1 k =
    Kernel (dmi_ident k) X (driver_registered k) (platform_devices k)
      (legion_platform_device k).
Proof.
  intros Hfree Hk. unfold release_region. change (seqZ start 1) with [start].
  f_equal. rewrite Hk, list_to_set_singleton_L, difference_union_distr_l_L.
  rewrite difference_diag_L, (left_id_L ∅ (∪)). by apply difference_disjoint_L, disjoint_singleton_r.
Qed.

Lemma legion_laptop_init_unsupported driver_ret device_ptr k :
  ~ supported k -> legion_laptop_init driver_ret device_ptr k = (- ENODEV, k).
Proof.
  intros Hno. unfold legion_laptop_init.
  destruct (Z.eqb_spec (dmi_check_system legion_dmi_table k) 0) as [_|Hnz]; [done|].
  by apply dmi_check_system_supported in Hnz.
Qed.

Lemma data_is_not_cmd : EC_PORT_DATA <> EC_PORT_CMD.
Proof. discriminate. Qed.

Lemma legion_laptop_init_busy driver_ret device_ptr k :
  supported k -> ~ ports_free k ->
  legion_laptop_init driver_ret device_ptr k = (- EBUSY, k).
Proof.
  intros Hsup Hbusy. unfold legion_laptop_init.
  apply dmi_check_system_supported, Z.eqb_neq in Hsup. rewrite Hsup.
  destruct (decide (EC_PORT_CMD ∈ ioports k)) as [Hcmd|Hcmd].
  { by rewrite request_region_busy. }
  rewrite request_region_free by done. cbn [negb].
  destruct (decide (EC_PORT_DATA ∈ ioports k)) as [Hdata|Hdata].
  - rewrite request_region_busy by (cbn [ioports]; apply elem_of_union; by right).
    cbn [negb]. rewrite (release_region_claimed _ _ (ioports k)) by done.
    by destruct k.
  - by destruct Hbusy.
Qed.

(** Past the two requests: the kernel with both ports claimed. *)
Lemma legion_laptop_init_claimed driver_ret device_ptr k :
  supported k -> ports_free k ->
  legion_laptop_init driver_ret device_ptr k =
    let k2 := Kernel (dmi_ident k) ({[EC_PORT_DATA]} ∪ ({[EC_PORT_CMD]} ∪ ioports k))
                (driver_registered k) (platform_devices k) (legion_platform_device k) in
    let k3 := platform_driver_register driver_ret k2 in
    if negb (driver_ret =? 0) then (driver_ret, err_regions k3)
    else
      let k4 := set_legion_platform_device device_ptr
                  (platform_device_register_simple device_ptr k3) in
      if IS_ERR device_ptr then (device_ptr, err_driver k4) else (0, k4).
Proof.
  intros Hsup [Hcmd Hdata]. unfold legion_laptop_init.
  apply dmi_check_system_supported, Z.eqb_neq in Hsup. rewrite Hsup.
  rewrite request_region_free by done. cbn [negb].
  rewrite request_region_free; [done|].
  cbn [ioports]. rewrite elem_of_union, elem_of_singleton.
  intros [Heq|Hin]; [by apply data_is_not_cmd|done].
Qed.

Lemma err_regions_claimed k ident X drv devs gp :
  EC_PORT_CMD ∉ X -> EC_PORT_DATA ∉ X ->
  k = Kernel ident ({[EC_PORT_DATA]} ∪ ({[EC_PORT_CMD]} ∪ X)) drv devs gp ->
  err_regions k = Kernel ident X drv devs gp.
Proof.
  intros Hcmd Hdata ->. unfold err_regions.
  rewrite (release_region_claimed EC_PORT_DATA _ ({[EC_PORT_CMD]} ∪ X)); [|..|done].
  - cbn [dmi_ident driver_registered platform_devices legion_platform_device].
    by rewrite (release_region_claimed EC_PORT_CMD _ X).
  - rewrite elem_of_union, elem_of_singleton.
    intros [Heq|Hin]; [by apply data_is_not_cmd|done].
Qed.

(** X8: load is all or nothing.  On a machine the table does not describe
    [legion_laptop_init] returns [-ENODEV]; with one of the two ports of the
    controller claimed by someone else, [-EBUSY]; with the driver refused,
    what [platform_driver_register] returned: in all three the kernel is
    left exactly as it was, a port claimed on the way released again.  With
    the device refused it returns the error in the pointer, the driver is
    unregistered and the ports released again, and only the variable
    [legion_platform_device] keeps the error pointer.  Otherwise it returns
    0 with both ports claimed, the driver and the device registered and the
    device in [legion_platform_device]. *)
Theorem legion_laptop_init_all_or_nothing driver_ret device_ptr k :
  driver_registered k = false ->
  (~ supported k -> legion_laptop_init driver_ret device_ptr k = (- ENODEV, k)) /\
  (supported k -> ~ ports_free k ->
   legion_laptop_init driver_ret device_ptr k = (- EBUSY, k)) /\
  (supported k -> ports_free k -> driver_ret <> 0 ->
   legion_laptop_init driver_ret device_ptr k = (driver_ret, k)) /\
  (supported k -> ports_free k -> driver_ret = 0 -> IS_ERR device_ptr = true ->
   legion_laptop_init driver_ret device_ptr k =
     (device_ptr, set_legion_platform_device device_ptr k)) /\
  (supported k -> ports_free k -> driver_ret = 0 -> IS_ERR device_ptr = false ->
   legion_laptop_init driver_ret device_ptr k =
     (0, Kernel (dmi_ident k) ({[EC_PORT_DATA]} ∪ ({[EC_PORT_CMD]} ∪ ioports k)) true
           (device_ptr :: platform_devices k) device_ptr)).
Proof.
  intros Hdrv.
  split; [apply legion_laptop_init_unsupported|].
  split; [apply legion_laptop_init_busy|].
  split; [|split].
  - intros Hsup Hfree Hret. rewrite legion_laptop_init_claimed by done.
    cbv zeta. apply Z.eqb_neq in Hret. rewrite Hret. cbn [negb].
    unfold platform_driver_register. rewrite Hret. f_equal.
    destruct Hfree as [Hcmd Hdata]. destruct k.
    by apply (err_regions_claimed _ _ _ _ _ _ Hcmd Hdata).
  - intros Hsup Hfree -> Herr. rewrite legion_laptop_init_claimed by done.
    cbv zeta. cbn [Z.eqb negb]. rewrite Herr. f_equal.
    unfold platform_device_register_simple. rewrite Herr.
    destruct Hfree as [Hcmd Hdata]. destruct k. cbn in Hdrv. subst.
    by apply (err_regions_claimed _ _ _ _ _ _ Hcmd Hdata).
  - intros Hsup Hfree -> Hok. rewrite legion_laptop_init_claimed by done.
    cbv zeta. cbn [Z.eqb negb]. rewrite Hok.
    unfold platform_device_register_simple. by rewrite Hok.
Qed.

Lemma remove_first_head ptr l : remove_first ptr (ptr :: l) = l.
Proof. cbn [remove_first]. by rewrite decide_True. Qed.

Lemma IS_ERR_negative ptr : IS_ERR ptr = true -> ptr < 0.
Proof. unfold IS_ERR. intros [_ Hlt%Z.ltb_lt]%andb_prop. done. Qed.

(** A load that returned 0 went all the way. *)
Lemma legion_laptop_init_done driver_ret device_ptr k k' :
  legion_laptop_init driver_ret device_ptr k = (0, k') ->
  supported k /\ ports_free k /\ driver_ret = 0 /\ IS_ERR device_ptr = false.
Proof.
  intros Hinit.
  destruct (Z.eqb_spec (dmi_check_system legion_dmi_table k) 0) as [Hz|Hsup].
  { unfold legion_laptop_init in Hinit.
    apply Z.eqb_eq in Hz. rewrite Hz in Hinit. discriminate Hinit. }
  apply dmi_check_system_supported in Hsup.
  destruct (decide (EC_PORT_CMD ∈ ioports k)) as [Hcmd|Hcmd].
  { rewrite legion_laptop_init_busy in Hinit; [discriminate Hinit|done|].
    by intros [? _]. }
  destruct (decide (EC_PORT_DATA ∈ ioports k)) as [Hdata|Hdata].
  { rewrite legion_laptop_init_busy in Hinit; [discriminate Hinit|done|].
    by intros [_ ?]. }
  rewrite legion_laptop_init_claimed in Hinit by done. cbv zeta in Hinit.
  destruct (Z.eqb_spec driver_ret 0) as [->|Hret]; cbn [negb] in Hinit;
    [|by simplify_eq].
  destruct (IS_ERR device_ptr) eqn:Herr; [|done].
  apply IS_ERR_negative in Herr. simplify_eq. lia.
Qed.

(** X9: unload undoes load.  After a load that returned 0,
    [legion_laptop_exit] unregisters the device the load registered and the
    driver and releases both ports: the ports claimed and the devices
    registered are those from before the load, and the driver is not
    registered. *)
Theorem legion_laptop_exit_undoes_init driver_ret device_ptr k k' :
  driver_registered k = false ->
  legion_laptop_init driver_ret device_ptr k = (0, k') ->
  legion_laptop_exit k' = set_legion_platform_device device_ptr k /\
  ioports (legion_laptop_exit k') = ioports k /\
  platform_devices (legion_laptop_exit k') = platform_devices k /\
  driver_registered (legion_laptop_exit k') = false.
Proof.
  intros Hdrv Hinit.
  assert (legion_laptop_exit k' = set_legion_platform_device device_ptr k) as ->;
    [|by rewrite <- Hdrv].
  destruct (legion_laptop_init_done _ _ _ _ Hinit) as (Hsup & Hfree & -> & Hok).
  rewrite legion_laptop_init_claimed in Hinit by done. cbv zeta in Hinit.
  cbn [Z.eqb negb] in Hinit. rewrite Hok in Hinit.
  unfold platform_device_register_simple in Hinit. rewrite Hok in Hinit.
  injection Hinit as <-. destruct Hfree as [Hcmd Hdata]. destruct k. cbn in Hdrv. subst.
  unfold legion_laptop_exit, set_legion_platform_device, platform_device_unregister,
    platform_driver_unregister, platform_driver_register.
  cbn [Z.eqb dmi_ident ioports driver_registered platform_devices legion_platform_device].
  rewrite remove_first_head.
  by apply (err_regions_claimed _ _ _ _ _ _ Hcmd Hdata).
Qed.

End LoadUnload.

(** * The further statements at concrete inputs *)


Lemma transport_worst_case_witness :
  ec_mutex idle_world = false /\
  (exists ret stored w' body,
     ec_read EC_REG_CPU_TEMP idle_world = Done (ret, stored) w' /\
     trace w' = trace idle_world ++ Lock :: body ++ [Unlock] /\
     (poll_count body <= 3001)%nat /\ 0 <= delay_total body <= 30000) /\
  (exists ret w' body,
     ec_write EC_REG_CPU_TEMP 50 idle_world = Done ret w' /\
     trace w' = trace idle_world ++ Lock :: body ++ [Unlock] /\
     (poll_count body <= 4000)%nat /\ 0 <= delay_total body <= 40000).
Proof.
  split; [reflexivity|].
  exact (transport_worst_case (HW := FakeEC.t) EC_REG_CPU_TEMP 50 idle_world eq_refl).
Defined.

Lemma temperature_attribute_and_channel_agree_witness :
  exists w1,
    ec_read (temp_reg GpuTemp) fan_world = Done (0, Some 55) w1 /\
    temp_show GpuTemp fan_world = Done (3, Some ("55" ++ newline)%string) w1 /\
    kstrtoul ("55" ++ newline) = (0, Some 55) /\
    legion_hwmon_read hwmon_temp 0 (temp_channel GpuTemp) fan_world =
      Done (0, Some 55000) w1.
Proof.
  assert (exists w1, ec_read (temp_reg GpuTemp) fan_world = Done (0, Some 55) w1) as [w1 H1]
    by (eexists; vm_compute; reflexivity).
  destruct (temperature_attribute_and_channel_agree (HW := FakeEC.t) GpuTemp fan_world w1)
    as [Hok _].
  destruct (Hok 55 H1) as (_ & Hs & Hk & Hq).
  exists w1. split; [exact H1|]. split; [exact Hs|]. split; [exact Hk|exact (Hq 0)].
Defined.

Lemma performance_mode_show_then_store_witness :
  exists w1 text,
    ec_read EC_REG_PERFORMANCE_MODE performance_world = Done (0, Some 2) w1 /\
    performance_mode_show performance_world = Done (strlen text, Some text) w1 /\
    text = ("performance" ++ newline)%string /\
    exists ret w3,
      ec_write EC_REG_PERFORMANCE_MODE 2 idle_world = Done ret w3 /\
      performance_mode_store text 12 idle_world =
        if ret =? 0
        then Done 12 (World (ec w3) (ec_mutex w3)
                        (Some (with_performance_mode 2 zero_dev)) (trace w3))
        else Done ret w3.
Proof.
  assert (exists w1, ec_read EC_REG_PERFORMANCE_MODE performance_world = Done (0, Some 2) w1)
    as [w1 H1] by (eexists; vm_compute; reflexivity).
  destruct (performance_mode_show_then_store (HW := FakeEC.t) performance_world w1)
    as [Hok _].
  destruct (Hok 2 H1) as (text & Hshow & Htext & Hstore).
  destruct (Hstore 12 idle_world zero_dev eq_refl eq_refl) as [Hknown _].
  destruct (Hknown ltac:(lia)) as (ret & w3 & Hw & Hs).
  exists w1, text. split; [exact H1|]. split; [exact Hshow|]. split; [exact Htext|].
  exists ret, w3. split; [exact Hw|exact Hs].
Defined.

Lemma rgb_mode_store_checked_witness :
  ec_mutex idle_world = false /\
  ("rainbow", 3) ∈ rgb_modes /\
  names "rainbow" "rainbow" /\
  exists ret w1,
    ec_write EC_REG_RGB_MODE 3 idle_world = Done ret w1 /\
    legion_dev w1 = legion_dev idle_world /\
    rgb_mode_store "rainbow" 7 idle_world = Done (if ret =? 0 then 7 else ret) w1.
Proof.
  assert (("rainbow", 3) ∈ rgb_modes) as Hin by (unfold rgb_modes; set_solver).
  assert (names "rainbow" "rainbow") as Hname by (by left).
  split; [reflexivity|]. split; [exact Hin|]. split; [exact Hname|].
  destruct (rgb_mode_store_checked (HW := FakeEC.t) "rainbow" 7 idle_world eq_refl)
    as [Hacc _].
  destruct (Hacc "rainbow" 3 Hin Hname) as (ret & w1 & Hw & Hd & _ & Hs).
  exists ret, w1. split; [exact Hw|]. split; [exact Hd|exact Hs].
Defined.

Lemma operations_footprint_witness :
  ec_mutex idle_world = false /\ is_Some (legion_dev idle_world) /\
  exists w' l t,
    run (Fan1TargetStore "50" 2) idle_world = Some w' /\ ec_mutex w' = false /\
    trace w' = trace idle_world ++ t /\ txns l t /\
    op_txns (Fan1TargetStore "50" 2) l.
Proof.
  assert (is_Some (legion_dev idle_world)) as Hdev by (by exists zero_dev).
  split; [reflexivity|]. split; [exact Hdev|].
  exact (operations_footprint (HW := FakeEC.t) (Fan1TargetStore "50" 2) idle_world
           eq_refl Hdev).
Defined.

Lemma sensors_are_never_written_witness :
  ec_mutex fan_world = false /\ is_Some (legion_dev fan_world) /\
  exists w' l t,
    run (ApplyGen9FixesStore "1" 1) fan_world = Some w' /\
    trace w' = trace fan_world ++ t /\ txns l t /\
    forall reg value ret, TWrite reg value ret ∈ l ->
      (reg ∉ sensor_registers) /\ 0 <= value <= 200 /\ u8 value = value.
Proof.
  assert (is_Some (legion_dev fan_world)) as Hdev by (by exists zero_dev).
  split; [reflexivity|]. split; [exact Hdev|].
  destruct (sensors_are_never_written (HW := FakeEC.t) (ApplyGen9FixesStore "1" 1) fan_world
              eq_refl Hdev) as (w' & l & t & Hrun & Ht & Hl & Hw & _).
  exists w', l, t. split; [exact Hrun|]. split; [exact Ht|]. split; [exact Hl|exact Hw].
Defined.

Lemma legion_machine_supported : supported legion_machine.
Proof.
  split; [|right; left]; eexists; (split; [reflexivity|vm_compute; reflexivity]).
Qed.

Lemma legion_machine_ports_free : ports_free legion_machine.
Proof. split; cbn [legion_machine ioports]; apply not_elem_of_empty. Qed.

Lemma other_machine_unsupported : ~ supported other_machine.
Proof.
  intros [(s & Hs & Hc) _]. cbn in Hs. injection Hs as <-.
  vm_compute in Hc. discriminate Hc.
Qed.

Lemma legion_laptop_init_all_or_nothing_witness :
  driver_registered legion_machine = false /\
  driver_registered other_machine = false /\
  legion_laptop_init 0 4096 legion_machine =
    (0, Kernel (dmi_ident legion_machine)
          ({[EC_PORT_DATA]} ∪ ({[EC_PORT_CMD]} ∪ ioports legion_machine)) true
          (4096 :: platform_devices legion_machine) 4096) /\
  legion_laptop_init 0 (- ENOMEM) legion_machine =
    (- ENOMEM, set_legion_platform_device (- ENOMEM) legion_machine) /\
  legion_laptop_init 0 4096 other_machine = (- ENODEV, other_machine).
Proof.
  do 2 (split; [reflexivity|]).
  destruct (legion_laptop_init_all_or_nothing 0 4096 legion_machine eq_refl)
    as (_ & _ & _ & _ & Hok).
  destruct (legion_laptop_init_all_or_nothing 0 (- ENOMEM) legion_machine eq_refl)
    as (_ & _ & _ & Herr & _).
  destruct (legion_laptop_init_all_or_nothing 0 4096 other_machine eq_refl)
    as (Hno & _).
  split; [|split].
  - exact (Hok legion_machine_supported legion_machine_ports_free eq_refl eq_refl).
  - exact (Herr legion_machine_supported legion_machine_ports_free eq_refl eq_refl).
  - exact (Hno other_machine_unsupported).
Defined.

Lemma legion_laptop_exit_undoes_init_witness :
  driver_registered legion_machine = false /\
  exists k',
    legion_laptop_init 0 4096 legion_machine = (0, k') /\
    legion_laptop_exit k' = set_legion_platform_device 4096 legion_machine /\
    ioports (legion_laptop_exit k') = ioports legion_machine /\
    platform_devices (legion_laptop_exit k') = platform_devices legion_machine /\
    driver_registered (legion_laptop_exit k') = false.
Proof.
  split; [reflexivity|].
  assert (exists k', legion_laptop_init 0 4096 legion_machine = (0, k')) as [k' Hinit]
    by (eexists; vm_compute; reflexivity).
  exists k'. split; [exact Hinit|].
  exact (legion_laptop_exit_undoes_init 0 4096 legion_machine k' eq_refl Hinit).
Defined.

